(** * Resume scoring microservice: the scoring pipeline of [app/scorer.py]
      and the [/score] endpoint of [app/main.py], embedded and verified.

    Conventions of the embedding.
    - A Python [str] is the [string] of its UTF-8 bytes: equality and
      lexicographic comparison of the bytes are those of the characters.
      The blanks of [strip] and [split] are the characters of [str.isspace],
      in one, two or three bytes. [str.lower] lowers the letters A to Z of
      an ASCII text; on any other text it is the field [unicode_lower] of
      the environment, Python's case tables not being modelled.
    - Python integers are [Z]; Python floats are the binary64 numbers of
      [PrimFloat], with the same rounding as CPython.
    - A JSON object (a [dict] with string keys) is an association list in
      insertion order; [dict_set] keeps keys unique the way assignment does.
    - A Python [set] is iterated in an order the program does not control:
      the order is the field [set_iter] of the environment.
    - NLTK, fuzzywuzzy, joblib and the trained classifier are outside the
      repository: they are the fields of the class [Env]. The tokenizer,
      the tagger, the lemmatizer and the ratio are functions (NLTK has its
      resources); the loads and the classifier can raise any exception.
    - Exceptions are the left summand of the result of a computation in the
      monad [M], which also records the calls made to the collaborators.
    - Calls to [logger] do not change any result and are left out. *)

From Stdlib Require Import ZArith List String Ascii Bool Lia.
From Stdlib Require Import Permutation Sorted PrimFloat Uint63.
Import ListNotations.

Set Warnings "-inexact-float".

Open Scope string_scope.
Open Scope Z_scope.
Open Scope list_scope.

(* ------------------------------------------------------------------ *)
(** ** Python built-ins used by the source *)

Module Py.

(** [str.isspace] on the ASCII range: TAB..CR, FS..US and the blank. *)
Definition is_space (c : ascii) : bool :=
  let n := N_of_ascii c in
  (((9 <=? n) && (n <=? 13)) || ((28 <=? n) && (n <=? 32)))%N.

(** The blanks of two bytes: U+0085 (C2 85) and U+00A0 (C2 A0). *)
Definition blank2 (c1 c2 : ascii) : bool :=
  let n1 := N_of_ascii c1 in
  let n2 := N_of_ascii c2 in
  ((n1 =? 194) && ((n2 =? 133) || (n2 =? 160)))%N.

(** The blanks of three bytes: U+1680 (E1 9A 80), U+2000..U+200A
    (E2 80 80..8A), U+2028, U+2029, U+202F (E2 80 A8, A9, AF), U+205F
    (E2 81 9F) and U+3000 (E3 80 80). *)
Definition blank3 (c1 c2 c3 : ascii) : bool :=
  let n1 := N_of_ascii c1 in
  let n2 := N_of_ascii c2 in
  let n3 := N_of_ascii c3 in
  (((n1 =? 225) && (n2 =? 154) && (n3 =? 128)) ||
   ((n1 =? 226) && (n2 =? 128) &&
    (((128 <=? n3) && (n3 <=? 138)) || (n3 =? 168) || (n3 =? 169) ||
     (n3 =? 175))) ||
   ((n1 =? 226) && (n2 =? 129) && (n3 =? 159)) ||
   ((n1 =? 227) && (n2 =? 128) && (n3 =? 128)))%N.

(** The number of bytes of the blank character that starts [s]: 0 when [s]
    does not start with a character of [str.isspace]. *)
Definition blank_len (s : string) : nat :=
  match s with
  | EmptyString => 0
  | String c1 s1 =>
      if is_space c1 then 1
      else
        match s1 with
        | EmptyString => 0
        | String c2 s2 =>
            if blank2 c1 c2 then 2
            else
              match s2 with
              | EmptyString => 0
              | String c3 _ => if blank3 c1 c2 c3 then 3 else 0
              end
        end
  end.

(** [s[n:]] *)
Fixpoint drop (n : nat) (s : string) : string :=
  match n, s with
  | O, _ => s
  | S k, String _ s' => drop k s'
  | S _, EmptyString => EmptyString
  end.

Definition is_empty (s : string) : bool :=
  match s with EmptyString => true | String _ _ => false end.

(** [s.lstrip()] *)
Fixpoint lstrip (s : string) : string :=
  match s with
  | EmptyString => EmptyString
  | String c1 s1 =>
      if is_space c1 then lstrip s1
      else
        match s1 with
        | EmptyString => s
        | String c2 s2 =>
            if blank2 c1 c2 then lstrip s2
            else
              match s2 with
              | EmptyString => s
              | String c3 s3 => if blank3 c1 c2 c3 then lstrip s3 else s
              end
        end
  end.

(** [s.isspace() or s == ''] *)
Fixpoint all_blank (s : string) : bool :=
  match s with
  | EmptyString => true
  | String c1 s1 =>
      if is_space c1 then all_blank s1
      else
        match s1 with
        | EmptyString => false
        | String c2 s2 =>
            if blank2 c1 c2 then all_blank s2
            else
              match s2 with
              | EmptyString => false
              | String c3 s3 => if blank3 c1 c2 c3 then all_blank s3 else false
              end
        end
  end.

(** [s.rstrip()]: what precedes the blanks that end [s]. *)
Fixpoint rstrip (s : string) : string :=
  match s with
  | EmptyString => EmptyString
  | String c s' => if all_blank s then EmptyString else String c (rstrip s')
  end.

(** [s.strip()] *)
Definition strip (s : string) : string := rstrip (lstrip s).

(** [s.split()]: the maximal runs of non-blank characters of [s]. [cur] is
    the run being read, in reverse. *)
Fixpoint split_from (cur : list ascii) (s : string) : list string :=
  let flush (k : list string) :=
    match cur with
    | [] => k
    | _ :: _ => string_of_list_ascii (rev cur) :: k
    end in
  match s with
  | EmptyString => flush []
  | String c1 s1 =>
      if is_space c1 then flush (split_from [] s1)
      else
        match s1 with
        | EmptyString => split_from (c1 :: cur) s1
        | String c2 s2 =>
            if blank2 c1 c2 then flush (split_from [] s2)
            else
              match s2 with
              | EmptyString => split_from (c1 :: cur) s1
              | String c3 s3 =>
                  if blank3 c1 c2 c3 then flush (split_from [] s3)
                  else split_from (c1 :: cur) s1
              end
        end
  end.

Definition split (s : string) : list string := split_from [] s.

(** Text in which no blank starts at any position. *)
Fixpoint blank_free (s : string) : bool :=
  match s with
  | EmptyString => true
  | String _ s' => (blank_len s =? 0)%nat && blank_free s'
  end.

(** Text of ASCII characters only. *)
Definition ascii_only (s : string) : bool :=
  forallb (fun c => (N_of_ascii c <? 128)%N) (list_ascii_of_string s).

(** What [lstrip], [rstrip] and [strip] are on ASCII text, where every
    blank is one byte. *)
Fixpoint lstrip_ascii (s : string) : string :=
  match s with
  | EmptyString => EmptyString
  | String c s' => if is_space c then lstrip_ascii s' else s
  end.

Fixpoint rstrip_ascii (s : string) : string :=
  match s with
  | EmptyString => EmptyString
  | String c s' =>
      let r := rstrip_ascii s' in
      if is_space c && is_empty r then EmptyString else String c r
  end.

Definition strip_ascii (s : string) : string := rstrip_ascii (lstrip_ascii s).

(** [sep.join(l)] *)
Definition join (sep : string) (l : list string) : string :=
  String.concat sep l.

(** [s.replace(' ', '_')], as used for the artifact file names *)
Fixpoint replace_blank (s : string) : string :=
  match s with
  | EmptyString => EmptyString
  | String c s' =>
      String (if Ascii.eqb c " "%char then "_"%char else c) (replace_blank s')
  end.

(** [l[i:j]] for [0 <= i <= j] *)
Definition slice {A} (l : list A) (i j : nat) : list A :=
  firstn (j - i) (skipn i l).

(** [l[:k]] for any integer [k]: a negative [k] counts from the end. *)
Definition slice_to {A} (l : list A) (k : Z) : list A :=
  if k <? 0 then firstn (Z.to_nat (Z.of_nat (List.length l) + k)) l
  else firstn (Z.to_nat k) l.

(** [range(k)] *)
Definition range (k : Z) : list nat := seq 0 (Z.to_nat k).

(** [x in l] for a list of strings *)
Definition mem (x : string) (l : list string) : bool :=
  existsb (String.eqb x) l.

(** [sum(...)] of integers *)
Definition sum (l : list Z) : Z := fold_left Z.add l 0.

(** [a / b] on integers that a float represents exactly (below 2^53), the
    case in which CPython divides the two converted operands. The points
    divided by the scorer are at most three times the number of skills. *)
Definition float_of_int (z : Z) : float := PrimFloat.of_uint63 (Uint63.of_Z z).
Definition truediv (a b : Z) : float := (float_of_int a / float_of_int b)%float.

(** *** Dictionaries *)

Section Dict.
Context {V : Type}.

(** [d.get(k)] *)
Fixpoint dict_get (d : list (string * V)) (k : string) : option V :=
  match d with
  | [] => None
  | (k', v) :: d' => if String.eqb k k' then Some v else dict_get d' k
  end.

(** [d.get(k, default)] *)
Definition dict_get_or (d : list (string * V)) (k : string) (default : V) : V :=
  match dict_get d k with Some v => v | None => default end.

(** [d[k] = v] *)
Fixpoint dict_set (d : list (string * V)) (k : string) (v : V)
  : list (string * V) :=
  match d with
  | [] => [(k, v)]
  | (k', v') :: d' =>
      if String.eqb k k' then (k', v) :: d' else (k', v') :: dict_set d' k v
  end.

(** [{k: v for (k, v) in items}] *)
Definition dict_of_items (items : list (string * V)) : list (string * V) :=
  fold_left (fun d kv => dict_set d (fst kv) (snd kv)) items [].

(** [d.keys()] *)
Definition keys (d : list (string * V)) : list string := map fst d.
End Dict.

(** *** [sorted]: a stable sort, here by insertion *)

Section Sorted.
Context {A : Type} (le : A -> A -> bool).

Fixpoint insert (x : A) (l : list A) : list A :=
  match l with
  | [] => [x]
  | y :: l' => if le x y then x :: l else y :: insert x l'
  end.

Definition sorted (l : list A) : list A := fold_right insert [] l.
End Sorted.

(** Order on the keys [(rank, name)] of the missing skills: tuples compare
    lexicographically. *)
Definition key_le (a b : Z * string) : bool :=
  (fst a <? fst b) || ((fst a =? fst b) && String.leb (snd a) (snd b)).

End Py.
Import Py.

(* ------------------------------------------------------------------ *)
(** ** Exceptions, recorded calls and the monad of the scoring call *)

(** Exceptions that leave [score_resume]. *)
Inductive exn : Type :=
| ValueError (msg : string)
| FileNotFoundError (path : string)
| KeyError (key : string)
| OtherException (msg : string).

(** The [detail] of an [HTTPException] of [post_score]. *)
Inductive detail : Type :=
| Detail (msg : string)
    (* a literal message, or [str(e)] of a [ValueError] *)
| DetailUnsupportedGoal (goal : string) (supported : list string)
    (* f"Unsupported goal '{goal}'. Supported: {supported}" *)
| DetailProcessing (e : exn)
    (* f"Error processing resume: {str(e)}" *).

Inductive http_error : Type :=
| HTTPException (status_code : Z) (d : detail).

(** Work done on behalf of a request, in the order it is done. *)
Inductive event : Type :=
| EvJoblibLoad (path : string)          (* joblib.load(path) *)
| EvPredict (text : string)             (* transform and predict_proba *)
| EvLoadAlternates                      (* load_alternate_skills() *)
| EvLemmatize (text : string)           (* lemmatization of the resume *)
| EvMatch (phrase : string) (threshold : Z)
                                        (* a call of the fuzzy matcher *).

Definition M (E A : Type) : Type := (list event * (E + A))%type.

Definition ret {E A} (a : A) : M E A := ([], inr a).
Definition raise {E A} (e : E) : M E A := ([], inl e).
Definition emit {E} (ev : event) : M E unit := ([ev], inr tt).

Definition bind {E A B} (m : M E A) (k : A -> M E B) : M E B :=
  match m with
  | (t, inl e) => (t, inl e)
  | (t, inr a) => let (t', r) := k a in (t ++ t', r)
  end.

(** [try: m  except e: h e] *)
Definition try_except {E E' A} (m : M E A) (h : E -> M E' A) : M E' A :=
  match m with
  | (t, inl e) => let (t', r) := h e in (t ++ t', r)
  | (t, inr a) => (t, inr a)
  end.

Notation "'let*' x ':=' m 'in' k" := (bind m (fun x => k))
  (at level 10, x name, m at level 100, k at level 200).

(** [for x in l: s = body s x] *)
Fixpoint for_each {E S X} (l : list X) (body : S -> X -> M E S) (s : S)
  : M E S :=
  match l with
  | [] => ret s
  | x :: l' => let* s' := body s x in for_each l' body s'
  end.

Definition trace {E A} (m : M E A) : list event := fst m.
Definition outcome {E A} (m : M E A) : E + A := snd m.

(* ------------------------------------------------------------------ *)
(** ** The collaborators of the scorer *)

Inductive wordnet_pos : Type := ADJ | NOUN | VERB | ADV.

(** What opening and decoding a JSON file gives: its content, or one of the
    two exceptions that the loaders of the scorer catch, or any other
    exception ([PermissionError], [UnicodeDecodeError], ...). *)
Inductive file_read (A : Type) : Type :=
| Loaded (content : A)
| Absent                       (* FileNotFoundError *)
| Malformed                    (* json.JSONDecodeError *)
| Failed (e : exn).

Arguments Loaded {A} content.
Arguments Absent {A}.
Arguments Malformed {A}.
Arguments Failed {A} e.

Class Env : Type := {
  (** the type of a pickled classifier or vectorizer *)
  artifact : Type;
  (** [nltk.word_tokenize] *)
  word_tokenize : string -> list string;
  (** [nltk.pos_tag([word])[0][1][0]]: first letter of the tag of [word] *)
  pos_tag_initial : string -> ascii;
  (** [WordNetLemmatizer().lemmatize] *)
  wordnet_lemmatize : string -> wordnet_pos -> string;
  (** [fuzz.ratio], a similarity between 0 and 100 *)
  fuzz_ratio : string -> string -> Z;
  (** [joblib.load] on a file of [app/model]: the artifact, or the exception
      that leaves the call, [FileNotFoundError] when the file is absent *)
  joblib_load : string -> exn + artifact;
  (** [model.predict_proba(vectorizer.transform([text]))[0][1]] *)
  predict_proba : artifact -> artifact -> string -> exn + float;
  (** what reading [data/alternate_skills.json] gives *)
  alternate_skills_file : file_read (list (string * list string));
  (** [str.lower] on a text that has a character outside ASCII *)
  unicode_lower : string -> string;
  (** the order in which a set with the given elements is iterated *)
  set_iter : list string -> list string
}.

(* ------------------------------------------------------------------ *)
(** ** app/scorer.py *)

Record Requirement : Type := { name : string; importance : string }.

Record Config : Type := {
  minimum_score_to_pass : option float;
  max_missing_skills : option Z;
  log_score_details : option bool;
  model_goals_supported : list string
}.

Record ScoreResult : Type := {
  score : float;
  is_pass : bool;
  matched_skills : list string;
  missing_skills : list string;
  missing_skills_grouped : list (string * list string);
  suggested_learning_path : list string
}.

Definition lower_char (c : ascii) : ascii :=
  let n := N_of_ascii c in
  if ((65 <=? n) && (n <=? 90))%N then ascii_of_N (n + 32) else c.

Definition upper_char (c : ascii) : ascii :=
  let n := N_of_ascii c in
  if ((97 <=? n) && (n <=? 122))%N then ascii_of_N (n - 32) else c.

Fixpoint lower_ascii (s : string) : string :=
  match s with
  | EmptyString => EmptyString
  | String c s' => String (lower_char c) (lower_ascii s')
  end.

(** [s.lower()]: on ASCII text the letters A to Z are lowered. *)
Definition lower {env : Env} (s : string) : string :=
  if ascii_only s then lower_ascii s else unicode_lower s.

Definition importance_order : list (string * Z) :=
  [("core", 1); ("important", 2); ("nice_to_have", 3)].

Definition importance_weights : list (string * Z) :=
  [("core", 3); ("important", 2); ("nice_to_have", 1)].

Definition confidence_threshold : Z := 70.
Definition partial_threshold : Z := 55.
Definition model_weight : float := 0.6%float.
Definition skill_weight : float := 0.4%float.

Section Scorer.
Context {env : Env}.

Definition get_wordnet_pos (word : string) : wordnet_pos :=
  let tag := upper_char (pos_tag_initial word) in
  if Ascii.eqb tag "J" then ADJ
  else if Ascii.eqb tag "N" then NOUN
  else if Ascii.eqb tag "V" then VERB
  else if Ascii.eqb tag "R" then ADV
  else NOUN.

Definition lemmatize_text_for_matching (text : string) : string :=
  let tokens := word_tokenize (lower text) in
  let lemmatized :=
    map (fun token => wordnet_lemmatize token (get_wordnet_pos token)) tokens in
  join " " lemmatized.

(** The loop over the windows, lines 41-46: [true] as soon as a window
    reaches the threshold. *)
Fixpoint window_loop (text_words : list string) (n : nat)
    (phrase_lemmatized : string) (threshold : Z) (indices : list nat) : bool :=
  match indices with
  | [] => false
  | i :: rest =>
      let candidate := join " " (slice text_words i (i + n)) in
      let score := fuzz_ratio candidate phrase_lemmatized in
      if threshold <=? score then true
      else window_loop text_words n phrase_lemmatized threshold rest
  end.

(** The two nested loops over words, lines 49-52. *)
Fixpoint text_word_loop (word : string) (text_words : list string) : bool :=
  match text_words with
  | [] => false
  | text_word :: rest =>
      if 80 <=? fuzz_ratio word text_word then true
      else text_word_loop word rest
  end.

Fixpoint phrase_word_loop (phrase_words text_words : list string) : bool :=
  match phrase_words with
  | [] => false
  | word :: rest =>
      if text_word_loop word text_words then true
      else phrase_word_loop rest text_words
  end.

Definition phrase_in_lemmatized_text
    (phrase lemmatized_text : string) (threshold : Z) : bool :=
  let phrase_lemmatized := lemmatize_text_for_matching phrase in
  let phrase_words := split phrase_lemmatized in
  let n := List.length phrase_words in
  let text_words := split lemmatized_text in
  if window_loop text_words n phrase_lemmatized threshold
       (range (Z.of_nat (List.length text_words) - Z.of_nat n + 1))
  then true
  else if (1 <? Z.of_nat n) && phrase_word_loop phrase_words text_words
  then true
  else false.

(** A call of the matcher from [score_resume]. *)
Definition call_matcher (phrase lemmatized_text : string) (threshold : Z)
  : M exn bool :=
  let* _ := emit (EvMatch phrase threshold) in
  ret (phrase_in_lemmatized_text phrase lemmatized_text threshold).

Definition load_alternate_skills : M exn (list (string * list string)) :=
  let* _ := emit EvLoadAlternates in
  match alternate_skills_file with
  | Loaded d => ret d
  | Absent | Malformed => ret []
  | Failed e => raise e
  end.

Definition load_artifact (filename : string) : M exn artifact :=
  let* _ := emit (EvJoblibLoad filename) in
  match joblib_load filename with
  | inr a => ret a
  | inl e => raise e
  end.

Definition load_model (goal : string) : M exn artifact :=
  load_artifact (replace_blank goal ++ "_model.pkl")%string.

Definition load_vectorizer (goal : string) : M exn artifact :=
  load_artifact (replace_blank goal ++ "_vectorizer.pkl")%string.

(** [set(l)], as the list of its elements in iteration order *)
Definition set_of (l : list string) : list string :=
  set_iter (nodup string_dec l).

(** The loop over the alternates of a skill, lines 142-148: the value is
    [found_alternate]. *)
Fixpoint alternates_loop (alts : list string) (lemmatized_resume_text : string)
  : M exn bool :=
  match alts with
  | [] => ret false
  | alt :: rest =>
      let* hit :=
        call_matcher alt lemmatized_resume_text confidence_threshold in
      if hit then ret true else alternates_loop rest lemmatized_resume_text
  end.

(** The body of the loop over the skills of the goal, lines 133-158. The
    state is [(matched_skills, all_missing_skills)]. *)
Definition resolve_skill
    (goal_skills_with_importance : list (string * string))
    (alternate_skills_map : list (string * list string))
    (lemmatized_resume_text : string)
    (st : list string * list (string * string)) (skill_name : string)
  : M exn (list string * list (string * string)) :=
  let (matched_skills, all_missing_skills) := st in
  let* direct :=
    call_matcher skill_name lemmatized_resume_text confidence_threshold in
  if direct then ret (matched_skills ++ [skill_name], all_missing_skills)
  else
    let* found_alternate :=
      match dict_get alternate_skills_map skill_name with
      | Some alts => alternates_loop alts lemmatized_resume_text
      | None => ret false
      end in
    if found_alternate
    then ret (matched_skills ++ [skill_name], all_missing_skills)
    else
      let* partial :=
        call_matcher skill_name lemmatized_resume_text partial_threshold in
      if partial then ret (matched_skills ++ [skill_name], all_missing_skills)
      else
        let importance :=
          dict_get_or goal_skills_with_importance skill_name "unknown" in
        ret (matched_skills, all_missing_skills ++ [(skill_name, importance)]).

(** The weight of a skill in the skill score, lines 163 and 167. *)
Definition skill_points (goal_skills_with_importance : list (string * string))
    (skill : string) : Z :=
  dict_get_or importance_weights
    (dict_get_or goal_skills_with_importance skill "nice_to_have") 0.

(** The sort key of line 182. *)
Definition missing_key (x : string * string) : Z * string :=
  (dict_get_or importance_order (snd x) 99, fst x).

(** The body of the loop over the groups, lines 191-200. *)
Definition group_step (requirements : list Requirement)
    (matched_skills : list string) (all_missing_skills : list (string * string))
    (missing_grouped : list (string * list string))
    (entry : string * list string) : list (string * list string) :=
  let (group, skills_in_group) := entry in
  let group_skill_names :=
    set_of (map name
              (filter (fun item => mem (name item) skills_in_group) requirements)) in
  let group_matched :=
    filter (fun s => mem s group_skill_names) matched_skills in
  match group_matched with
  | _ :: _ =>
      let to_recommend :=
        sorted String.leb
          (filter (fun s => negb (mem s matched_skills)) group_skill_names) in
      match to_recommend with
      | _ :: _ => dict_set missing_grouped group to_recommend
      | [] => missing_grouped
      end
  | [] =>
      let group_missing :=
        map fst (filter (fun x => mem (fst x) group_skill_names)
                   all_missing_skills) in
      match group_missing with
      | _ :: _ =>
          dict_set missing_grouped group (sorted String.leb group_missing)
      | [] => missing_grouped
      end
  end.

Definition score_resume (student_id goal resume_text : string)
    (config : Config)
    (goals_map : list (string * list Requirement))
    (suggestion_map : list (string * string))
    (skill_groups : list (string * list (string * list string)))
  : M exn ScoreResult :=
  (* Validate input *)
  if is_empty (strip resume_text)
  then raise (ValueError "Resume text cannot be empty")
  else
  (* Load model and compute model score *)
  let* model := load_model goal in
  let* vectorizer := load_vectorizer goal in
  let* prob :=
    (let* _ := emit (EvPredict resume_text) in
     match predict_proba model vectorizer resume_text with
     | inl e => raise e
     | inr p => ret p
     end) in
  (* Extract goal-specific skills *)
  let requirements := dict_get_or goals_map goal [] in
  let goal_skills_with_importance :=
    dict_of_items
      (map (fun item => (name item, importance item)) requirements) in
  let goal_skill_names := set_of (keys goal_skills_with_importance) in
  (* Load alternate skills *)
  let* alternate_skills_map := load_alternate_skills in
  (* Preprocess resume text *)
  let* lemmatized_resume_text :=
    (let* _ := emit (EvLemmatize resume_text) in
     ret (lemmatize_text_for_matching resume_text)) in
  (* Match skills using fuzzy phrase matching *)
  let* st :=
    for_each goal_skill_names
      (resolve_skill goal_skills_with_importance alternate_skills_map
         lemmatized_resume_text)
      ([], []) in
  let (matched_skills, all_missing_skills) :=
    st : list string * list (string * string) in
  (* Calculate skill score *)
  let total_skill_points :=
    sum (map (skill_points goal_skills_with_importance) goal_skill_names) in
  let matched_skill_points :=
    sum (map (skill_points goal_skills_with_importance) matched_skills) in
  let skill_score :=
    if 0 <? total_skill_points
    then truediv matched_skill_points total_skill_points
    else 0%float in
  (* Combine with model score *)
  let final_score := (model_weight * prob + skill_weight * skill_score)%float in
  (* Determine pass/fail based on final score *)
  match minimum_score_to_pass config with
  | None => raise (KeyError "minimum_score_to_pass")
  | Some minimum =>
  let is_pass := PrimFloat.leb minimum final_score in
  (* Cap missing skills based on config *)
  let max_missing_skills :=
    match max_missing_skills config with Some k => k | None => 15 end in
  let sorted_missing_skills :=
    sorted (fun x y => key_le (missing_key x) (missing_key y))
      all_missing_skills in
  let capped_missing_skills_names :=
    slice_to (map fst sorted_missing_skills) max_missing_skills in
  (* Generate suggestions *)
  let suggestions :=
    map (fun skill_name =>
           dict_get_or suggestion_map skill_name
             ("Learn basics of " ++ skill_name)%string)
      capped_missing_skills_names in
  (* Group-level insights *)
  let missing_grouped :=
    fold_left (group_step requirements matched_skills all_missing_skills)
      (dict_get_or skill_groups goal []) [] in
  ret {| score := final_score;
         is_pass := is_pass;
         matched_skills := sorted String.leb matched_skills;
         missing_skills := sorted String.leb capped_missing_skills_names;
         missing_skills_grouped := missing_grouped;
         suggested_learning_path := suggestions |}
  end.

(* ---------------------------------------------------------------- *)
(** ** app/main.py *)

Record ScoreRequest : Type := {
  req_student_id : string;
  req_goal : string;
  req_resume_text : string
}.

Definition post_score (config : Config)
    (goals_map : list (string * list Requirement))
    (suggestion_map : list (string * string))
    (skill_groups : list (string * list (string * list string)))
    (request : ScoreRequest) : M http_error ScoreResult :=
  (* Input validation *)
  if is_empty (strip (req_resume_text request))
  then raise (HTTPException 400 (Detail "Resume text cannot be empty"))
  (* Unsupported goal check *)
  else if negb (mem (req_goal request) (model_goals_supported config))
  then raise (HTTPException 400
                (DetailUnsupportedGoal (req_goal request)
                   (model_goals_supported config)))
  (* Call scorer logic with error handling *)
  else
    try_except
      (score_resume (req_student_id request) (req_goal request)
         (req_resume_text request) config goals_map suggestion_map skill_groups)
      (fun e =>
         match e with
         | ValueError msg => raise (HTTPException 400 (Detail msg))
         | _ => raise (HTTPException 500 (DetailProcessing e))
         end).

End Scorer.

(* ------------------------------------------------------------------ *)
(** ** The specification's vocabulary *)

Module Spec.

(** Importance tiers of the data model and their tables. *)
Inductive tier : Type := core | important | nice_to_have.

Definition tier_of (imp : string) : option tier :=
  if String.eqb imp "core" then Some core
  else if String.eqb imp "important" then Some important
  else if String.eqb imp "nice_to_have" then Some nice_to_have
  else None.

Definition weight (t : tier) : Z :=
  match t with core => 3 | important => 2 | nice_to_have => 1 end.

Definition rank (t : tier) : Z :=
  match t with core => 1 | important => 2 | nice_to_have => 3 end.

(** Rank used for ordering: unrecognized importance sorts last. *)
Definition rank_of (imp : string) : Z :=
  match tier_of imp with Some t => rank t | None => 99 end.

Definition weight_of (r : Requirement) : Z :=
  match tier_of (importance r) with Some t => weight t | None => 0 end.

(** Section 4.4: weighted coverage, 0 for a goal without requirements. *)
Definition skill_score (requirements : list Requirement) (matched : list string)
  : float :=
  match requirements with
  | [] => 0%float
  | _ :: _ =>
      truediv
        (sum (map weight_of
                (filter (fun r => mem (name r) matched) requirements)))
        (sum (map weight_of requirements))
  end.

(** The requirements that count in the score: a skill named more than once
    counts once, with the importance of its last requirement. *)
Fixpoint effective (requirements : list Requirement) : list Requirement :=
  match requirements with
  | [] => []
  | r :: rest =>
      if mem (name r) (map name rest) then effective rest
      else r :: effective rest
  end.

(** A requirement whose importance is one of the three tiers. *)
Definition recognized (r : Requirement) : bool :=
  match tier_of (importance r) with Some _ => true | None => false end.

(** Weighted coverage of the requirements [counted] by the skills
    [matched]: 0 when there is no weight to cover. *)
Definition coverage_of (counted : list Requirement) (matched : list string)
  : float :=
  let total := sum (map weight_of counted) in
  if 0 <? total
  then
    truediv
      (sum (map weight_of (filter (fun r => mem (name r) matched) counted)))
      total
  else 0%float.

Definition coverage (requirements : list Requirement) (matched : list string)
  : float :=
  coverage_of (effective requirements) matched.

(** The weight that counts an unrecognized importance as nice_to_have, and
    the coverage with this weight in the denominator. *)
Definition defaulted_weight_of (r : Requirement) : Z :=
  match tier_of (importance r) with
  | Some t => weight t
  | None => weight nice_to_have
  end.

Definition defaulted_skill_score (requirements : list Requirement)
    (matched : list string) : float :=
  match requirements with
  | [] => 0%float
  | _ :: _ =>
      truediv
        (sum (map defaulted_weight_of
                (filter (fun r => mem (name r) matched) requirements)))
        (sum (map defaulted_weight_of requirements))
  end.

(** Section 3: the outcome of resolving one requirement. *)
Inductive match_result : Type :=
| matched_direct
| matched_alternate (alt : string)
| matched_partial
| missing (imp : string).

(** Section 4.3, steps 1 to 4. [matches p t] is the matcher on the resume;
    [alternates] is the entry of the skill in the alternate table. *)
Definition classify (matches : string -> Z -> bool) (s : string)
    (alternates : option (list string)) (imp : string) : match_result :=
  if matches s 70 then matched_direct
  else
    match alternates with
    | Some alts =>
        match find (fun alt => matches alt 70) alts with
        | Some alt => matched_alternate alt
        | None => if matches s 55 then matched_partial else missing imp
        end
    | None => if matches s 55 then matched_partial else missing imp
    end.

(** The alternates that are tried: those up to the first hit, included. *)
Fixpoint tried_alternates (matches : string -> Z -> bool) (alts : list string)
  : list string :=
  match alts with
  | [] => []
  | alt :: rest =>
      if matches alt 70 then [alt] else alt :: tried_alternates matches rest
  end.

(** The matcher attempts of steps 1 to 3, in the order they are made: the
    partial attempt comes only after every alternate has failed. *)
Definition attempts (matches : string -> Z -> bool) (s : string)
    (alternates : option (list string)) : list (string * Z) :=
  (s, 70) ::
  if matches s 70 then []
  else
    let alts := match alternates with Some alts => alts | None => [] end in
    map (fun alt => (alt, 70)) (tried_alternates matches alts) ++
    match find (fun alt => matches alt 70) alts with
    | Some _ => []
    | None => [(s, 55)]
    end.

(** The effect of an outcome on the lists kept by the resolver. *)
Definition record_result (s : string) (r : match_result)
    (st : list string * list (string * string))
  : list string * list (string * string) :=
  match r with
  | missing imp => (fst st, snd st ++ [(s, imp)])
  | _ => (fst st ++ [s], snd st)
  end.

Section Matcher.
Context {env : Env}.

(** Section 4.2, steps 2 and 3: some window of [n] consecutive words of the
    text reaches the threshold against the normalized phrase. *)
Definition window_match (phrase_norm : string) (n : nat)
    (text_words : list string) (threshold : Z) : Prop :=
  exists before window after,
    text_words = before ++ window ++ after /\
    List.length window = n /\
    threshold <= fuzz_ratio (join " " window) phrase_norm.

(** Section 4.2, step 4: some phrase word and some text word reach 80. *)
Definition word_match (phrase_words text_words : list string) : Prop :=
  exists word text_word,
    In word phrase_words /\ In text_word text_words /\
    80 <= fuzz_ratio word text_word.

Definition matches (phrase normalized_text : string) (threshold : Z) : Prop :=
  let phrase_norm := lemmatize_text_for_matching phrase in
  let n := List.length (split phrase_norm) in
  window_match phrase_norm n (split normalized_text) threshold \/
  ((1 < n)%nat /\ word_match (split phrase_norm) (split normalized_text)).
End Matcher.

(** Ordering of Section 4.5 on a missing requirement [(name, importance)]. *)
Definition priority_le (x y : string * string) : Prop :=
  rank_of (snd x) < rank_of (snd y) \/
  (rank_of (snd x) = rank_of (snd y) /\ String.leb (fst x) (fst y) = true).

Definition alphabetical (l : list string) : Prop :=
  Sorted (fun a b => String.leb a b = true) l.

(** Suggestion for a skill, with the generic fallback. *)
Definition suggestion_for (suggestion_map : list (string * string))
    (skill : string) : string :=
  match dict_get suggestion_map skill with
  | Some text => text
  | None => ("Learn basics of " ++ skill)%string
  end.

(** The names in the lists of a grouped report. *)
Definition grouped_names (grouped : list (string * list string)) : list string :=
  List.concat (map snd grouped).

End Spec.

(** Views of a scoring call used in the statements. *)

(** A text that is empty or made of blanks only. *)
Definition whitespace_only (s : string) : bool := all_blank s.

(** A text without any of the capital letters A to Z. *)
Definition no_capital (s : string) : bool :=
  forallb (fun c => negb ((65 <=? N_of_ascii c) && (N_of_ascii c <=? 90))%N)
    (list_ascii_of_string s).

Definition result_of {E A} (m : M E A) : option A :=
  match outcome m with inr a => Some a | inl _ => None end.

Definition configured_cap (config : Config) : Z :=
  match max_missing_skills config with Some k => k | None => 15 end.

Definition with_cap (config : Config) (k : option Z) : Config :=
  {| minimum_score_to_pass := minimum_score_to_pass config;
     max_missing_skills := k;
     log_score_details := log_score_details config;
     model_goals_supported := model_goals_supported config |}.

Definition with_supported (config : Config) (supported : list string)
  : Config :=
  {| minimum_score_to_pass := minimum_score_to_pass config;
     max_missing_skills := max_missing_skills config;
     log_score_details := log_score_details config;
     model_goals_supported := supported |}.

(** Work that precedes the lemmatization of the resume and the matching. *)
Definition before_matching (ev : event) : Prop :=
  match ev with
  | EvLemmatize _ | EvMatch _ _ => False
  | _ => True
  end.

Definition required_names (goals_map : list (string * list Requirement))
    (goal : string) : list string :=
  map name (dict_get_or goals_map goal []).

(** The dictionary, the skill names and the loop of [score_resume], as
    functions of its inputs. *)
Definition goal_dict (goals_map : list (string * list Requirement))
    (goal : string) : list (string * string) :=
  dict_of_items
    (map (fun item => (name item, importance item))
       (dict_get_or goals_map goal [])).

(** The importance under which the scorer knows a skill of the goal: the one
    of the last requirement with that name. *)
Definition importance_in (goals_map : list (string * list Requirement))
    (goal skill : string) : string :=
  dict_get_or (goal_dict goals_map goal) skill "unknown".

(** A skill that a group reports: required, listed in the group, and not
    matched. *)
Definition reported (requirements : list Requirement) (matched : list string)
    (skills_in_group : list string) (s : string) : Prop :=
  In s (map name requirements) /\ In s skills_in_group /\ ~ In s matched.

Section Views.
Context {env : Env}.

(** The classifier or the vectorizer of a goal is absent: the first of the
    two loads that fails does so with [FileNotFoundError]. *)
Definition missing_artifact (goal : string) (e : exn) : Prop :=
  (exists path, e = FileNotFoundError path) /\
  (joblib_load (replace_blank goal ++ "_model.pkl")%string = inl e \/
   (exists model,
      joblib_load (replace_blank goal ++ "_model.pkl")%string = inr model) /\
   joblib_load (replace_blank goal ++ "_vectorizer.pkl")%string = inl e).

(** The matcher on a given resume, as a function of phrase and threshold. *)
Definition hit (lemmatized_resume_text phrase : string) (threshold : Z)
  : bool :=
  phrase_in_lemmatized_text phrase lemmatized_resume_text threshold.

Definition event_of (a : string * Z) : event := EvMatch (fst a) (snd a).

(** Whether the resolver leaves a skill matched. *)
Definition resolved (alternate_skills_map : list (string * list string))
    (lemmatized_resume_text : string) (s : string) : bool :=
  match Spec.classify (hit lemmatized_resume_text) s
          (dict_get alternate_skills_map s) "" with
  | Spec.missing _ => false
  | _ => true
  end.

Definition goal_names (goals_map : list (string * list Requirement))
    (goal : string) : list string :=
  set_of (keys (goal_dict goals_map goal)).

Definition alternates_table : list (string * list string) :=
  match alternate_skills_file with Loaded d => d | _ => [] end.

(** [matched_skills] and [all_missing_skills] when the loop ends. *)
Definition matched_of (goals_map : list (string * list Requirement))
    (goal resume_text : string) : list string :=
  filter (resolved alternates_table (lemmatize_text_for_matching resume_text))
    (goal_names goals_map goal).

Definition missing_of (goals_map : list (string * list Requirement))
    (goal resume_text : string) : list (string * string) :=
  map (fun s => (s, importance_in goals_map goal s))
    (filter
       (fun s => negb (resolved alternates_table
                         (lemmatize_text_for_matching resume_text) s))
       (goal_names goals_map goal)).

(** The names kept under the cap, in priority order (line 183). *)
Definition capped_of (config : Config)
    (goals_map : list (string * list Requirement))
    (goal resume_text : string) : list string :=
  slice_to
    (map fst
       (sorted (fun x y => key_le (missing_key x) (missing_key y))
          (missing_of goals_map goal resume_text)))
    (configured_cap config).

(** The result of a call that passes the loads, for a classifier
    probability [prob] and a pass mark [minimum]. *)
Definition report (prob minimum : float) (goal resume_text : string)
    (config : Config)
    (goals_map : list (string * list Requirement))
    (suggestion_map : list (string * string))
    (skill_groups : list (string * list (string * list string)))
  : ScoreResult :=
  let d := goal_dict goals_map goal in
  let matched := matched_of goals_map goal resume_text in
  let missing := missing_of goals_map goal resume_text in
  let total := sum (map (skill_points d) (goal_names goals_map goal)) in
  let points := sum (map (skill_points d) matched) in
  let skill_score :=
    if 0 <? total then truediv points total else 0%float in
  let final_score := (model_weight * prob + skill_weight * skill_score)%float in
  {| score := final_score;
     is_pass := PrimFloat.leb minimum final_score;
     matched_skills := sorted String.leb matched;
     missing_skills :=
       sorted String.leb (capped_of config goals_map goal resume_text);
     missing_skills_grouped :=
       fold_left
         (group_step (dict_get_or goals_map goal []) matched missing)
         (dict_get_or skill_groups goal []) [];
     suggested_learning_path :=
       map (fun skill_name =>
              dict_get_or suggestion_map skill_name
                ("Learn basics of " ++ skill_name)%string)
         (capped_of config goals_map goal resume_text) |}.

(** The missing requirements of a result, in the priority order of
    Section 4.5. *)
Definition priority_list (goals_map : list (string * list Requirement))
    (goal : string) (r : ScoreResult) (priority : list (string * string))
  : Prop :=
  (forall s imp,
      In (s, imp) priority <->
      In s (required_names goals_map goal) /\
      ~ In s (matched_skills r) /\
      imp = importance_in goals_map goal s) /\
  NoDup priority /\
  Sorted Spec.priority_le priority.
End Views.

(* ------------------------------------------------------------------ *)
(** ** A small deployment on which the scorer is run *)

Module Demo.

Definition exact_ratio (a b : string) : Z :=
  if String.eqb a b then 100 else 0.

(** Collaborators: blank-separated tokens that are their own lemma, a ratio
    that only knows equal strings, classifiers that are their constant
    probability, and sets iterated from the last element to the first. *)
Definition env : Env :=
  {| artifact := float;
     word_tokenize := split;
     pos_tag_initial := fun _ => "N"%char;
     wordnet_lemmatize := fun w _ => w;
     fuzz_ratio := exact_ratio;
     joblib_load := fun path =>
       if String.eqb path "Amazon_SDE_model.pkl" then inr 0.8%float
       else if String.eqb path "Amazon_SDE_vectorizer.pkl" then inr 0%float
       else if String.eqb path "Polyglot_model.pkl" then inr 0.5%float
       else if String.eqb path "Polyglot_vectorizer.pkl" then inr 0%float
       else if String.eqb path "GATE_ECE_model.pkl" then inr 0.3%float
       else inl (FileNotFoundError path);
     predict_proba := fun model _ _ => inr model;
     alternate_skills_file :=
       Loaded [("SQL", ["postgres"; "mysql"]); ("AWS", ["ec2"; "s3"])];
     unicode_lower := fun s => s;
     set_iter := @rev string |}.

Definition config : Config :=
  {| minimum_score_to_pass := Some 0.5%float;
     max_missing_skills := Some 2;
     log_score_details := Some false;
     model_goals_supported := ["Amazon SDE"; "GATE ECE"; "Polyglot"] |}.

Definition req (n i : string) : Requirement := {| name := n; importance := i |}.

Definition goals_map : list (string * list Requirement) :=
  [("Amazon SDE",
    [req "Java" "core"; req "Python" "core"; req "SQL" "important";
     req "Rust" "core"; req "Kotlin" "important"; req "AWS" "nice_to_have"]);
   ("Polyglot",
    [req "Python" "core"; req "Esperanto" "optional"])].

Definition suggestion_map : list (string * string) :=
  [("Rust", "Work through the Rust book"); ("AWS", "Deploy a service on AWS")].

Definition skill_groups : list (string * list (string * list string)) :=
  [("Amazon SDE",
    [("Languages", ["Java"; "Python"; "Rust"]); ("Cloud", ["AWS"])])].

Definition resume : string := "Proficient in Java Python and mysql".

Definition run (goal text : string) : M exn ScoreResult :=
  score_resume (env := env) "123" goal text config
    goals_map suggestion_map skill_groups.

Definition request (goal text : string) : ScoreRequest :=
  {| req_student_id := "123"; req_goal := goal; req_resume_text := text |}.

Definition serve (goal text : string) : M http_error ScoreResult :=
  post_score (env := env) config goals_map suggestion_map skill_groups
    (request goal text).

(** The result of scoring [resume] for the goal Amazon SDE. *)
Definition result : ScoreResult :=
  report (env := env) 0.8 0.5 "Amazon SDE" resume config goals_map
    suggestion_map skill_groups.

End Demo.


(* ------------------------------------------------------------------ *)
(** ** train_model.py *)

Module Training.

(** The characters that [re.sub(r'[^a-z0-9+#./ ]', ' ', text)] keeps. *)
Definition keep_char (c : ascii) : bool :=
  let n := N_of_ascii c in
  (((97 <=? n) && (n <=? 122)) || ((48 <=? n) && (n <=? 57)) ||
   (n =? 43) || (n =? 35) || (n =? 46) || (n =? 47) || (n =? 32))%N.

(** [re.sub(r'[^a-z0-9+#./ ]', ' ', text)], byte by byte: a character of
    several bytes gives as many spaces, where the source gives one; the
    next step makes one space of them. *)
Fixpoint sub_other (s : string) : string :=
  match s with
  | EmptyString => EmptyString
  | String c s' => String (if keep_char c then c else " "%char) (sub_other s')
  end.

(** [re.sub(r'\s+', ' ', text)] on the text that [sub_other] leaves, whose
    blanks are of one byte: every maximal run of blanks becomes one space.
    [in_run] tells that the previous character was a blank. *)
Fixpoint sub_blanks (in_run : bool) (s : string) : string :=
  match s with
  | EmptyString => EmptyString
  | String c s' =>
      if is_space c
      then if in_run then sub_blanks true s'
           else String " "%char (sub_blanks true s')
      else String c (sub_blanks false s')
  end.

Definition clean_text {env : Env} (text : string) : string :=
  let text := lower text in
  let text := sub_other text in
  let text := sub_blanks false text in
  strip text.

(** Lines 92-94: the names under which the artifacts of a goal are saved. *)
Definition goal_key {env : Env} (goal : string) : string :=
  lower (replace_blank goal).

Definition saved_vectorizer {env : Env} (goal : string) : string :=
  (goal_key goal ++ "_vectorizer.pkl")%string.

Definition saved_model {env : Env} (goal : string) : string :=
  (goal_key goal ++ "_model.pkl")%string.

(** A text made of the characters that cleaning keeps. *)
Definition kept (s : string) : Prop :=
  forallb keep_char (list_ascii_of_string s) = true.

(** Lines 50-54: the goals that have training data. *)
Definition goal_to_file : list (string * string) :=
  [("Amazon SDE", "amazon_sde.json");
   ("GATE ECE", "gate_ece.json");
   ("ML Internship", "ml_internship.json")].

(** A cleaned text has no blank after a blank, and its blanks are spaces.
    [after_blank] tells that the previous character was a blank. *)
Fixpoint single_spaced (after_blank : bool) (s : string) : bool :=
  match s with
  | EmptyString => true
  | String c s' =>
      if is_space c
      then negb after_blank && Ascii.eqb c " " && single_spaced true s'
      else single_spaced false s'
  end.

End Training.

(** The same collaborators with sets iterated in another order. *)
Definition with_set_iter (env : Env) (iter : list string -> list string)
  : Env :=
  {| artifact := @artifact env;
     word_tokenize := @word_tokenize env;
     pos_tag_initial := @pos_tag_initial env;
     wordnet_lemmatize := @wordnet_lemmatize env;
     fuzz_ratio := @fuzz_ratio env;
     joblib_load := @joblib_load env;
     predict_proba := @predict_proba env;
     alternate_skills_file := @alternate_skills_file env;
     unicode_lower := @unicode_lower env;
     set_iter := iter |}.

(** The same collaborators with another outcome of reading the file of
    alternates. *)
Definition with_alternates (env : Env)
    (read : file_read (list (string * list string))) : Env :=
  {| artifact := @artifact env;
     word_tokenize := @word_tokenize env;
     pos_tag_initial := @pos_tag_initial env;
     wordnet_lemmatize := @wordnet_lemmatize env;
     fuzz_ratio := @fuzz_ratio env;
     joblib_load := @joblib_load env;
     predict_proba := @predict_proba env;
     alternate_skills_file := read;
     unicode_lower := @unicode_lower env;
     set_iter := @set_iter env |}.

(** What an entry of the grouped report is: a group of the goal with a
    non-empty alphabetical list, without repetition, of the skills that the
    group reports. *)
Definition entry_ok (requirements : list Requirement) (matched : list string)
    (groups : list (string * list string)) (entry : string * list string)
  : Prop :=
  snd entry <> [] /\ Spec.alphabetical (snd entry) /\ NoDup (snd entry) /\
  exists skills,
    In (fst entry, skills) groups /\
    forall s, In s (snd entry) <-> reported requirements matched skills s.

(** A word as [split] returns them: not empty and without blank. *)
Definition is_word (w : string) : Prop :=
  w <> "" /\ blank_free w = true.

(** The lemmas of the tokens of a text, before they are joined. *)
Definition lemmas_of {env : Env} (text : string) : list string :=
  map (fun token => wordnet_lemmatize token (get_wordnet_pos token))
    (word_tokenize (lower text)).

(** The matcher calls of a whole scoring call, skill after skill. *)
Definition matcher_events {env : Env}
    (alternate_skills_map : list (string * list string))
    (lemmatized_resume_text : string) (names : list string) : list event :=
  flat_map
    (fun s =>
       map event_of
         (Spec.attempts (hit lemmatized_resume_text) s
            (dict_get alternate_skills_map s)))
    names.

(** A second deployment: a goal (GATE ECE) with artifacts and groups but
    without entry in the goal table, a configuration without pass mark, a
    classifier (Broken) that rejects its input, and no table of alternates. *)
Module Cases.

Definition env : Env :=
  {| artifact := float;
     word_tokenize := split;
     pos_tag_initial := fun _ => "N"%char;
     wordnet_lemmatize := fun w _ => w;
     fuzz_ratio := Demo.exact_ratio;
     joblib_load := fun path =>
       if String.eqb path "Amazon_SDE_model.pkl" then inr 0.8%float
       else if String.eqb path "Amazon_SDE_vectorizer.pkl" then inr 0%float
       else if String.eqb path "Broken_model.pkl" then inr 0.1%float
       else if String.eqb path "Broken_vectorizer.pkl" then inr 0%float
       else if String.eqb path "GATE_ECE_model.pkl" then inr 0.3%float
       else if String.eqb path "GATE_ECE_vectorizer.pkl" then inr 0%float
       else inl (FileNotFoundError path);
     predict_proba := fun model _ _ =>
       if PrimFloat.ltb model 0.2
       then inl (ValueError "X has 3 features, but expected 5")
       else inr model;
     alternate_skills_file := Absent;
     unicode_lower := fun s => s;
     set_iter := fun l => l |}.

Definition config_without_minimum : Config :=
  {| minimum_score_to_pass := None;
     max_missing_skills := None;
     log_score_details := None;
     model_goals_supported := ["Amazon SDE"; "GATE ECE"; "Broken"] |}.

Definition config : Config :=
  {| minimum_score_to_pass := Some 0.5%float;
     max_missing_skills := None;
     log_score_details := None;
     model_goals_supported := ["Amazon SDE"; "GATE ECE"; "Broken"] |}.

Definition goals_map : list (string * list Requirement) :=
  [("Amazon SDE",
    [Demo.req "Java" "core"; Demo.req "Data Structures" "core";
     Demo.req "SQL" "important"])].

Definition skill_groups : list (string * list (string * list string)) :=
  [("Amazon SDE", [("Basics", ["Java"; "SQL"; "Data Structures"])]);
   ("GATE ECE", [("Circuits", ["Verilog"])])].

Definition resume : string := "Java and structures".

(** A resume of blanks: a space, a no-break space (U+00A0), a tabulation
    and an em space (U+2003). *)
Definition blank_resume : string :=
  String " "
    (String (ascii_of_nat 194) (String (ascii_of_nat 160)
       (String (ascii_of_nat 9)
          (String (ascii_of_nat 226) (String (ascii_of_nat 128)
             (String (ascii_of_nat 131) ""))))))%string.

(** The first deployment with a file of alternates that cannot be opened,
    and with one that is not JSON. *)
Definition env_unreadable : Env :=
  with_alternates Demo.env (Failed (OtherException "PermissionError")).

Definition env_malformed : Env := with_alternates Demo.env Malformed.

Definition run_unreadable : M exn ScoreResult :=
  score_resume (env := env_unreadable) "123" "Amazon SDE" Demo.resume
    Demo.config Demo.goals_map Demo.suggestion_map Demo.skill_groups.

Definition run_malformed : M exn ScoreResult :=
  score_resume (env := env_malformed) "123" "Amazon SDE" Demo.resume
    Demo.config Demo.goals_map Demo.suggestion_map Demo.skill_groups.

End Cases.

(* ------------------------------------------------------------------ *)
(** ** Facts about the built-ins *)

(** The sets of the demo deployment are iterated in some order. *)
Lemma demo_set_iter_perm (l : list string) :
  Permutation (set_iter (Env := Demo.env) l) l.
Proof. symmetry. apply Permutation_rev. Qed.

Lemma string_length_ind (P : string -> Prop) :
  (forall s, (forall t, (String.length t < String.length s)%nat -> P t) -> P s) ->
  forall s, P s.
Proof.
  intros H s.
  remember (String.length s) as n eqn:E.
  revert s E. induction n as [n IH] using lt_wf_ind.
  intros s ->. apply H. intros t Ht. exact (IH _ Ht t eq_refl).
Qed.

(** [lstrip] leaves nothing of a text of blanks, and otherwise a text that
    starts with a character that is not a blank. *)
Lemma lstrip_cases (s : string) :
  (all_blank s = true /\ lstrip s = "") \/
  (all_blank s = false /\
   exists c u, lstrip s = String c u /\ all_blank (String c u) = false).
Proof.
  induction s as [s IH] using string_length_ind.
  destruct s as [|c1 s1]; [left; split; reflexivity|].
  cbn [all_blank lstrip].
  destruct (is_space c1) eqn:E1; [apply IH; simpl; lia|].
  destruct s1 as [|c2 s2].
  { right. split; [reflexivity|]. exists c1, "". split; [reflexivity|].
    cbn. rewrite E1. reflexivity. }
  destruct (blank2 c1 c2) eqn:E2; [apply IH; simpl; lia|].
  destruct s2 as [|c3 s3].
  { right. split; [reflexivity|]. eexists _, _. split; [reflexivity|].
    cbn [all_blank]. rewrite E1, E2. reflexivity. }
  destruct (blank3 c1 c2 c3) eqn:E3; [apply IH; simpl; lia|].
  right. split; [reflexivity|]. eexists _, _. split; [reflexivity|].
  cbn [all_blank]. rewrite E1, E2, E3. reflexivity.
Qed.

Lemma rstrip_empty (s : string) : is_empty (rstrip s) = all_blank s.
Proof.
  destruct s as [|c s]; [reflexivity|].
  cbn [rstrip]. destruct (all_blank (String c s)); reflexivity.
Qed.

(** [not s.strip()] holds of the empty text and of the texts of blanks. *)
Lemma strip_empty (s : string) : is_empty (strip s) = whitespace_only s.
Proof.
  unfold strip, whitespace_only. rewrite rstrip_empty.
  destruct (lstrip_cases s) as [[-> ->]|[-> (c & u & -> & ->)]]; reflexivity.
Qed.

Lemma strip_whitespace (s : string) :
  whitespace_only s = true -> is_empty (strip s) = true.
Proof. intros H. rewrite strip_empty. exact H. Qed.

Lemma sum_from (l : list Z) (a : Z) : fold_left Z.add l a = a + sum l.
Proof.
  unfold sum. revert a.
  induction l as [|x l IH]; intros a; simpl; [lia|].
  rewrite (IH (a + x)), (IH x). lia.
Qed.

Lemma sum_cons (x : Z) (l : list Z) : sum (x :: l) = x + sum l.
Proof. unfold sum at 1. simpl. apply sum_from. Qed.

Lemma sum_app (l1 l2 : list Z) : sum (l1 ++ l2) = sum l1 + sum l2.
Proof.
  induction l1 as [|x l1 IH]; simpl; [reflexivity|].
  rewrite !sum_cons, IH. lia.
Qed.

Lemma sum_perm (l1 l2 : list Z) : Permutation l1 l2 -> sum l1 = sum l2.
Proof.
  induction 1; rewrite ?sum_cons; lia.
Qed.

Lemma mem_In (x : string) (l : list string) : mem x l = true <-> In x l.
Proof.
  unfold mem. rewrite existsb_exists. split.
  - intros [y [Hy He]]. apply String.eqb_eq in He. now subst.
  - intros H. exists x. split; [assumption|apply String.eqb_refl].
Qed.

Lemma mem_false (x : string) (l : list string) : mem x l = false <-> ~ In x l.
Proof.
  rewrite <- mem_In. destruct (mem x l); split; congruence.
Qed.

Lemma mem_perm (x : string) (l1 l2 : list string) :
  Permutation l1 l2 -> mem x l1 = mem x l2.
Proof.
  intros H. destruct (mem x l2) eqn:E.
  - apply mem_In. apply mem_In in E.
    now apply (Permutation_in _ (Permutation_sym H)).
  - apply mem_false. apply mem_false in E. intros Hin. apply E.
    now apply (Permutation_in _ H).
Qed.

(** *** Sorting *)

Section SortedFacts.
Context {A : Type} (le : A -> A -> bool).

Lemma insert_perm (x : A) (l : list A) : Permutation (insert le x l) (x :: l).
Proof.
  induction l as [|y l IH]; simpl; [reflexivity|].
  destruct (le x y); [reflexivity|].
  rewrite IH. apply perm_swap.
Qed.

Lemma sorted_perm (l : list A) : Permutation (sorted le l) l.
Proof.
  induction l as [|x l IH]; simpl; [reflexivity|].
  rewrite insert_perm. now constructor.
Qed.

Lemma sorted_length (l : list A) : List.length (sorted le l) = List.length l.
Proof. apply Permutation_length, sorted_perm. Qed.

Lemma sorted_In (x : A) (l : list A) : In x (sorted le l) <-> In x l.
Proof.
  split; apply Permutation_in; [|symmetry]; apply sorted_perm.
Qed.

Hypothesis le_total : forall a b, le a b = true \/ le b a = true.

Lemma insert_Sorted (x : A) (l : list A) :
  Sorted (fun a b => le a b = true) l ->
  Sorted (fun a b => le a b = true) (insert le x l).
Proof.
  induction 1 as [|y l Hl IH Hy]; simpl.
  - repeat constructor.
  - destruct (le x y) eqn:E.
    + repeat constructor; assumption.
    + constructor; [assumption|].
      destruct (le_total x y) as [Hxy|Hyx]; [congruence|].
      destruct l as [|z l]; simpl.
      * now constructor.
      * destruct (le x z); constructor; [assumption|].
        now inversion Hy.
Qed.

Lemma sorted_Sorted (l : list A) :
  Sorted (fun a b => le a b = true) (sorted le l).
Proof.
  induction l as [|x l IH]; simpl; [constructor|].
  now apply insert_Sorted.
Qed.
End SortedFacts.

Lemma sorted_mem (x : string) (l : list string) :
  mem x (sorted String.leb l) = mem x l.
Proof. apply mem_perm, sorted_perm. Qed.

Lemma key_le_total (a b : Z * string) : key_le a b = true \/ key_le b a = true.
Proof.
  unfold key_le. destruct a as [ra na], b as [rb nb]; simpl.
  destruct (Z.lt_total ra rb) as [H|[H|H]].
  - left. apply Z.ltb_lt in H. now rewrite H.
  - subst. rewrite Z.eqb_refl, Z.ltb_irrefl. simpl.
    apply String.leb_total.
  - right. apply Z.ltb_lt in H. now rewrite H.
Qed.

Lemma slice_to_length {A} (l : list A) (k : Z) :
  0 <= k -> Z.of_nat (List.length (slice_to l k)) <= k.
Proof.
  intros Hk. unfold slice_to.
  destruct (k <? 0) eqn:E; [apply Z.ltb_lt in E; lia|].
  rewrite length_firstn. lia.
Qed.

(* ------------------------------------------------------------------ *)
(** ** The deployment, run *)

(** The resume matches Java and Python directly and SQL through its
    alternate mysql; Rust, Kotlin and AWS are missing. *)
Example demo_scoring_call :
  Demo.run "Amazon SDE" Demo.resume
  = ([EvJoblibLoad "Amazon_SDE_model.pkl";
      EvJoblibLoad "Amazon_SDE_vectorizer.pkl";
      EvPredict Demo.resume; EvLoadAlternates; EvLemmatize Demo.resume;
      EvMatch "AWS" 70; EvMatch "ec2" 70; EvMatch "s3" 70; EvMatch "AWS" 55;
      EvMatch "Kotlin" 70; EvMatch "Kotlin" 55;
      EvMatch "Rust" 70; EvMatch "Rust" 55;
      EvMatch "SQL" 70; EvMatch "postgres" 70; EvMatch "mysql" 70;
      EvMatch "Python" 70; EvMatch "Java" 70],
     inr Demo.result).
Proof. vm_compute. reflexivity. Qed.

Example demo_result :
  Demo.result
  = {| score := (0.6 * 0.8 + 0.4 * truediv 8 14)%float;
       is_pass := true;
       matched_skills := ["Java"; "Python"; "SQL"];
       missing_skills := ["Kotlin"; "Rust"];
       missing_skills_grouped := [("Languages", ["Rust"]); ("Cloud", ["AWS"])];
       suggested_learning_path :=
         ["Work through the Rust book"; "Learn basics of Kotlin"] |}.
Proof. vm_compute. reflexivity. Qed.

(** A phrase of two words, one of which is in the text, matches through the
    words and not through a window: the text has no window of two words. *)
Example demo_word_fallback :
  phrase_in_lemmatized_text (env := Demo.env) "Data Structures" "structures" 70
  = true /\
  window_loop (env := Demo.env) ["structures"] 2 "data structures" 70
    (range (1 - 2 + 1)) = false.
Proof. split; vm_compute; reflexivity. Qed.

(** A single word has no fallback. *)
Example demo_single_word_miss :
  phrase_in_lemmatized_text (env := Demo.env) "Java" "javascript developer" 70
  = false.
Proof. vm_compute. reflexivity. Qed.

(** Full coverage with a probability of 0.8 scores 0.88 and passes 0.5. *)
Example demo_full_coverage :
  let final_score := (model_weight * 0.8 + skill_weight * truediv 14 14)%float in
  final_score = 0.88%float /\ PrimFloat.leb 0.5 final_score = true.
Proof. split; vm_compute; reflexivity. Qed.

(** [split] and [strip] on blanks of several kinds. *)
Example demo_split :
  split (String (ascii_of_nat 9) " data  structures" ++ String (ascii_of_nat 10) "")
  = ["data"; "structures"] /\
  strip "  a b  " = "a b" /\
  slice_to [1; 2; 3] (-1) = [1; 2] /\
  slice_to [1; 2; 3] 5 = [1; 2; 3].
Proof. repeat split; vm_compute; reflexivity. Qed.

(* ------------------------------------------------------------------ *)
(** ** The fuzzy phrase matcher *)

Section MatcherFacts.
Context {env : Env}.

Lemma window_loop_true text_words n phrase_lemmatized threshold indices :
  window_loop text_words n phrase_lemmatized threshold indices = true <->
  exists i, In i indices /\
    threshold <= fuzz_ratio (join " " (slice text_words i (i + n)))
                   phrase_lemmatized.
Proof.
  induction indices as [|i rest IH]; simpl.
  - split; [discriminate|]. intros [i [[] _]].
  - destruct (threshold <=? _) eqn:E.
    + split; [|reflexivity]. intros _. exists i. split; [now left|].
      now apply Z.leb_le.
    + rewrite IH. split.
      * intros [j [Hj Hr]]. exists j. split; [now right|assumption].
      * intros [j [[Hj|Hj] Hr]].
        -- subst j. apply Z.leb_gt in E. lia.
        -- exists j. now split.
Qed.

Lemma text_word_loop_true word text_words :
  text_word_loop word text_words = true <->
  exists text_word, In text_word text_words /\ 80 <= fuzz_ratio word text_word.
Proof.
  induction text_words as [|w rest IH]; simpl.
  - split; [discriminate|]. intros [w [[] _]].
  - destruct (80 <=? _) eqn:E.
    + split; [|reflexivity]. intros _. exists w. split; [now left|].
      now apply Z.leb_le.
    + rewrite IH. split.
      * intros [x [Hx Hr]]. exists x. split; [now right|assumption].
      * intros [x [[Hx|Hx] Hr]].
        -- subst x. apply Z.leb_gt in E. lia.
        -- exists x. now split.
Qed.

Lemma phrase_word_loop_true phrase_words text_words :
  phrase_word_loop phrase_words text_words = true <->
  Spec.word_match phrase_words text_words.
Proof.
  unfold Spec.word_match.
  induction phrase_words as [|w rest IH]; simpl.
  - split; [discriminate|]. intros [x [y [[] _]]].
  - destruct (text_word_loop w text_words) eqn:E.
    + split; [|reflexivity]. intros _.
      apply text_word_loop_true in E as [y [Hy Hr]].
      exists w, y. repeat split; auto.
    + rewrite IH. split.
      * intros [x [y [Hx H]]]. exists x, y. split; [now right|assumption].
      * intros [x [y [[Hx|Hx] [Hy Hr]]]].
        -- subst x.
           assert (text_word_loop w text_words = true)
             by (apply text_word_loop_true; eauto).
           congruence.
        -- exists x, y. auto.
Qed.

(** The windows visited by the loop are the runs of [n] consecutive words. *)
Lemma windows_of_range {A} (l : list A) (n : nat) (P : list A -> Prop) :
  (exists i, In i (range (Z.of_nat (List.length l) - Z.of_nat n + 1)) /\
             P (slice l i (i + n))) <->
  (exists before window after,
     l = before ++ window ++ after /\ List.length window = n /\ P window).
Proof.
  unfold range, slice. split.
  - intros [i [Hi HP]]. apply in_seq in Hi.
    replace (i + n - i)%nat with n in HP by lia.
    exists (firstn i l), (firstn n (skipn i l)), (skipn n (skipn i l)).
    split; [now rewrite !firstn_skipn|].
    split; [|assumption].
    rewrite length_firstn, length_skipn. lia.
  - intros [before [window [after [Hl [Hn HP]]]]].
    exists (List.length before). split.
    + apply in_seq. subst l. rewrite !length_app. lia.
    + replace (List.length before + n - List.length before)%nat with n by lia.
      subst l. rewrite skipn_app, skipn_all, Nat.sub_diag. simpl.
      rewrite firstn_app, <- Hn, firstn_all, Nat.sub_diag. simpl.
      now rewrite app_nil_r.
Qed.
End MatcherFacts.

(** C4. For every phrase, normalized text and threshold, the matcher
    answers true exactly when some window of [n] consecutive text words
    ([n] the number of words of the normalized phrase) has a ratio with the
    normalized phrase that reaches the threshold, or [n > 1] and some phrase
    word and some text word have a ratio that reaches 80. *)
Theorem phrase_in_lemmatized_text_iff {env : Env}
    (phrase lemmatized_text : string) (threshold : Z) :
  phrase_in_lemmatized_text phrase lemmatized_text threshold = true <->
  Spec.matches phrase lemmatized_text threshold.
Proof.
  unfold phrase_in_lemmatized_text, Spec.matches, Spec.window_match.
  set (pl := lemmatize_text_for_matching phrase).
  set (n := List.length (split pl)).
  rewrite <- (windows_of_range (split lemmatized_text) n
                (fun w => threshold <= fuzz_ratio (join " " w) pl)).
  rewrite <- window_loop_true, <- phrase_word_loop_true.
  destruct (window_loop _ _ _ _ _); [tauto|].
  destruct (1 <? Z.of_nat n) eqn:E; simpl.
  - apply Z.ltb_lt in E.
    destruct (phrase_word_loop _ _).
    + split; [|reflexivity]. intros _. right. split; [lia|reflexivity].
    + split; [discriminate|]. intros [H|[_ H]]; discriminate.
  - apply Z.ltb_ge in E. split; [discriminate|].
    intros [H|[H _]]; [discriminate|lia].
Qed.

(* ------------------------------------------------------------------ *)
(** ** The monad *)

Lemma outcome_bind {E A B} (m : M E A) (k : A -> M E B) :
  outcome (bind m k) =
  match outcome m with inl e => inl e | inr a => outcome (k a) end.
Proof.
  destruct m as [t [e|a]]; simpl; [reflexivity|].
  unfold outcome. now destruct (k a).
Qed.

Lemma trace_bind {E A B} (m : M E A) (k : A -> M E B) :
  trace (bind m k) =
  trace m ++ match outcome m with inl e => [] | inr a => trace (k a) end.
Proof.
  destruct m as [t [e|a]]; simpl; [now rewrite app_nil_r|].
  unfold trace. now destruct (k a).
Qed.

(* ------------------------------------------------------------------ *)
(** ** The skill resolver *)

Section ResolverFacts.
Context {env : Env}.
Variable text : string.

Lemma alternates_loop_run (alts : list string) :
  alternates_loop alts text =
  (map (fun alt => EvMatch alt 70) (Spec.tried_alternates (hit text) alts),
   inr (match find (fun alt => hit text alt 70) alts with
        | Some _ => true
        | None => false
        end)).
Proof.
  induction alts as [|alt rest IH]; simpl; [reflexivity|].
  unfold call_matcher, confidence_threshold. simpl.
  change (phrase_in_lemmatized_text alt text 70) with (hit text alt 70).
  destruct (hit text alt 70) eqn:E; simpl; [reflexivity|].
  rewrite IH. reflexivity.
Qed.

(** One turn of the loop over the skills, against Section 4.3. *)
Lemma resolve_skill_run
    (goal_skills_with_importance : list (string * string))
    (alternate_skills_map : list (string * list string))
    (st : list string * list (string * string)) (s : string) :
  resolve_skill goal_skills_with_importance alternate_skills_map text st s =
  (map event_of
     (Spec.attempts (hit text) s (dict_get alternate_skills_map s)),
   inr (Spec.record_result s
          (Spec.classify (hit text) s (dict_get alternate_skills_map s)
             (dict_get_or goal_skills_with_importance s "unknown"))
          st)).
Proof.
  destruct st as [matched missing].
  unfold resolve_skill, Spec.attempts, Spec.classify, call_matcher,
    confidence_threshold, partial_threshold.
  cbn [bind emit ret app].
  change (phrase_in_lemmatized_text s text 70) with (hit text s 70).
  change (phrase_in_lemmatized_text s text 55) with (hit text s 55).
  destruct (hit text s 70) eqn:E70; [reflexivity|].
  destruct (dict_get alternate_skills_map s) as [alts|].
  - rewrite alternates_loop_run. cbn [bind].
    destruct (find _ alts) eqn:Ef.
    + cbn. rewrite map_app, map_map. reflexivity.
    + destruct (hit text s 55); cbn;
        rewrite !map_app, !map_map; reflexivity.
  - cbn [bind ret app].
    destruct (hit text s 55); reflexivity.
Qed.

(** The loop over the skills leaves the matched skills and the missing
    ones, each list in iteration order. *)
Lemma for_each_resolve_outcome
    (goal_skills_with_importance : list (string * string))
    (alternate_skills_map : list (string * list string))
    (names : list string) (st : list string * list (string * string)) :
  outcome
    (for_each names
       (resolve_skill goal_skills_with_importance alternate_skills_map text)
       st)
  = inr (fst st ++ filter (resolved alternate_skills_map text) names,
         snd st ++
         map (fun s => (s, dict_get_or goal_skills_with_importance s "unknown"))
           (filter (fun s => negb (resolved alternate_skills_map text s))
              names)).
Proof.
  revert st. induction names as [|s names IH]; intros [matched missing].
  - simpl. now rewrite !app_nil_r.
  - cbn [for_each]. rewrite outcome_bind, resolve_skill_run.
    cbn [outcome snd]. rewrite IH. unfold resolved. cbn [filter].
    unfold Spec.classify.
    destruct (hit text s 70); cbn;
      [now rewrite <- app_assoc|].
    destruct (dict_get alternate_skills_map s) as [alts|];
      [destruct (find _ alts)|];
      try destruct (hit text s 55); cbn; now rewrite <- app_assoc.
Qed.
End ResolverFacts.


(* ------------------------------------------------------------------ *)
(** ** Rejections *)

Lemma strip_nonempty (s : string) :
  whitespace_only s = false -> is_empty (strip s) = false.
Proof. intros H. rewrite strip_empty. exact H. Qed.

(** C8. For every resume text that is empty or made of blanks only (the
    characters of [str.isspace], of one or several bytes), and for every
    goal, the scoring call fails with the empty-input rejection and its
    reason, in the scorer and at the endpoint alike, and nothing has been
    done before it: no artifact is loaded, nothing is lemmatized, matched or
    scored. *)
Theorem empty_resume_rejected {env : Env}
    (student_id goal resume_text : string) (config : Config)
    (goals_map : list (string * list Requirement))
    (suggestion_map : list (string * string))
    (skill_groups : list (string * list (string * list string))) :
  whitespace_only resume_text = true ->
  score_resume student_id goal resume_text config goals_map suggestion_map
    skill_groups
  = ([], inl (ValueError "Resume text cannot be empty")) /\
  post_score config goals_map suggestion_map skill_groups
    {| req_student_id := student_id; req_goal := goal;
       req_resume_text := resume_text |}
  = ([], inl (HTTPException 400 (Detail "Resume text cannot be empty"))).
Proof.
  intros H. apply strip_whitespace in H.
  unfold score_resume, post_score. simpl. rewrite H. split; reflexivity.
Qed.

Lemma empty_resume_rejected_witness :
  whitespace_only Cases.blank_resume = true /\
  Demo.run "Amazon SDE" Cases.blank_resume
  = ([], inl (ValueError "Resume text cannot be empty")) /\
  Demo.serve "Amazon SDE" Cases.blank_resume
  = ([], inl (HTTPException 400 (Detail "Resume text cannot be empty"))).
Proof.
  split; [reflexivity|].
  apply (empty_resume_rejected (env := Demo.env)). reflexivity.
Defined.

Lemma load_artifact_missing {env : Env} (filename : string) (e : exn) :
  joblib_load filename = inl e ->
  load_artifact filename = ([EvJoblibLoad filename], inl e).
Proof. intros H. unfold load_artifact. simpl. now rewrite H. Qed.

Lemma load_artifact_present {env : Env} (filename : string) (a : artifact) :
  joblib_load filename = inr a ->
  load_artifact filename = ([EvJoblibLoad filename], inr a).
Proof. intros H. unfold load_artifact. simpl. now rewrite H. Qed.

(** A supported goal whose classifier or vectorizer file is absent fails in
    the scorer with [FileNotFoundError], after the load was attempted. *)
Lemma score_resume_missing_artifact {env : Env}
    (student_id goal resume_text : string) (config : Config)
    (goals_map : list (string * list Requirement))
    (suggestion_map : list (string * string))
    (skill_groups : list (string * list (string * list string))) :
  forall e : exn,
  whitespace_only resume_text = false ->
  missing_artifact goal e ->
  exists rest,
    score_resume student_id goal resume_text config goals_map suggestion_map
      skill_groups
    = (EvJoblibLoad (replace_blank goal ++ "_model.pkl")%string :: rest,
       inl e).
Proof.
  intros e Hne [_ Hmiss]. apply strip_nonempty in Hne.
  unfold score_resume. rewrite Hne. unfold load_model, load_vectorizer.
  destruct Hmiss as [Hm|[[model Hm] Hv]].
  - rewrite (load_artifact_missing _ _ Hm). simpl. eauto.
  - rewrite (load_artifact_present _ _ Hm), (load_artifact_missing _ _ Hv).
    simpl. eauto.
Qed.

(** The scorer begins by the load of the model of the goal. *)
Lemma score_resume_first_load {env : Env}
    (student_id goal resume_text : string) (config : Config)
    (goals_map : list (string * list Requirement))
    (suggestion_map : list (string * string))
    (skill_groups : list (string * list (string * list string))) :
  whitespace_only resume_text = false ->
  exists rest,
    trace (score_resume student_id goal resume_text config goals_map
             suggestion_map skill_groups)
    = EvJoblibLoad (replace_blank goal ++ "_model.pkl")%string :: rest.
Proof.
  intros Hne. apply strip_nonempty in Hne.
  unfold score_resume. rewrite Hne. unfold load_model.
  rewrite trace_bind.
  destruct (joblib_load (replace_blank goal ++ "_model.pkl")%string)
    as [e|m] eqn:Em.
  - rewrite (load_artifact_missing _ _ Em). cbn [trace outcome fst snd].
    eexists. reflexivity.
  - rewrite (load_artifact_present _ _ Em). cbn [trace outcome fst snd].
    eexists. reflexivity.
Qed.

(** C9, as the code has it. The supported goals are checked by the endpoint
    only. There, a request with a resume that is not blank whose goal is
    absent from the supported goals is rejected as unsupported goal (status
    400) before any artifact load is attempted; a supported goal whose
    classifier or vectorizer is absent fails differently, as a processing
    error (status 500) wrapping the missing file, after its load was tried.
    The scorer does not read the supported goals: called for any goal and a
    resume that is not blank, it does the same whatever the supported goals
    are, begins by the load of the model of that goal, and raises
    [FileNotFoundError] when the file of the model or of the vectorizer is
    absent. *)
Theorem unsupported_goal_rejected {env : Env} (config : Config)
    (goals_map : list (string * list Requirement))
    (suggestion_map : list (string * string))
    (skill_groups : list (string * list (string * list string)))
    (request : ScoreRequest) :
  whitespace_only (req_resume_text request) = false ->
  mem (req_goal request) (model_goals_supported config) = false ->
  post_score config goals_map suggestion_map skill_groups request
  = ([], inl (HTTPException 400
                (DetailUnsupportedGoal (req_goal request)
                   (model_goals_supported config)))) /\
  (forall request' : ScoreRequest,
     whitespace_only (req_resume_text request') = false ->
     mem (req_goal request') (model_goals_supported config) = true ->
     forall e : exn,
     missing_artifact (req_goal request') e ->
     exists rest,
       post_score config goals_map suggestion_map skill_groups request'
       = (EvJoblibLoad (replace_blank (req_goal request') ++ "_model.pkl")%string
            :: rest,
          inl (HTTPException 500 (DetailProcessing e))) /\
       outcome (post_score config goals_map suggestion_map skill_groups request')
       <> outcome (post_score config goals_map suggestion_map skill_groups
                     request)) /\
  (forall (student_id goal resume_text : string) (supported : list string),
     whitespace_only resume_text = false ->
     let call :=
       score_resume student_id goal resume_text config goals_map
         suggestion_map skill_groups in
     score_resume student_id goal resume_text (with_supported config supported)
       goals_map suggestion_map skill_groups
     = call /\
     (exists rest,
        trace call
        = EvJoblibLoad (replace_blank goal ++ "_model.pkl")%string :: rest) /\
     (forall e : exn, missing_artifact goal e -> outcome call = inl e)).
Proof.
  intros Hne Hgoal.
  assert (Hreject :
    post_score config goals_map suggestion_map skill_groups request
    = ([], inl (HTTPException 400
                  (DetailUnsupportedGoal (req_goal request)
                     (model_goals_supported config))))).
  { unfold post_score. rewrite (strip_nonempty _ Hne), Hgoal. reflexivity. }
  split; [exact Hreject|]. split.
  - intros request' Hne' Hgoal' e Hmiss.
    destruct (score_resume_missing_artifact (req_student_id request')
                (req_goal request') (req_resume_text request') config goals_map
                suggestion_map skill_groups e Hne' Hmiss) as [rest Hrun].
    exists rest.
    assert (Hfail :
      post_score config goals_map suggestion_map skill_groups request'
      = (EvJoblibLoad (replace_blank (req_goal request') ++ "_model.pkl")%string
           :: rest,
         inl (HTTPException 500 (DetailProcessing e)))).
    { unfold post_score. rewrite (strip_nonempty _ Hne'), Hgoal', Hrun.
      destruct Hmiss as [[path ->] _]. simpl. now rewrite app_nil_r. }
    split; [exact Hfail|].
    rewrite Hfail, Hreject. unfold outcome. simpl. discriminate.
  - intros student_id goal resume_text supported Hne' call. subst call.
    split; [reflexivity|]. split.
    + now apply score_resume_first_load.
    + intros e Hmiss.
      destruct (score_resume_missing_artifact student_id goal resume_text
                  config goals_map suggestion_map skill_groups e Hne' Hmiss)
        as [rest Hrun].
      now rewrite Hrun.
Qed.

Lemma unsupported_goal_rejected_witness :
  Demo.serve "Data Science" Demo.resume
  = ([], inl (HTTPException 400
                (DetailUnsupportedGoal "Data Science"
                   ["Amazon SDE"; "GATE ECE"; "Polyglot"]))) /\
  (exists rest,
     Demo.serve "GATE ECE" Demo.resume
     = (EvJoblibLoad "GATE_ECE_model.pkl" :: rest,
        inl (HTTPException 500
               (DetailProcessing
                  (FileNotFoundError "GATE_ECE_vectorizer.pkl")))) /\
     outcome (Demo.serve "GATE ECE" Demo.resume)
     <> outcome (Demo.serve "Data Science" Demo.resume)) /\
  (score_resume (env := Demo.env) "123" "Data Science" Demo.resume
     (with_supported Demo.config []) Demo.goals_map Demo.suggestion_map
     Demo.skill_groups
   = Demo.run "Data Science" Demo.resume /\
   (exists rest,
      trace (Demo.run "Data Science" Demo.resume)
      = EvJoblibLoad "Data_Science_model.pkl" :: rest) /\
   outcome (Demo.run "Data Science" Demo.resume)
   = inl (FileNotFoundError "Data_Science_model.pkl")).
Proof.
  destruct (unsupported_goal_rejected (env := Demo.env) Demo.config
              Demo.goals_map Demo.suggestion_map Demo.skill_groups
              (Demo.request "Data Science" Demo.resume)
              eq_refl eq_refl) as [Hreject [Hother Hscorer]].
  split; [exact Hreject|]. split.
  - apply (Hother (Demo.request "GATE ECE" Demo.resume) eq_refl eq_refl).
    split; [eexists; reflexivity|].
    right. split; [eexists; reflexivity|reflexivity].
  - destruct (Hscorer "123" "Data Science" Demo.resume [] eq_refl)
      as [Hsame [Hload Hfail]].
    split; [exact Hsame|]. split; [exact Hload|].
    apply Hfail. split; [eexists; reflexivity|]. left. reflexivity.
Defined.

(** C9 as stated fails for the scorer called on its own: for the goal
    "Invalid Goal", which is not supported, it attempts the load of the
    model and raises [FileNotFoundError], the failure of a supported goal
    (GATE ECE) whose vectorizer is absent; and a goal that is not among the
    supported goals but has its artifacts is scored. *)
Lemma unsupported_goal_counterexample :
  whitespace_only Demo.resume = false /\
  mem "Invalid Goal" (model_goals_supported Demo.config) = false /\
  Demo.run "Invalid Goal" Demo.resume
  = ([EvJoblibLoad "Invalid_Goal_model.pkl"],
     inl (FileNotFoundError "Invalid_Goal_model.pkl")) /\
  mem "GATE ECE" (model_goals_supported Demo.config) = true /\
  Demo.run "GATE ECE" Demo.resume
  = ([EvJoblibLoad "GATE_ECE_model.pkl";
      EvJoblibLoad "GATE_ECE_vectorizer.pkl"],
     inl (FileNotFoundError "GATE_ECE_vectorizer.pkl")) /\
  mem "Amazon SDE" (model_goals_supported (with_supported Demo.config []))
  = false /\
  result_of
    (score_resume (env := Demo.env) "123" "Amazon SDE" Demo.resume
       (with_supported Demo.config []) Demo.goals_map Demo.suggestion_map
       Demo.skill_groups)
  = Some Demo.result.
Proof.
  repeat split; vm_compute; reflexivity.
Qed.

(* ------------------------------------------------------------------ *)
(** ** The scoring call as a whole *)

(** What a call of [score_resume] returns or raises. *)
Lemma score_resume_outcome {env : Env}
    (student_id goal resume_text : string) (config : Config)
    (goals_map : list (string * list Requirement))
    (suggestion_map : list (string * string))
    (skill_groups : list (string * list (string * list string))) :
  outcome (score_resume student_id goal resume_text config goals_map
             suggestion_map skill_groups)
  = if is_empty (strip resume_text)
    then inl (ValueError "Resume text cannot be empty")
    else
      match joblib_load (replace_blank goal ++ "_model.pkl")%string with
      | inl e => inl e
      | inr model =>
      match joblib_load (replace_blank goal ++ "_vectorizer.pkl")%string with
      | inl e => inl e
      | inr vectorizer =>
      match predict_proba model vectorizer resume_text with
      | inl e => inl e
      | inr prob =>
      match alternate_skills_file with
      | Failed e => inl e
      | _ =>
      match minimum_score_to_pass config with
      | None => inl (KeyError "minimum_score_to_pass")
      | Some minimum =>
          inr (report prob minimum goal resume_text config goals_map
                 suggestion_map skill_groups)
      end end end end end.
Proof.
  unfold score_resume.
  destruct (is_empty (strip resume_text)); [reflexivity|].
  unfold load_model, load_vectorizer.
  rewrite outcome_bind.
  destruct (joblib_load (replace_blank goal ++ "_model.pkl")%string)
    as [e|model] eqn:Em;
    [now rewrite (load_artifact_missing _ _ Em)
    |rewrite (load_artifact_present _ _ Em)].
  cbn [outcome snd]. rewrite outcome_bind.
  destruct (joblib_load (replace_blank goal ++ "_vectorizer.pkl")%string)
    as [e|vectorizer] eqn:Ev;
    [now rewrite (load_artifact_missing _ _ Ev)
    |rewrite (load_artifact_present _ _ Ev)].
  cbn [outcome snd]. rewrite !outcome_bind. cbn [outcome snd emit].
  destruct (predict_proba model vectorizer resume_text) as [e|prob];
    [reflexivity|].
  cbn [outcome snd ret]. unfold load_alternate_skills.
  rewrite !outcome_bind. cbn [outcome snd emit].
  unfold report, capped_of, missing_of, matched_of, alternates_table.
  destruct alternate_skills_file as [d| | |e]; cbn [outcome snd ret raise];
    [| | |reflexivity];
    (rewrite !outcome_bind; cbn [outcome snd emit ret];
     rewrite outcome_bind, for_each_resolve_outcome; cbn [fst snd app];
     destruct (minimum_score_to_pass config) as [minimum|]; reflexivity).
Qed.

(* ------------------------------------------------------------------ *)
(** ** Dictionaries, sets and the tables of the scorer *)

Lemma Permutation_filter {A} (f : A -> bool) (l1 l2 : list A) :
  Permutation l1 l2 -> Permutation (filter f l1) (filter f l2).
Proof.
  induction 1 as [|x l1 l2 _ IH|x y l|l1 l2 l3 _ IH1 _ IH2]; simpl.
  - constructor.
  - destruct (f x); [now constructor|assumption].
  - destruct (f x), (f y); try reflexivity. apply perm_swap.
  - now transitivity (filter f l2).
Qed.

Lemma mem_filter (f : string -> bool) (x : string) (l : list string) :
  In x l -> mem x (filter f l) = f x.
Proof.
  intros Hin. destruct (f x) eqn:E.
  - apply mem_In, filter_In. now split.
  - apply mem_false. intros H. apply filter_In in H as [_ H]. congruence.
Qed.

Section DictFacts.
Context {V : Type}.
Implicit Types (d : list (string * V)) (k : string) (v : V).

Lemma dict_set_fresh d k v :
  ~ In k (keys d) -> dict_set d k v = d ++ [(k, v)].
Proof.
  induction d as [|[k' v'] d IH]; simpl; [reflexivity|].
  intros H. destruct (String.eqb_spec k k') as [->|Hne].
  - exfalso. apply H. now left.
  - rewrite IH; [reflexivity|]. intros Hin. apply H. now right.
Qed.

Lemma keys_dict_set d k v k' :
  In k' (keys (dict_set d k v)) <-> In k' (keys d) \/ k' = k.
Proof.
  induction d as [|[k0 v0] d IH]; simpl.
  - intuition.
  - destruct (String.eqb_spec k k0) as [->|Hne]; simpl.
    + intuition.
    + rewrite IH. intuition.
Qed.

Lemma dict_of_items_from (items acc : list (string * V)) :
  NoDup (keys acc ++ map fst items) ->
  fold_left (fun d kv => dict_set d (fst kv) (snd kv)) items acc
  = acc ++ items.
Proof.
  revert acc. induction items as [|[k v] items IH]; intros acc H; simpl.
  - now rewrite app_nil_r.
  - simpl in H. rewrite dict_set_fresh.
    + rewrite IH; [now rewrite <- app_assoc|].
      unfold keys in *. rewrite map_app, <- app_assoc. exact H.
    + apply NoDup_remove_2 in H. intros Hin. apply H.
      apply in_or_app. now left.
Qed.

Lemma dict_of_items_NoDup (items : list (string * V)) :
  NoDup (map fst items) -> dict_of_items items = items.
Proof. intros H. unfold dict_of_items. now rewrite dict_of_items_from. Qed.

Lemma keys_dict_of_items_from (items acc : list (string * V)) k :
  In k (keys (fold_left (fun d kv => dict_set d (fst kv) (snd kv)) items acc))
  <-> In k (keys acc) \/ In k (map fst items).
Proof.
  revert acc. induction items as [|[k0 v0] items IH]; intros acc; simpl.
  - intuition.
  - rewrite IH, keys_dict_set. intuition.
Qed.

Lemma keys_dict_of_items (items : list (string * V)) k :
  In k (keys (dict_of_items items)) <-> In k (map fst items).
Proof.
  unfold dict_of_items. rewrite keys_dict_of_items_from. simpl. intuition.
Qed.

Lemma dict_get_In d k v :
  NoDup (keys d) -> In (k, v) d -> dict_get d k = Some v.
Proof.
  induction d as [|[k' v'] d IH]; simpl; [contradiction|].
  intros Hnd [Heq|Hin].
  - inversion Heq; subst. now rewrite String.eqb_refl.
  - inversion Hnd as [|? ? Hk Hd]; subst.
    destruct (String.eqb_spec k k') as [->|Hne]; [|now apply IH].
    exfalso. apply Hk. change k' with (fst (k', v)). now apply in_map.
Qed.
End DictFacts.

Section DictSetFacts.
Context {V : Type}.
Implicit Types (d : list (string * V)) (k : string) (v : V).

Lemma dict_set_In d k v k' v' :
  In (k', v') (dict_set d k v) -> In (k', v') d \/ (k' = k /\ v' = v).
Proof.
  induction d as [|[k0 v0] d IH]; simpl.
  - intros [H|[]]. inversion H. auto.
  - destruct (String.eqb_spec k k0) as [->|Hne]; simpl.
    + intros [H|H]; [inversion H; auto|auto].
    + intros [H|H]; [auto|]. destruct (IH H); auto.
Qed.

Lemma dict_set_NoDup d k v : NoDup (keys d) -> NoDup (keys (dict_set d k v)).
Proof.
  induction d as [|[k0 v0] d IH]; simpl.
  - intros _. repeat constructor. intros [].
  - intros H. apply NoDup_cons_iff in H as [Hk Hd].
    destruct (String.eqb_spec k k0) as [->|Hne]; simpl.
    + now constructor.
    + constructor; [|now apply IH].
      intros Hin. apply keys_dict_set in Hin as [Hin|Heq]; [now apply Hk|].
      now apply Hne.
Qed.

Lemma dict_get_set d k v : dict_get (dict_set d k v) k = Some v.
Proof.
  induction d as [|[k0 v0] d IH]; simpl.
  - now rewrite String.eqb_refl.
  - destruct (String.eqb_spec k k0) as [->|Hne]; simpl.
    + now rewrite String.eqb_refl.
    + destruct (String.eqb_spec k k0); [contradiction|exact IH].
Qed.
End DictSetFacts.

Lemma dict_get_set_other {V} (d : list (string * V)) (k k' : string) (v : V) :
  k <> k' -> dict_get (dict_set d k' v) k = dict_get d k.
Proof.
  intros Hne. induction d as [|[k0 v0] d IH]; simpl.
  - destruct (String.eqb_spec k k'); [contradiction|reflexivity].
  - destruct (String.eqb_spec k' k0) as [->|Hk0]; simpl.
    + destruct (String.eqb_spec k k0); [contradiction|reflexivity].
    + destruct (String.eqb_spec k k0); [reflexivity|exact IH].
Qed.

Lemma dict_get_fold_other {V} (items acc : list (string * V)) (k : string) :
  ~ In k (map fst items) ->
  dict_get (fold_left (fun d kv => dict_set d (fst kv) (snd kv)) items acc) k
  = dict_get acc k.
Proof.
  revert acc. induction items as [|[k0 v0] items IH]; intros acc H;
    [reflexivity|].
  cbn [fold_left fst snd]. rewrite IH.
  - apply dict_get_set_other. intros ->. apply H. now left.
  - intros Hin. apply H. now right.
Qed.

Lemma dict_of_items_last {V} (before after : list (string * V))
    (k : string) (v : V) :
  ~ In k (map fst after) ->
  dict_get (dict_of_items (before ++ (k, v) :: after)) k = Some v.
Proof.
  intros H. unfold dict_of_items. rewrite fold_left_app. cbn [fold_left fst snd].
  rewrite (dict_get_fold_other _ _ _ H). apply dict_get_set.
Qed.

Lemma weights_table (imp : string) :
  dict_get_or importance_weights imp 0
  = match Spec.tier_of imp with Some t => Spec.weight t | None => 0 end.
Proof.
  unfold dict_get_or, importance_weights, Spec.tier_of. cbn [dict_get].
  destruct (String.eqb imp "core"); [reflexivity|].
  destruct (String.eqb imp "important"); [reflexivity|].
  destruct (String.eqb imp "nice_to_have"); reflexivity.
Qed.

Lemma ranks_table (imp : string) :
  dict_get_or importance_order imp 99 = Spec.rank_of imp.
Proof.
  unfold dict_get_or, importance_order, Spec.rank_of, Spec.tier_of.
  cbn [dict_get].
  destruct (String.eqb imp "core"); [reflexivity|].
  destruct (String.eqb imp "important"); [reflexivity|].
  destruct (String.eqb imp "nice_to_have"); reflexivity.
Qed.

Section SetFacts.
Context {env : Env}.
Hypothesis set_iter_perm : forall l, Permutation (set_iter l) l.

Lemma set_of_In (x : string) (l : list string) : In x (set_of l) <-> In x l.
Proof.
  unfold set_of. rewrite <- (nodup_In string_dec l x).
  split; apply Permutation_in; [|symmetry]; apply set_iter_perm.
Qed.

Lemma set_of_NoDup (l : list string) : NoDup (set_of l).
Proof.
  unfold set_of.
  apply (Permutation_NoDup (Permutation_sym (set_iter_perm _))).
  apply NoDup_nodup.
Qed.

Lemma set_of_perm (l : list string) : NoDup l -> Permutation (set_of l) l.
Proof.
  intros H. unfold set_of. rewrite set_iter_perm.
  now rewrite nodup_fixed_point.
Qed.

Lemma goal_names_In goals_map goal (s : string) :
  In s (goal_names goals_map goal) <-> In s (required_names goals_map goal).
Proof.
  unfold goal_names, goal_dict, required_names.
  rewrite set_of_In, keys_dict_of_items, map_map. simpl. reflexivity.
Qed.

Lemma goal_names_NoDup goals_map goal : NoDup (goal_names goals_map goal).
Proof. apply set_of_NoDup. Qed.
End SetFacts.

(* ------------------------------------------------------------------ *)
(** ** The score aggregator *)

Lemma post_score_result {env : Env} (config : Config)
    (goals_map : list (string * list Requirement))
    (suggestion_map : list (string * string))
    (skill_groups : list (string * list (string * list string)))
    (request : ScoreRequest) :
  whitespace_only (req_resume_text request) = false ->
  mem (req_goal request) (model_goals_supported config) = true ->
  result_of (post_score config goals_map suggestion_map skill_groups request)
  = result_of
      (score_resume (req_student_id request) (req_goal request)
         (req_resume_text request) config goals_map suggestion_map skill_groups).
Proof.
  intros Hne Hgoal. unfold post_score.
  rewrite (strip_nonempty _ Hne), Hgoal. cbn [negb].
  destruct (score_resume _ _ _ _ _ _ _) as [t [e|r]]; [|reflexivity].
  destruct e; reflexivity.
Qed.

Lemma weight_of_nonneg (r : Requirement) : 0 <= Spec.weight_of r.
Proof.
  unfold Spec.weight_of.
  destruct (Spec.tier_of (importance r)) as [[]|]; cbn [Spec.weight]; lia.
Qed.

Lemma sum_weight_nonneg (requirements : list Requirement) :
  0 <= sum (map Spec.weight_of requirements).
Proof.
  induction requirements as [|r l IH]; [reflexivity|].
  cbn [map]. rewrite sum_cons. pose proof (weight_of_nonneg r). lia.
Qed.

Lemma weight_of_positive (requirements : list Requirement) :
  Exists (fun r => Spec.recognized r = true) requirements ->
  0 < sum (map Spec.weight_of requirements).
Proof.
  induction 1 as [r l Hr|r l _ IH]; cbn [map]; rewrite sum_cons.
  - pose proof (sum_weight_nonneg l) as Hl.
    assert (0 < Spec.weight_of r); [|lia].
    unfold Spec.recognized in Hr. unfold Spec.weight_of.
    destruct (Spec.tier_of (importance r)) as [[]|]; [| | |discriminate];
      cbn [Spec.weight]; lia.
  - pose proof (weight_of_nonneg r). lia.
Qed.

Lemma weight_of_unrecognized (r : Requirement) :
  Spec.recognized r = false -> Spec.weight_of r = 0.
Proof.
  unfold Spec.recognized, Spec.weight_of.
  destruct (Spec.tier_of (importance r)); [discriminate|reflexivity].
Qed.

Lemma sum_weight_recognized (requirements : list Requirement) :
  sum (map Spec.weight_of (filter Spec.recognized requirements))
  = sum (map Spec.weight_of requirements).
Proof.
  induction requirements as [|r l IH]; [reflexivity|].
  cbn [filter map]. destruct (Spec.recognized r) eqn:E.
  - cbn [map]. rewrite !sum_cons. now rewrite IH.
  - rewrite sum_cons, IH, (weight_of_unrecognized r E). lia.
Qed.

Lemma filter_comm {A} (f g : A -> bool) (l : list A) :
  filter f (filter g l) = filter g (filter f l).
Proof.
  induction l as [|x l IH]; [reflexivity|].
  cbn [filter]. destruct (g x) eqn:Eg, (f x) eqn:Ef; cbn [filter];
    rewrite ?Eg, ?Ef, IH; reflexivity.
Qed.

(** Requirements of an unrecognized importance do not change the
    coverage. *)
Lemma coverage_of_recognized (counted : list Requirement)
    (matched : list string) :
  Spec.coverage_of (filter Spec.recognized counted) matched
  = Spec.coverage_of counted matched.
Proof.
  unfold Spec.coverage_of.
  now rewrite filter_comm, !sum_weight_recognized.
Qed.

(** The last requirement of each name. *)
Lemma effective_In (requirements : list Requirement) (r : Requirement) :
  In r (Spec.effective requirements) ->
  exists before after,
    requirements = before ++ r :: after /\ ~ In (name r) (map name after).
Proof.
  induction requirements as [|r0 rest IH]; [intros []|].
  cbn [Spec.effective]. destruct (mem (name r0) (map name rest)) eqn:E.
  - intros H. destruct (IH H) as (b & a & -> & Ha).
    exists (r0 :: b), a. split; [reflexivity|assumption].
  - intros [->|H].
    + exists [], rest. split; [reflexivity|]. now apply mem_false.
    + destruct (IH H) as (b & a & -> & Ha).
      exists (r0 :: b), a. split; [reflexivity|assumption].
Qed.

Lemma effective_names (requirements : list Requirement) (s : string) :
  In s (map name (Spec.effective requirements)) <->
  In s (map name requirements).
Proof.
  induction requirements as [|r0 rest IH]; [reflexivity|].
  cbn [Spec.effective]. destruct (mem (name r0) (map name rest)) eqn:E.
  - rewrite IH. cbn [map]. split; [now right|].
    intros [<-|H]; [now apply mem_In|assumption].
  - cbn [map In]. now rewrite IH.
Qed.

Lemma effective_NoDup (requirements : list Requirement) :
  NoDup (map name (Spec.effective requirements)).
Proof.
  induction requirements as [|r0 rest IH]; [constructor|].
  cbn [Spec.effective].
  destruct (mem (name r0) (map name rest)) eqn:E; [assumption|].
  cbn [map]. constructor; [|assumption].
  rewrite effective_names. now apply mem_false.
Qed.

Lemma effective_id (requirements : list Requirement) :
  NoDup (map name requirements) -> Spec.effective requirements = requirements.
Proof.
  induction requirements as [|r0 rest IH]; [reflexivity|].
  cbn [map]. intros H. apply NoDup_cons_iff in H as [Hr Hrest].
  cbn [Spec.effective]. apply mem_false in Hr. rewrite Hr. now rewrite IH.
Qed.

(** On a goal table that names each skill once and has a requirement of a
    recognized importance, or no requirement, the coverage is the quotient
    of Section 4.4. *)
Lemma coverage_skill_score (requirements : list Requirement)
    (matched : list string) :
  NoDup (map name requirements) ->
  requirements = [] \/
  Exists (fun r => Spec.recognized r = true) requirements ->
  Spec.coverage requirements matched = Spec.skill_score requirements matched.
Proof.
  intros Hnd H. unfold Spec.coverage, Spec.coverage_of, Spec.skill_score.
  rewrite (effective_id _ Hnd).
  destruct H as [->|H]; [reflexivity|].
  pose proof (weight_of_positive _ H) as Hpos.
  destruct requirements as [|r0 rest]; [inversion H|].
  destruct (0 <? _) eqn:E; [reflexivity|]. apply Z.ltb_ge in E. lia.
Qed.

Section AggregatorFacts.
Context {env : Env}.
Hypothesis set_iter_perm : forall l, Permutation (set_iter l) l.
Variable goals_map : list (string * list Requirement).
Variable goal : string.

Lemma goal_dict_get (r : Requirement) :
  In r (Spec.effective (dict_get_or goals_map goal [])) ->
  dict_get (goal_dict goals_map goal) (name r) = Some (importance r).
Proof.
  intros H. destruct (effective_In _ _ H) as (b & a & E & Ha).
  unfold goal_dict. rewrite E, map_app. cbn [map].
  apply dict_of_items_last. now rewrite map_map.
Qed.

Lemma goal_names_effective :
  Permutation (goal_names goals_map goal)
    (map name (Spec.effective (dict_get_or goals_map goal []))).
Proof.
  apply NoDup_Permutation.
  - apply (goal_names_NoDup set_iter_perm).
  - apply effective_NoDup.
  - intros s. rewrite (goal_names_In set_iter_perm), effective_names.
    reflexivity.
Qed.

Lemma skill_points_weight (r : Requirement) :
  In r (Spec.effective (dict_get_or goals_map goal [])) ->
  skill_points (goal_dict goals_map goal) (name r) = Spec.weight_of r.
Proof.
  intros H. unfold skill_points, Spec.weight_of.
  rewrite <- weights_table. unfold dict_get_or at 2.
  now rewrite (goal_dict_get r H).
Qed.

(** The points of the skills selected by [f], summed over the set of skill
    names, are the weights of the selected requirements. *)
Lemma points_of_selection (f : string -> bool) :
  sum (map (skill_points (goal_dict goals_map goal))
         (filter f (goal_names goals_map goal)))
  = sum (map Spec.weight_of
           (filter (fun r => f (name r))
              (Spec.effective (dict_get_or goals_map goal [])))).
Proof.
  rewrite (sum_perm _ _
             (Permutation_map _ (Permutation_filter f _ _ goal_names_effective))).
  rewrite filter_map_swap, map_map.
  f_equal. apply map_ext_in. intros r Hr.
  apply skill_points_weight. apply filter_In in Hr. tauto.
Qed.

Lemma points_of_all :
  sum (map (skill_points (goal_dict goals_map goal))
         (goal_names goals_map goal))
  = sum (map Spec.weight_of (Spec.effective (dict_get_or goals_map goal []))).
Proof.
  rewrite <- (filter_true (goal_names goals_map goal)).
  rewrite points_of_selection. now rewrite filter_true.
Qed.

(** The skill score of the source is the coverage of the last requirement
    of each name. *)
Lemma skill_score_coverage (resume_text : string) :
  let d := goal_dict goals_map goal in
  let matched := matched_of goals_map goal resume_text in
  let total := sum (map (skill_points d) (goal_names goals_map goal)) in
  (if 0 <? total
   then truediv (sum (map (skill_points d) matched)) total
   else 0%float)
  = Spec.coverage (dict_get_or goals_map goal [])
      (sorted String.leb matched).
Proof.
  intros d matched total. subst d matched total.
  rewrite points_of_all. unfold matched_of. rewrite points_of_selection.
  unfold Spec.coverage, Spec.coverage_of.
  destruct (0 <? _); [|reflexivity].
  f_equal. f_equal. f_equal. apply filter_ext_in. intros r Hr.
  rewrite sorted_mem, mem_filter; [reflexivity|].
  apply (goal_names_In set_iter_perm). unfold required_names.
  apply effective_names. now apply in_map.
Qed.

Lemma report_score (prob minimum : float) (resume_text : string)
    (config : Config) (suggestion_map : list (string * string))
    (skill_groups : list (string * list (string * list string))) :
  let r := report prob minimum goal resume_text config goals_map
             suggestion_map skill_groups in
  score r
  = (0.6 * prob +
     0.4 * Spec.coverage (dict_get_or goals_map goal []) (matched_skills r))%float.
Proof.
  cbv zeta. unfold report. cbn [score matched_skills].
  rewrite skill_score_coverage. reflexivity.
Qed.

(** The lookups of the aggregator never fall back on their default: the
    names that are summed are keys of the importance dictionary. *)
Lemma goal_names_keys (s : string) :
  In s (goal_names goals_map goal) ->
  dict_get (goal_dict goals_map goal) s <> None.
Proof.
  intros H.
  apply (Permutation_in _ goal_names_effective), in_map_iff in H
    as (r & <- & Hr).
  rewrite (goal_dict_get r Hr). discriminate.
Qed.
End AggregatorFacts.

(** A call on a non-blank text whose artifacts load, whose classifier
    answers, whose alternates are read and whose pass mark is configured
    returns the report. *)
Lemma score_resume_returns {env : Env}
    (student_id goal resume_text : string) (config : Config)
    (goals_map : list (string * list Requirement))
    (suggestion_map : list (string * string))
    (skill_groups : list (string * list (string * list string)))
    (model vectorizer : artifact) (prob minimum : float) :
  whitespace_only resume_text = false ->
  joblib_load (replace_blank goal ++ "_model.pkl")%string = inr model ->
  joblib_load (replace_blank goal ++ "_vectorizer.pkl")%string
    = inr vectorizer ->
  predict_proba model vectorizer resume_text = inr prob ->
  (forall e, alternate_skills_file <> Failed e) ->
  minimum_score_to_pass config = Some minimum ->
  result_of (score_resume student_id goal resume_text config goals_map
               suggestion_map skill_groups)
  = Some (report prob minimum goal resume_text config goals_map
            suggestion_map skill_groups).
Proof.
  intros Hne Hm Hv Hp Halt Hmin. unfold result_of.
  rewrite score_resume_outcome, (strip_nonempty _ Hne), Hm, Hv, Hp, Hmin.
  destruct alternate_skills_file as [d| | |e] eqn:E; try reflexivity.
  now destruct (Halt e).
Qed.

(** C1, as the code has it. For every scoring call with a supported goal
    (its classifier and vectorizer load and give the probability [prob]), a
    resume text that is not blank, a file of alternates whose read does not
    raise and a configured pass mark, the call returns a result whose score is
    [0.6 * prob + 0.4 * skill_score], where [skill_score] is the sum of the
    weights (core 3, important 2, nice_to_have 1, any other importance 0)
    of the matched skills divided by the sum over all required skills, a
    skill named by several requirements counting once with the importance
    of the last of them, and 0 when that sum is 0; [is_pass] holds exactly
    when the score reaches the configured [minimum_score_to_pass]; the
    endpoint returns the same. When no skill is named twice and the goal has
    a requirement of a recognized importance, or none at all, [skill_score]
    is the quotient over the requirements. *)
Theorem final_score_formula {env : Env}
    (student_id goal resume_text : string) (config : Config)
    (goals_map : list (string * list Requirement))
    (suggestion_map : list (string * string))
    (skill_groups : list (string * list (string * list string)))
    (model vectorizer : artifact) (prob minimum : float) :
  (forall l, Permutation (set_iter l) l) ->
  whitespace_only resume_text = false ->
  mem goal (model_goals_supported config) = true ->
  joblib_load (replace_blank goal ++ "_model.pkl")%string = inr model ->
  joblib_load (replace_blank goal ++ "_vectorizer.pkl")%string
    = inr vectorizer ->
  predict_proba model vectorizer resume_text = inr prob ->
  (forall e, alternate_skills_file <> Failed e) ->
  minimum_score_to_pass config = Some minimum ->
  exists r : ScoreResult,
    result_of (score_resume student_id goal resume_text config goals_map
                 suggestion_map skill_groups) = Some r /\
    result_of (post_score config goals_map suggestion_map skill_groups
                 {| req_student_id := student_id; req_goal := goal;
                    req_resume_text := resume_text |}) = Some r /\
    score r
    = (0.6 * prob +
       0.4 * Spec.coverage (dict_get_or goals_map goal [])
               (matched_skills r))%float /\
    is_pass r = PrimFloat.leb minimum (score r) /\
    (NoDup (required_names goals_map goal) ->
     dict_get_or goals_map goal [] = [] \/
     Exists (fun q => Spec.recognized q = true) (dict_get_or goals_map goal []) ->
     Spec.coverage (dict_get_or goals_map goal []) (matched_skills r)
     = Spec.skill_score (dict_get_or goals_map goal []) (matched_skills r)).
Proof.
  intros Hperm Hne Hgoal Hm Hv Hp Halt Hmin.
  exists (report prob minimum goal resume_text config goals_map suggestion_map
            skill_groups).
  pose proof (score_resume_returns student_id goal resume_text config
                goals_map suggestion_map skill_groups model vectorizer prob
                minimum Hne Hm Hv Hp Halt Hmin) as Hrun.
  split; [exact Hrun|].
  split; [now rewrite post_score_result|].
  split; [apply (report_score Hperm)|].
  split; [reflexivity|].
  intros Hnd Hreqs. now apply coverage_skill_score.
Qed.

Lemma final_score_formula_witness :
  exists r : ScoreResult,
    result_of (Demo.run "Polyglot" Demo.resume) = Some r /\
    result_of (Demo.serve "Polyglot" Demo.resume) = Some r /\
    score r
    = (0.6 * 0.5 +
       0.4 * Spec.coverage (dict_get_or Demo.goals_map "Polyglot" [])
               (matched_skills r))%float /\
    is_pass r = PrimFloat.leb 0.5 (score r) /\
    (NoDup (required_names Demo.goals_map "Polyglot") ->
     dict_get_or Demo.goals_map "Polyglot" [] = [] \/
     Exists (fun q => Spec.recognized q = true)
       (dict_get_or Demo.goals_map "Polyglot" []) ->
     Spec.coverage (dict_get_or Demo.goals_map "Polyglot" [])
       (matched_skills r)
     = Spec.skill_score (dict_get_or Demo.goals_map "Polyglot" [])
         (matched_skills r)).
Proof.
  apply (final_score_formula (env := Demo.env) "123" "Polyglot" Demo.resume
           Demo.config Demo.goals_map Demo.suggestion_map Demo.skill_groups
           0.5%float 0%float 0.5%float 0.5%float).
  - exact demo_set_iter_perm.
  - reflexivity.
  - reflexivity.
  - reflexivity.
  - reflexivity.
  - reflexivity.
  - intros e. discriminate.
  - reflexivity.
Defined.

(** C1 as stated fails on a goal table that names a skill twice: Java is
    required as nice_to_have and again as core, and the resume has Java and
    SQL but not Rust. The scorer counts Java once, as core: 6 points of 9.
    The quotient over the requirements is 7 of 10. It fails as well on a
    goal whose only requirement has an unrecognized importance: the scorer
    gives the skill score 0, where the quotient of the claim divides 0 by
    0. *)
Lemma final_score_counterexample :
  let requirements :=
    [Demo.req "Java" "nice_to_have"; Demo.req "SQL" "core";
     Demo.req "Java" "core"; Demo.req "Rust" "core"] in
  let unrecognized := [Demo.req "Java" "optional"] in
  mem "Amazon SDE" (model_goals_supported Demo.config) = true /\
  whitespace_only Demo.resume = false /\
  (exists r : ScoreResult,
     result_of (score_resume (env := Demo.env) "123" "Amazon SDE" Demo.resume
                  Demo.config [("Amazon SDE", requirements)]
                  Demo.suggestion_map Demo.skill_groups) = Some r /\
     matched_skills r = ["Java"; "SQL"] /\
     score r = (0.6 * 0.8 + 0.4 * truediv 6 9)%float /\
     Spec.skill_score requirements (matched_skills r) = truediv 7 10 /\
     score r
     <> (0.6 * 0.8 + 0.4 * Spec.skill_score requirements (matched_skills r))%float) /\
  (exists r : ScoreResult,
     result_of (score_resume (env := Demo.env) "123" "Amazon SDE" Demo.resume
                  Demo.config [("Amazon SDE", unrecognized)]
                  Demo.suggestion_map Demo.skill_groups) = Some r /\
     score r = (0.6 * 0.8 + 0.4 * 0)%float /\
     score r
     <> (0.6 * 0.8 + 0.4 * Spec.skill_score unrecognized (matched_skills r))%float).
Proof.
  cbv zeta. split; [reflexivity|]. split; [reflexivity|]. split.
  - eexists. split; [vm_compute; reflexivity|].
    split; [reflexivity|]. split; [reflexivity|]. split; [reflexivity|].
    intros H.
    apply (f_equal (fun x => PrimFloat.leb x 0.75)) in H.
    vm_compute in H. discriminate.
  - eexists. split; [vm_compute; reflexivity|].
    split; [reflexivity|].
    intros H.
    apply (f_equal (fun x => PrimFloat.leb x 0.5)) in H.
    vm_compute in H. discriminate.
Qed.

(* ------------------------------------------------------------------ *)
(** ** Importance outside the weight table *)

(** C2, as the code has it. A required skill whose importance is none of
    core, important and nice_to_have weighs 0 in the aggregator, in the
    denominator and in the numerator, matched or not: the score of a call is
    [0.6 * prob + 0.4 * skill_score] with the skill score taken over the
    requirements of a recognized importance alone (the last requirement of
    each name), and 0 when these have no weight. The nice_to_have default of
    the lookup is never used: every skill that is summed, required or
    matched, is a key of the importance dictionary of the goal. *)
Theorem unknown_importance_weighs_nothing {env : Env}
    (student_id goal resume_text : string) (config : Config)
    (goals_map : list (string * list Requirement))
    (suggestion_map : list (string * string))
    (skill_groups : list (string * list (string * list string)))
    (model vectorizer : artifact) (prob minimum : float) :
  (forall l, Permutation (set_iter l) l) ->
  whitespace_only resume_text = false ->
  joblib_load (replace_blank goal ++ "_model.pkl")%string = inr model ->
  joblib_load (replace_blank goal ++ "_vectorizer.pkl")%string
    = inr vectorizer ->
  predict_proba model vectorizer resume_text = inr prob ->
  (forall e, alternate_skills_file <> Failed e) ->
  minimum_score_to_pass config = Some minimum ->
  exists r : ScoreResult,
    result_of (score_resume student_id goal resume_text config goals_map
                 suggestion_map skill_groups) = Some r /\
    score r
    = (0.6 * prob +
       0.4 * Spec.coverage_of
               (filter Spec.recognized
                  (Spec.effective (dict_get_or goals_map goal [])))
               (matched_skills r))%float /\
    (forall q : Requirement,
       In q (Spec.effective (dict_get_or goals_map goal [])) ->
       Spec.recognized q = false ->
       skill_points (goal_dict goals_map goal) (name q) = 0) /\
    (forall s : string,
       In s (goal_names goals_map goal) \/ In s (matched_skills r) ->
       dict_get (goal_dict goals_map goal) s <> None).
Proof.
  intros Hperm Hne Hm Hv Hp Halt Hmin.
  exists (report prob minimum goal resume_text config goals_map suggestion_map
            skill_groups).
  split.
  { exact (score_resume_returns student_id goal resume_text config goals_map
             suggestion_map skill_groups model vectorizer prob minimum
             Hne Hm Hv Hp Halt Hmin). }
  split.
  { rewrite coverage_of_recognized. apply (report_score Hperm). }
  split.
  { intros q Hq Hun.
    rewrite (skill_points_weight goals_map goal q Hq).
    now apply weight_of_unrecognized. }
  intros s [Hs|Hs]; [now apply (goal_names_keys Hperm)|].
  apply (goal_names_keys Hperm).
  unfold report in Hs. cbn [matched_skills] in Hs.
  apply sorted_In in Hs. unfold matched_of in Hs.
  apply filter_In in Hs. tauto.
Qed.

Lemma unknown_importance_weighs_nothing_witness :
  exists r : ScoreResult,
    result_of (Demo.run "Polyglot" Demo.resume) = Some r /\
    score r
    = (0.6 * 0.5 +
       0.4 * Spec.coverage_of
               (filter Spec.recognized
                  (Spec.effective (dict_get_or Demo.goals_map "Polyglot" [])))
               (matched_skills r))%float /\
    (forall q : Requirement,
       In q (Spec.effective (dict_get_or Demo.goals_map "Polyglot" [])) ->
       Spec.recognized q = false ->
       skill_points (goal_dict Demo.goals_map "Polyglot") (name q) = 0) /\
    (forall s : string,
       In s (goal_names (env := Demo.env) Demo.goals_map "Polyglot") \/
       In s (matched_skills r) ->
       dict_get (goal_dict Demo.goals_map "Polyglot") s <> None).
Proof.
  apply (unknown_importance_weighs_nothing (env := Demo.env) "123" "Polyglot"
           Demo.resume Demo.config Demo.goals_map Demo.suggestion_map
           Demo.skill_groups 0.5%float 0%float 0.5%float 0.5%float).
  - exact demo_set_iter_perm.
  - reflexivity.
  - reflexivity.
  - reflexivity.
  - reflexivity.
  - intros e. discriminate.
  - reflexivity.
Defined.

(** C2 as stated fails: the requirement Esperanto of the goal Polyglot has
    the importance "optional", outside the table, and is not matched. With
    the nice_to_have weight for it in the denominator the skill score would
    be 3 of 4; the scorer gives 3 of 3. *)
Lemma unknown_importance_counterexample :
  let requirements := dict_get_or Demo.goals_map "Polyglot" [] in
  In (Demo.req "Esperanto" "optional") requirements /\
  Spec.tier_of "optional" = None /\
  exists r : ScoreResult,
    result_of (Demo.run "Polyglot" Demo.resume) = Some r /\
    matched_skills r = ["Python"] /\
    score r = (0.6 * 0.5 + 0.4 * truediv 3 3)%float /\
    Spec.defaulted_skill_score requirements (matched_skills r) = truediv 3 4 /\
    score r
    <> (0.6 * 0.5 +
        0.4 * Spec.defaulted_skill_score requirements (matched_skills r))%float.
Proof.
  cbv zeta. split; [right; left; reflexivity|]. split; [reflexivity|].
  eexists. split; [vm_compute; reflexivity|].
  split; [reflexivity|]. split; [reflexivity|]. split; [reflexivity|].
  intros H.
  apply (f_equal (fun x => PrimFloat.leb x 0.65)) in H.
  vm_compute in H. discriminate.
Qed.

(* ------------------------------------------------------------------ *)
(** ** The insight builder: missing skills and suggestions *)

Lemma nodup_check (l : list string) : nodup string_dec l = l -> NoDup l.
Proof. intros H. rewrite <- H. apply NoDup_nodup. Qed.

(** A call that returns a result returns a report. *)
Lemma score_resume_inv {env : Env}
    (student_id goal resume_text : string) (config : Config)
    (goals_map : list (string * list Requirement))
    (suggestion_map : list (string * string))
    (skill_groups : list (string * list (string * list string)))
    (r : ScoreResult) :
  result_of (score_resume student_id goal resume_text config goals_map
               suggestion_map skill_groups) = Some r ->
  exists prob minimum,
    r = report prob minimum goal resume_text config goals_map suggestion_map
          skill_groups.
Proof.
  unfold result_of. rewrite score_resume_outcome.
  destruct (is_empty (strip resume_text)); [discriminate|].
  destruct (joblib_load _) as [e|model]; [discriminate|].
  destruct (joblib_load _) as [e|vectorizer]; [discriminate|].
  destruct (predict_proba _ _ _) as [e|prob]; [discriminate|].
  destruct alternate_skills_file as [d| | |e]; [| | |discriminate];
    (destruct (minimum_score_to_pass config) as [minimum|]; [|discriminate];
     intros H; inversion H; eauto).
Qed.

(** A call that returns a result has loaded its two artifacts and has the
    probability of the classifier. *)
Lemma score_resume_inv_loads {env : Env}
    (student_id goal resume_text : string) (config : Config)
    (goals_map : list (string * list Requirement))
    (suggestion_map : list (string * string))
    (skill_groups : list (string * list (string * list string)))
    (r : ScoreResult) :
  result_of (score_resume student_id goal resume_text config goals_map
               suggestion_map skill_groups) = Some r ->
  exists model vectorizer prob minimum,
    joblib_load (replace_blank goal ++ "_model.pkl")%string = inr model /\
    joblib_load (replace_blank goal ++ "_vectorizer.pkl")%string
      = inr vectorizer /\
    predict_proba model vectorizer resume_text = inr prob /\
    r = report prob minimum goal resume_text config goals_map suggestion_map
          skill_groups.
Proof.
  unfold result_of. rewrite score_resume_outcome.
  destruct (is_empty (strip resume_text)); [discriminate|].
  destruct (joblib_load (replace_blank goal ++ "_model.pkl")%string)
    as [e|model]; [discriminate|].
  destruct (joblib_load (replace_blank goal ++ "_vectorizer.pkl")%string)
    as [e|vectorizer]; [discriminate|].
  destruct (predict_proba model vectorizer resume_text) as [e|prob] eqn:Ep;
    [discriminate|].
  destruct alternate_skills_file as [d| | |e]; [| | |discriminate];
    (destruct (minimum_score_to_pass config) as [minimum|]; [|discriminate];
     intros H; inversion H; exists model, vectorizer, prob, minimum; auto).
Qed.

Lemma Sorted_impl {A} (R R' : A -> A -> Prop) (l : list A) :
  (forall x y, R x y -> R' x y) -> Sorted R l -> Sorted R' l.
Proof.
  intros HR. induction 1 as [|x l Hl IH Hx]; constructor; [assumption|].
  destruct Hx; constructor. now apply HR.
Qed.

Lemma key_le_priority (x y : string * string) :
  key_le (missing_key x) (missing_key y) = true -> Spec.priority_le x y.
Proof.
  unfold key_le, missing_key, Spec.priority_le. cbn [fst snd].
  rewrite !ranks_table. intros H.
  apply orb_prop in H as [H|H].
  - left. now apply Z.ltb_lt.
  - right. apply andb_prop in H as [H1 H2]. split; [now apply Z.eqb_eq|assumption].
Qed.

Section InsightFacts.
Context {env : Env}.
Hypothesis set_iter_perm : forall l, Permutation (set_iter l) l.
Variables (goals_map : list (string * list Requirement)).
Variables (goal resume_text : string).

Lemma matched_of_In (s : string) :
  In s (matched_of goals_map goal resume_text) <->
  In s (required_names goals_map goal) /\
  resolved alternates_table (lemmatize_text_for_matching resume_text) s = true.
Proof.
  unfold matched_of. rewrite filter_In, goal_names_In by assumption.
  reflexivity.
Qed.

Lemma missing_of_In (s imp : string) :
  In (s, imp) (missing_of goals_map goal resume_text) <->
  In s (required_names goals_map goal) /\
  ~ In s (matched_of goals_map goal resume_text) /\
  imp = importance_in goals_map goal s.
Proof.
  unfold missing_of. rewrite in_map_iff, matched_of_In. split.
  - intros [s' [Heq Hin]]. inversion Heq; subst s' imp.
    apply filter_In in Hin as [Hin Hres].
    apply (goal_names_In set_iter_perm) in Hin.
    apply negb_true_iff in Hres.
    split; [assumption|]. split; [|reflexivity].
    intros [_ H]. congruence.
  - intros [Hin [Hnot ->]]. exists s. split; [reflexivity|].
    apply filter_In. split; [now apply goal_names_In|].
    apply negb_true_iff.
    destruct (resolved _ _ s) eqn:E; [|reflexivity].
    exfalso. apply Hnot. now split.
Qed.

Lemma missing_of_names (s : string) :
  In s (map fst (missing_of goals_map goal resume_text)) <->
  In s (required_names goals_map goal) /\
  ~ In s (matched_of goals_map goal resume_text).
Proof.
  rewrite in_map_iff. split.
  - intros [[s' imp] [Heq Hin]]. simpl in Heq. subst s'.
    apply missing_of_In in Hin. tauto.
  - intros [Hin Hnot]. exists (s, importance_in goals_map goal s).
    split; [reflexivity|]. apply missing_of_In. tauto.
Qed.

Lemma missing_of_NoDup : NoDup (missing_of goals_map goal resume_text).
Proof.
  apply (NoDup_map_inv fst). unfold missing_of.
  rewrite map_map. cbn [fst]. rewrite map_id.
  apply NoDup_filter. now apply goal_names_NoDup.
Qed.

(** The sorted list of line 182 is the priority list of the result. *)
Lemma report_priority prob minimum config suggestion_map skill_groups :
  priority_list goals_map goal
    (report prob minimum goal resume_text config goals_map suggestion_map
       skill_groups)
    (sorted (fun x y => key_le (missing_key x) (missing_key y))
       (missing_of goals_map goal resume_text)).
Proof.
  unfold priority_list, report. cbn [matched_skills]. split; [|split].
  - intros s imp. rewrite sorted_In, missing_of_In, sorted_In. reflexivity.
  - apply (Permutation_NoDup (Permutation_sym (sorted_perm _ _))).
    apply missing_of_NoDup.
  - apply (Sorted_impl _ _ _ key_le_priority).
    apply (sorted_Sorted (fun x y => key_le (missing_key x) (missing_key y))).
    intros a b. apply key_le_total.
Qed.
End InsightFacts.

(** C5, as the code has it. The returned [missing_skills] holds the first
    [max_missing_skills] missing requirements in the order of importance
    rank (core 1, important 2, nice_to_have 3, anything else 99) then name,
    and lists them alphabetically; for a cap that is not negative its length
    never exceeds the cap. *)
Theorem missing_skills_order {env : Env}
    (student_id goal resume_text : string) (config : Config)
    (goals_map : list (string * list Requirement))
    (suggestion_map : list (string * string))
    (skill_groups : list (string * list (string * list string)))
    (r : ScoreResult) :
  (forall l, Permutation (set_iter l) l) ->
  result_of (score_resume student_id goal resume_text config goals_map
               suggestion_map skill_groups) = Some r ->
  0 <= configured_cap config ->
  exists priority : list (string * string),
    priority_list goals_map goal r priority /\
    Permutation (missing_skills r)
      (firstn (Z.to_nat (configured_cap config)) (map fst priority)) /\
    Spec.alphabetical (missing_skills r) /\
    Z.of_nat (List.length (missing_skills r)) <= configured_cap config.
Proof.
  intros Hperm Hrun Hcap.
  apply score_resume_inv in Hrun as [prob [minimum ->]].
  eexists. split; [apply (report_priority Hperm)|].
  unfold report. cbn [missing_skills]. unfold capped_of.
  split; [|split].
  - rewrite sorted_perm. unfold slice_to.
    destruct (configured_cap config <? 0) eqn:E;
      [apply Z.ltb_lt in E; lia|reflexivity].
  - apply sorted_Sorted. apply String.leb_total.
  - rewrite sorted_length. now apply slice_to_length.
Qed.

Lemma missing_skills_order_witness :
  exists priority : list (string * string),
    priority_list Demo.goals_map "Amazon SDE" Demo.result priority /\
    Permutation (missing_skills Demo.result)
      (firstn (Z.to_nat 2) (map fst priority)) /\
    Spec.alphabetical (missing_skills Demo.result) /\
    Z.of_nat (List.length (missing_skills Demo.result)) <= 2.
Proof.
  apply (missing_skills_order (env := Demo.env) "123" "Amazon SDE" Demo.resume
           Demo.config Demo.goals_map Demo.suggestion_map Demo.skill_groups).
  - exact demo_set_iter_perm.
  - vm_compute. reflexivity.
  - vm_compute. discriminate.
Defined.

(** C5 as stated fails: with Rust (core), Kotlin (important) and AWS
    (nice_to_have) missing and a cap of 2, the call returns Kotlin before
    Rust, which is not the order of importance rank. (And a negative cap
    is a slice from the end: with -1, two of the three missing skills are
    returned.) *)
Lemma missing_skills_order_counterexample :
  (exists r : ScoreResult,
     result_of (Demo.run "Amazon SDE" Demo.resume) = Some r /\
     missing_skills r = ["Kotlin"; "Rust"] /\
     importance_in Demo.goals_map "Amazon SDE" "Kotlin" = "important" /\
     importance_in Demo.goals_map "Amazon SDE" "Rust" = "core" /\
     ~ Sorted Spec.priority_le
         (map (fun s => (s, importance_in Demo.goals_map "Amazon SDE" s))
            (missing_skills r))) /\
  (exists r : ScoreResult,
     result_of (score_resume (env := Demo.env) "123" "Amazon SDE" Demo.resume
                  (with_cap Demo.config (Some (-1))) Demo.goals_map
                  Demo.suggestion_map Demo.skill_groups) = Some r /\
     missing_skills r = ["Kotlin"; "Rust"] /\
     ~ Z.of_nat (List.length (missing_skills r)) <= -1).
Proof.
  split.
  - exists Demo.result.
    split; [vm_compute; reflexivity|].
    split; [vm_compute; reflexivity|].
    split; [vm_compute; reflexivity|].
    split; [vm_compute; reflexivity|].
    intros H.
    replace (missing_skills Demo.result) with ["Kotlin"; "Rust"] in H
      by (vm_compute; reflexivity).
    cbn [map] in H. inversion H as [|? ? _ Hhd]; subst.
    inversion Hhd as [|? ? Hle]; subst.
    unfold Spec.priority_le in Hle. vm_compute in Hle.
    destruct Hle as [Hlt|[Heq _]]; discriminate.
  - exists (report (env := Demo.env) 0.8 0.5 "Amazon SDE" Demo.resume
              (with_cap Demo.config (Some (-1))) Demo.goals_map
              Demo.suggestion_map Demo.skill_groups).
    split; [vm_compute; reflexivity|].
    split; [vm_compute; reflexivity|].
    vm_compute. intros H. now apply H.
Qed.

(** C6, as the code has it. The suggestions follow the capped list of
    missing skills in priority order: the i-th suggestion is the entry of
    the suggestion table for the i-th of these skills, or "Learn basics of"
    that skill when the table has none. The returned [missing_skills] is the
    same list in alphabetical order, so the two lists have the same length. *)
Theorem suggestions_follow_priority {env : Env}
    (student_id goal resume_text : string) (config : Config)
    (goals_map : list (string * list Requirement))
    (suggestion_map : list (string * string))
    (skill_groups : list (string * list (string * list string)))
    (r : ScoreResult) :
  (forall l, Permutation (set_iter l) l) ->
  result_of (score_resume student_id goal resume_text config goals_map
               suggestion_map skill_groups) = Some r ->
  exists priority : list (string * string),
    priority_list goals_map goal r priority /\
    let capped := slice_to (map fst priority) (configured_cap config) in
    suggested_learning_path r = map (Spec.suggestion_for suggestion_map) capped /\
    Permutation (missing_skills r) capped /\
    Spec.alphabetical (missing_skills r) /\
    List.length (suggested_learning_path r) = List.length (missing_skills r).
Proof.
  intros Hperm Hrun.
  apply score_resume_inv in Hrun as [prob [minimum ->]].
  eexists. split; [apply (report_priority Hperm)|].
  unfold report. cbn [missing_skills suggested_learning_path].
  unfold capped_of. cbv zeta.
  split; [|split; [|split]].
  - apply map_ext. intros s. unfold Spec.suggestion_for, dict_get_or.
    reflexivity.
  - apply sorted_perm.
  - apply sorted_Sorted. apply String.leb_total.
  - now rewrite length_map, sorted_length.
Qed.

Lemma suggestions_follow_priority_witness :
  exists priority : list (string * string),
    priority_list Demo.goals_map "Amazon SDE" Demo.result priority /\
    let capped := slice_to (map fst priority) 2 in
    suggested_learning_path Demo.result
    = map (Spec.suggestion_for Demo.suggestion_map) capped /\
    Permutation (missing_skills Demo.result) capped /\
    Spec.alphabetical (missing_skills Demo.result) /\
    List.length (suggested_learning_path Demo.result)
    = List.length (missing_skills Demo.result).
Proof.
  apply (suggestions_follow_priority (env := Demo.env) "123" "Amazon SDE"
           Demo.resume Demo.config Demo.goals_map Demo.suggestion_map
           Demo.skill_groups).
  - exact demo_set_iter_perm.
  - vm_compute. reflexivity.
Defined.

(** C6 as stated fails: on the same call the first suggestion is the one
    for Rust, while the first returned missing skill is Kotlin. *)
Lemma suggestions_aligned_counterexample :
  exists r : ScoreResult,
    result_of (Demo.run "Amazon SDE" Demo.resume) = Some r /\
    missing_skills r = ["Kotlin"; "Rust"] /\
    suggested_learning_path r
    = ["Work through the Rust book"; "Learn basics of Kotlin"] /\
    suggested_learning_path r
    <> map (Spec.suggestion_for Demo.suggestion_map) (missing_skills r).
Proof.
  exists Demo.result.
  split; [vm_compute; reflexivity|].
  split; [vm_compute; reflexivity|].
  split; [vm_compute; reflexivity|].
  vm_compute. discriminate.
Qed.

(* ------------------------------------------------------------------ *)
(** ** The insight builder: groups *)

Lemma sorted_nil_iff {A} (le : A -> A -> bool) (l : list A) :
  sorted le l = [] <-> l = [].
Proof.
  split; [|now intros ->].
  intros H. apply length_zero_iff_nil.
  now rewrite <- (sorted_length le), H.
Qed.

Lemma grouped_names_app (a b : list (string * list string)) (s : string) :
  In s (Spec.grouped_names (a ++ b)) <->
  In s (Spec.grouped_names a) \/ In s (Spec.grouped_names b).
Proof.
  unfold Spec.grouped_names. rewrite map_app, concat_app. apply in_app_iff.
Qed.

Section GroupFacts.
Context {env : Env}.
Hypothesis set_iter_perm : forall l, Permutation (set_iter l) l.
Variable requirements : list Requirement.
Variable matched : list string.
Variable missing : list (string * string).
Hypothesis missing_names :
  forall s, In s (map fst missing) <->
            In s (map name requirements) /\ ~ In s matched.

Lemma group_skill_names_In (skills_in_group : list string) (s : string) :
  In s (set_of (map name
                  (filter (fun item => mem (name item) skills_in_group)
                     requirements)))
  <-> In s (map name requirements) /\ In s skills_in_group.
Proof.
  rewrite set_of_In by assumption. rewrite !in_map_iff. split.
  - intros [item [Hname Hin]]. apply filter_In in Hin as [Hin Hmem].
    apply mem_In in Hmem. subst s. split; [now exists item|assumption].
  - intros [[item [Hname Hin]] Hs]. exists item. split; [assumption|].
    apply filter_In. split; [assumption|]. apply mem_In. now subst s.
Qed.

(** One turn of the loop over the groups adds the reported skills of the
    group, when there are some. *)
Lemma group_step_run missing_grouped (group : string)
    (skills_in_group : list string) :
  exists l : list string,
    (forall s, In s l <-> reported requirements matched skills_in_group s) /\
    group_step requirements matched missing missing_grouped
      (group, skills_in_group)
    = match l with
      | [] => missing_grouped
      | _ :: _ => dict_set missing_grouped group l
      end.
Proof.
  unfold group_step, reported.
  set (names := set_of _).
  assert (Hnames : forall s, In s names <->
                             In s (map name requirements) /\
                             In s skills_in_group)
    by apply group_skill_names_In.
  destruct (filter (fun s => mem s names) matched) as [|m ms].
  - exists (sorted String.leb
              (map fst (filter (fun x => mem (fst x) names) missing))).
    split.
    + intros s. rewrite sorted_In, in_map_iff. split.
      * intros [[s' imp] [Heq Hin]]. simpl in Heq. subst s'.
        apply filter_In in Hin as [Hin Hmem]. simpl in Hmem.
        apply mem_In, Hnames in Hmem.
        assert (Hs : In s (map fst missing))
          by (change s with (fst (s, imp)); now apply in_map).
        apply missing_names in Hs. tauto.
      * intros [Hreq [Hgrp Hnot]].
        assert (Hs : In s (map fst missing)) by (apply missing_names; tauto).
        apply in_map_iff in Hs as [[s' imp] [Heq Hin]]. simpl in Heq. subst s'.
        exists (s, imp). split; [reflexivity|].
        apply filter_In. split; [assumption|]. simpl.
        apply mem_In, Hnames. tauto.
    + destruct (map fst (filter _ missing)) as [|x xs] eqn:E;
        [reflexivity|].
      destruct (sorted String.leb (x :: xs)) eqn:Es; [|reflexivity].
      apply sorted_nil_iff in Es. discriminate.
  - exists (sorted String.leb
              (filter (fun s => negb (mem s matched)) names)).
    split; [|reflexivity].
    intros s. rewrite sorted_In, filter_In, Hnames, negb_true_iff, mem_false.
    tauto.
Qed.

Lemma fold_group_step (groups missing_grouped : list (string * list string)) :
  NoDup (keys groups) ->
  (forall g, In g (keys groups) -> ~ In g (keys missing_grouped)) ->
  forall s,
    In s (Spec.grouped_names
            (fold_left (group_step requirements matched missing) groups
               missing_grouped))
    <-> In s (Spec.grouped_names missing_grouped) \/
        exists g skills,
          In (g, skills) groups /\ reported requirements matched skills s.
Proof.
  revert missing_grouped.
  induction groups as [|[g skills] groups IH]; intros acc Hnd Hfresh s.
  - simpl. split; [now left|]. intros [H|[g [sk [[] _]]]]. exact H.
  - cbn [fold_left]. cbn [keys map fst] in Hnd, Hfresh.
    apply NoDup_cons_iff in Hnd as [Hg Hnd].
    destruct (group_step_run acc g skills) as [l [Hl Hstep]].
    rewrite Hstep.
    assert (Hacc' : forall acc',
               acc' = match l with [] => acc | _ :: _ => dict_set acc g l end ->
               (forall g', In g' (keys groups) -> ~ In g' (keys acc')) /\
               (forall s, In s (Spec.grouped_names acc') <->
                          In s (Spec.grouped_names acc) \/ In s l)).
    { intros acc' ->. destruct l as [|x l'].
      - split; [intros g' Hg'; apply Hfresh; now right|].
        intros s'. simpl. tauto.
      - rewrite dict_set_fresh by (apply Hfresh; now left).
        split.
        + intros g' Hg' Hin. unfold keys in Hin. rewrite map_app in Hin.
          apply in_app_or in Hin as [Hin|[Hin|[]]].
          * apply (Hfresh g'); [now right|assumption].
          * simpl in Hin. subst g'. now apply Hg.
        + intros s'. rewrite grouped_names_app.
          unfold Spec.grouped_names at 2. simpl. rewrite app_nil_r.
          reflexivity. }
    destruct (Hacc' _ eq_refl) as [Hfresh' Hnames'].
    rewrite (IH _ Hnd Hfresh' s), Hnames', Hl. split.
    + intros [[H|H]|[g' [sk [Hin Hrep]]]].
      * now left.
      * right. exists g, skills. split; [now left|assumption].
      * right. exists g', sk. split; [now right|assumption].
    + intros [H|[g' [sk [[Heq|Hin] Hrep]]]].
      * left. now left.
      * inversion Heq; subst. left. now right.
      * right. exists g', sk. now split.
Qed.
End GroupFacts.

(** The names of the grouped report of a result. *)
Lemma report_grouped_names {env : Env}
    (prob minimum : float) (goal resume_text : string) (config : Config)
    (goals_map : list (string * list Requirement))
    (suggestion_map : list (string * string))
    (skill_groups : list (string * list (string * list string))) (s : string) :
  (forall l, Permutation (set_iter l) l) ->
  NoDup (keys (dict_get_or skill_groups goal [])) ->
  In s (Spec.grouped_names
          (missing_skills_grouped
             (report prob minimum goal resume_text config goals_map
                suggestion_map skill_groups)))
  <-> exists g skills,
        In (g, skills) (dict_get_or skill_groups goal []) /\
        reported (dict_get_or goals_map goal [])
          (matched_of goals_map goal resume_text) skills s.
Proof.
  intros Hperm Hnd. unfold report. cbn [missing_skills_grouped].
  rewrite (fold_group_step Hperm); [ | |assumption|intros g _ []].
  - simpl. tauto.
  - intros s'. apply (missing_of_names Hperm).
Qed.

(** C7, as the code has it. In a successful call on a goal whose groups
    have distinct names, no skill is both in [matched_skills] and in a list
    of [missing_skills_grouped]; a skill is in such a list exactly when it is
    required, not matched, and listed in a reporting group of the goal; so
    the two together cover the required skills that some group lists. *)
Theorem matched_and_grouped_partition {env : Env}
    (student_id goal resume_text : string) (config : Config)
    (goals_map : list (string * list Requirement))
    (suggestion_map : list (string * string))
    (skill_groups : list (string * list (string * list string)))
    (r : ScoreResult) :
  (forall l, Permutation (set_iter l) l) ->
  NoDup (keys (dict_get_or skill_groups goal [])) ->
  result_of (score_resume student_id goal resume_text config goals_map
               suggestion_map skill_groups) = Some r ->
  let grouped := Spec.grouped_names (missing_skills_grouped r) in
  let in_a_group s :=
    exists g skills,
      In (g, skills) (dict_get_or skill_groups goal []) /\ In s skills in
  (forall s, ~ (In s (matched_skills r) /\ In s grouped)) /\
  (forall s, In s grouped <->
             In s (required_names goals_map goal) /\
             ~ In s (matched_skills r) /\ in_a_group s) /\
  (forall s, In s (required_names goals_map goal) -> in_a_group s ->
             In s (matched_skills r) \/ In s grouped).
Proof.
  intros Hperm Hnd Hrun grouped in_a_group.
  apply score_resume_inv in Hrun as [prob [minimum ->]].
  assert (Hgrouped :
    forall s, In s grouped <->
              In s (required_names goals_map goal) /\
              ~ In s (sorted String.leb (matched_of goals_map goal resume_text)) /\
              in_a_group s).
  { intros s. subst grouped in_a_group.
    rewrite (report_grouped_names _ _ _ _ _ _ _ _ _ Hperm Hnd), sorted_In.
    unfold reported, required_names. split.
    - intros [g [skills [Hin [Hreq [Hs Hnot]]]]]. eauto 6.
    - intros [Hreq [Hnot [g [skills [Hin Hs]]]]]. eauto 6. }
  split; [|split].
  - intros s [Hm Hg]. apply Hgrouped in Hg. cbn [report matched_skills] in Hm.
    tauto.
  - exact Hgrouped.
  - intros s Hreq Hgrp. cbn [report matched_skills].
    destruct (in_dec string_dec s
                (sorted String.leb (matched_of goals_map goal resume_text)))
      as [Hm|Hm]; [now left|].
    right. apply Hgrouped. tauto.
Qed.

Lemma matched_and_grouped_partition_witness :
  let grouped := Spec.grouped_names (missing_skills_grouped Demo.result) in
  let in_a_group s :=
    exists g skills,
      In (g, skills) (dict_get_or Demo.skill_groups "Amazon SDE" []) /\
      In s skills in
  (forall s, ~ (In s (matched_skills Demo.result) /\ In s grouped)) /\
  (forall s, In s grouped <->
             In s (required_names Demo.goals_map "Amazon SDE") /\
             ~ In s (matched_skills Demo.result) /\ in_a_group s) /\
  (forall s, In s (required_names Demo.goals_map "Amazon SDE") ->
             in_a_group s ->
             In s (matched_skills Demo.result) \/ In s grouped).
Proof.
  apply (matched_and_grouped_partition (env := Demo.env) "123" "Amazon SDE"
           Demo.resume Demo.config Demo.goals_map Demo.suggestion_map
           Demo.skill_groups).
  - exact demo_set_iter_perm.
  - apply nodup_check. reflexivity.
  - vm_compute. reflexivity.
Defined.

(** C7 as stated fails: Kotlin is required by the goal Amazon SDE, is not
    matched by the resume and is listed in no reporting group, so it is
    neither in [matched_skills] nor in [missing_skills_grouped]. *)
Lemma matched_and_grouped_cover_counterexample :
  exists r : ScoreResult,
    result_of (Demo.run "Amazon SDE" Demo.resume) = Some r /\
    In "Kotlin" (required_names Demo.goals_map "Amazon SDE") /\
    ~ In "Kotlin" (matched_skills r) /\
    ~ In "Kotlin" (Spec.grouped_names (missing_skills_grouped r)).
Proof.
  exists Demo.result.
  split; [vm_compute; reflexivity|].
  split; [apply mem_In; reflexivity|].
  split; apply mem_false; vm_compute; reflexivity.
Qed.

(** C10. The grouped report does not depend on [max_missing_skills]: it is
    built from all the missing skills, not from the capped list. On the
    deployment above, with three skills missing and a cap of 2, AWS is
    missing, is beyond the cap, is listed under its group in
    [missing_skills_grouped] and is absent from [missing_skills]. *)
Theorem grouped_report_ignores_cap :
  (forall (env : Env) (student_id goal resume_text : string) (config : Config)
          (goals_map : list (string * list Requirement))
          (suggestion_map : list (string * string))
          (skill_groups : list (string * list (string * list string)))
          (k : option Z),
      option_map missing_skills_grouped
        (result_of (score_resume student_id goal resume_text
                      (with_cap config k) goals_map suggestion_map skill_groups))
      = option_map missing_skills_grouped
          (result_of (score_resume student_id goal resume_text config
                        goals_map suggestion_map skill_groups))) /\
  exists r : ScoreResult,
    result_of (Demo.run "Amazon SDE" Demo.resume) = Some r /\
    In "AWS" (required_names Demo.goals_map "Amazon SDE") /\
    ~ In "AWS" (matched_skills r) /\
    In ("Cloud", ["AWS"]) (missing_skills_grouped r) /\
    ~ In "AWS" (missing_skills r) /\
    Z.of_nat (List.length (missing_skills r)) = configured_cap Demo.config.
Proof.
  split.
  - intros env student_id goal resume_text config goals_map suggestion_map
      skill_groups k.
    unfold result_of. rewrite !score_resume_outcome.
    destruct (is_empty (strip resume_text)); [reflexivity|].
    destruct (joblib_load _) as [e0|model]; [reflexivity|].
    destruct (joblib_load _) as [e0|vectorizer]; [reflexivity|].
    destruct (predict_proba _ _ _) as [e|prob]; [reflexivity|].
    cbn [with_cap minimum_score_to_pass].
    destruct alternate_skills_file as [d| | |e]; [| | |reflexivity];
      (destruct (minimum_score_to_pass config) as [minimum|]; reflexivity).
  - exists Demo.result.
    split; [vm_compute; reflexivity|].
    split; [apply mem_In; reflexivity|].
    split; [apply mem_false; vm_compute; reflexivity|].
    split; [vm_compute; right; left; reflexivity|].
    split; [apply mem_false; vm_compute; reflexivity|].
    vm_compute. reflexivity.
Qed.

(* ------------------------------------------------------------------ *)
(** ** More on the matcher *)

Lemma phrase_word_loop_nil {env : Env} (phrase_words : list string) :
  phrase_word_loop phrase_words [] = false.
Proof. induction phrase_words as [|w rest IH]; simpl; auto. Qed.

Lemma window_loop_weaken {env : Env} text_words n phrase_lemmatized
    (threshold threshold' : Z) indices :
  threshold' <= threshold ->
  window_loop text_words n phrase_lemmatized threshold indices = true ->
  window_loop text_words n phrase_lemmatized threshold' indices = true.
Proof.
  intros Hle H. apply window_loop_true in H as [i [Hin Hr]].
  apply window_loop_true. exists i. split; [assumption|lia].
Qed.

(** The matcher is monotone in its threshold: a phrase accepted at some
    threshold is accepted at every lower one. *)
Theorem matcher_threshold_monotone {env : Env}
    (phrase lemmatized_text : string) (threshold threshold' : Z) :
  threshold' <= threshold ->
  phrase_in_lemmatized_text phrase lemmatized_text threshold = true ->
  phrase_in_lemmatized_text phrase lemmatized_text threshold' = true.
Proof.
  intros Hle. unfold phrase_in_lemmatized_text.
  destruct (window_loop _ _ _ threshold _) eqn:Ew.
  - intros _. now rewrite (window_loop_weaken _ _ _ _ _ _ Hle Ew).
  - intros H. destruct (window_loop _ _ _ threshold' _); [reflexivity|].
    exact H.
Qed.

Lemma matcher_threshold_monotone_witness :
  phrase_in_lemmatized_text (env := Demo.env) "Java" "java developer" 55 = true.
Proof.
  apply (matcher_threshold_monotone (env := Demo.env) "Java" "java developer"
           70 55).
  - lia.
  - reflexivity.
Defined.

(** When the text has fewer words than the phrase there is no window, and
    the matcher answers by the word-level fallback alone, whatever the
    threshold; on a text without any word it rejects every phrase that has
    a word. *)
Theorem matcher_short_text {env : Env}
    (phrase lemmatized_text : string) (threshold : Z) :
  let phrase_words := split (lemmatize_text_for_matching phrase) in
  let text_words := split lemmatized_text in
  (List.length text_words < List.length phrase_words)%nat ->
  (phrase_in_lemmatized_text phrase lemmatized_text threshold = true <->
   (1 < List.length phrase_words)%nat /\
   Spec.word_match phrase_words text_words) /\
  (text_words = [] ->
   phrase_in_lemmatized_text phrase lemmatized_text threshold = false).
Proof.
  intros phrase_words text_words Hshort.
  unfold phrase_in_lemmatized_text.
  fold phrase_words text_words.
  replace (range _) with (@nil nat)
    by (unfold range;
        replace (Z.to_nat _) with 0%nat by lia; reflexivity).
  cbn [window_loop]. split.
  - rewrite <- phrase_word_loop_true.
    destruct (1 <? Z.of_nat (List.length phrase_words)) eqn:E; cbn [andb].
    + apply Z.ltb_lt in E.
      destruct (phrase_word_loop phrase_words text_words).
      * split; [intros _; split; [lia|reflexivity]|reflexivity].
      * split; [discriminate|]. intros [_ H]. discriminate.
    + apply Z.ltb_ge in E. split; [discriminate|]. intros [H _]. lia.
  - intros Hnil. rewrite Hnil, phrase_word_loop_nil, andb_false_r.
    reflexivity.
Qed.

Lemma matcher_short_text_witness :
  (phrase_in_lemmatized_text (env := Demo.env) "Data Structures" "structures" 70
   = true <->
   (1 < List.length (split (lemmatize_text_for_matching (env := Demo.env)
                              "Data Structures")))%nat /\
   Spec.word_match (env := Demo.env)
     (split (lemmatize_text_for_matching (env := Demo.env) "Data Structures"))
     (split "structures")) /\
  (split "structures" = [] ->
   phrase_in_lemmatized_text (env := Demo.env) "Data Structures" "structures" 70
   = false).
Proof.
  apply (matcher_short_text (env := Demo.env) "Data Structures" "structures" 70).
  vm_compute. lia.
Defined.

(* ------------------------------------------------------------------ *)
(** ** Joined lemmas and their words *)

Lemma blank2_space (c : ascii) : blank2 c " " = false.
Proof. unfold blank2. cbv zeta. apply andb_false_r. Qed.

Lemma blank3_space_2 (c1 c3 : ascii) : blank3 c1 " " c3 = false.
Proof.
  unfold blank3. cbv zeta.
  destruct (N_of_ascii c1 =? 225)%N, (N_of_ascii c1 =? 226)%N,
    (N_of_ascii c1 =? 227)%N; reflexivity.
Qed.

Lemma blank3_space_3 (c1 c2 : ascii) : blank3 c1 c2 " " = false.
Proof.
  unfold blank3. cbv zeta.
  destruct (N_of_ascii c1 =? 225)%N, (N_of_ascii c1 =? 226)%N,
    (N_of_ascii c1 =? 227)%N, (N_of_ascii c2 =? 154)%N,
    (N_of_ascii c2 =? 128)%N, (N_of_ascii c2 =? 129)%N; reflexivity.
Qed.

(** A character that starts no blank is read into the current word. *)
Lemma split_from_step (c : ascii) (t : string) (cur : list ascii) :
  blank_len (String c t) = 0%nat ->
  split_from cur (String c t) = split_from (c :: cur) t.
Proof.
  unfold blank_len. cbn [split_from].
  destruct (is_space c); [discriminate|].
  destruct t as [|c2 t2]; [reflexivity|].
  destruct (blank2 c c2); [discriminate|].
  destruct t2 as [|c3 t3]; [reflexivity|].
  destruct (blank3 c c2 c3); [discriminate|reflexivity].
Qed.

(** No blank starts in a word because of the space that follows it. *)
Lemma blank_len_append (c : ascii) (w rest : string) :
  rest = "" \/ (exists r, rest = String " " r) ->
  blank_len (String c w) = 0%nat ->
  blank_len (String c (w ++ rest)) = 0%nat.
Proof.
  intros Hrest. unfold blank_len.
  destruct (is_space c); [discriminate|].
  destruct w as [|c2 w2]; cbn [String.append].
  - intros _. destruct Hrest as [->|[r ->]]; [reflexivity|].
    rewrite blank2_space. destruct r as [|c3 r]; [reflexivity|].
    now rewrite blank3_space_2.
  - destruct (blank2 c c2); [discriminate|].
    destruct w2 as [|c3 w3]; cbn [String.append]; [|exact (fun H => H)].
    intros _. destruct Hrest as [->|[r ->]]; [reflexivity|].
    now rewrite blank3_space_3.
Qed.

Lemma split_from_word (w : string) (cur : list ascii) (rest : string) :
  rest = "" \/ (exists r, rest = String " " r) ->
  blank_free w = true ->
  split_from cur (w ++ rest)
  = split_from (rev (list_ascii_of_string w) ++ cur) rest.
Proof.
  intros Hrest. revert cur.
  induction w as [|c w IH]; intros cur H; [reflexivity|].
  cbn [blank_free] in H. apply andb_prop in H as [Hc Hw].
  apply Nat.eqb_eq in Hc.
  cbn [String.append].
  rewrite (split_from_step _ _ _ (blank_len_append c w rest Hrest Hc)).
  rewrite (IH _ Hw).
  cbn [list_ascii_of_string rev]. now rewrite <- app_assoc.
Qed.

Lemma rev_chars_word (w : string) :
  w <> "" ->
  exists c l, rev (list_ascii_of_string w) = c :: l.
Proof.
  intros Hw. destruct (rev (list_ascii_of_string w)) as [|c l] eqn:E; [|eauto].
  exfalso. apply Hw.
  apply (f_equal (@rev ascii)) in E. rewrite rev_involutive in E. simpl in E.
  rewrite <- (string_of_list_ascii_of_string w), E. reflexivity.
Qed.

Lemma string_of_rev_rev (w : string) :
  string_of_list_ascii (rev (rev (list_ascii_of_string w))) = w.
Proof. now rewrite rev_involutive, string_of_list_ascii_of_string. Qed.

Lemma append_empty_r (s : string) : (s ++ "")%string = s.
Proof. induction s as [|c s IH]; simpl; [reflexivity|now rewrite IH]. Qed.

(** Splitting what was joined with single spaces gives the words back. *)
Lemma split_join (ws : list string) :
  Forall is_word ws -> split (join " " ws) = ws.
Proof.
  unfold split, join.
  induction 1 as [|w ws [Hne Hw] Hws IH]; [reflexivity|].
  destruct (rev_chars_word w Hne) as [c [l Hrev]].
  destruct ws as [|w2 ws'].
  - cbn [String.concat]. rewrite <- (append_empty_r w) at 1.
    rewrite (split_from_word _ _ _ (or_introl eq_refl) Hw), app_nil_r.
    rewrite <- (string_of_rev_rev w) at 2.
    rewrite Hrev. reflexivity.
  - assert (Hc : String.concat " " (w :: w2 :: ws')
                 = (w ++ String " " (String.concat " " (w2 :: ws')))%string)
      by reflexivity.
    rewrite Hc. set (rest := String.concat " " (w2 :: ws')) in *.
    rewrite (split_from_word _ _ _ (or_intror (ex_intro _ rest eq_refl)) Hw),
      app_nil_r.
    rewrite <- (string_of_rev_rev w) at 2.
    rewrite Hrev. cbn [split_from].
    change (is_space " ") with true. cbv iota.
    now rewrite IH.
Qed.

(** The words that the matcher counts in a normalized phrase or resume are
    its lemmas, one per token, as long as every lemma is a word (not empty,
    without blank): the window length [n] is the number of tokens. *)
Theorem lemmatized_words_are_lemmas {env : Env} (text : string) :
  Forall is_word (lemmas_of text) ->
  split (lemmatize_text_for_matching text) = lemmas_of text /\
  List.length (split (lemmatize_text_for_matching text))
  = List.length (word_tokenize (lower text)).
Proof.
  intros H. unfold lemmatize_text_for_matching.
  change (map _ (word_tokenize (lower text))) with (lemmas_of text).
  rewrite (split_join _ H). split; [reflexivity|].
  unfold lemmas_of. apply length_map.
Qed.

Lemma lemmatized_words_are_lemmas_witness :
  split (lemmatize_text_for_matching (env := Demo.env) "Data  Structures")
  = lemmas_of (env := Demo.env) "Data  Structures" /\
  List.length
    (split (lemmatize_text_for_matching (env := Demo.env) "Data  Structures"))
  = List.length
      (word_tokenize (Env := Demo.env)
         (lower (env := Demo.env) "Data  Structures")).
Proof.
  apply (lemmatized_words_are_lemmas (env := Demo.env) "Data  Structures").
  repeat constructor; discriminate.
Defined.

(* ------------------------------------------------------------------ *)
(** ** The work of a call and its failures *)

Lemma for_each_resolve_trace {env : Env}
    (goal_skills_with_importance : list (string * string))
    (alternate_skills_map : list (string * list string))
    (text : string) (names : list string)
    (st : list string * list (string * string)) :
  trace (for_each names
           (resolve_skill goal_skills_with_importance alternate_skills_map text)
           st)
  = matcher_events alternate_skills_map text names.
Proof.
  revert st. induction names as [|s names IH]; intros st; [reflexivity|].
  cbn [for_each]. rewrite trace_bind, resolve_skill_run.
  cbn [trace outcome fst snd]. rewrite IH. reflexivity.
Qed.

(** What the endpoint does once the text is not blank and the goal is
    supported: the work of the scorer, and its exceptions as HTTP errors. *)
Lemma post_score_run {env : Env} (config : Config)
    (goals_map : list (string * list Requirement))
    (suggestion_map : list (string * string))
    (skill_groups : list (string * list (string * list string)))
    (request : ScoreRequest) :
  whitespace_only (req_resume_text request) = false ->
  mem (req_goal request) (model_goals_supported config) = true ->
  let call :=
    score_resume (req_student_id request) (req_goal request)
      (req_resume_text request) config goals_map suggestion_map skill_groups in
  post_score config goals_map suggestion_map skill_groups request
  = (trace call,
     match outcome call with
     | inr r => inr r
     | inl (ValueError msg) => inl (HTTPException 400 (Detail msg))
     | inl e => inl (HTTPException 500 (DetailProcessing e))
     end).
Proof.
  intros Hne Hgoal call. unfold post_score.
  rewrite (strip_nonempty _ Hne), Hgoal. cbn [negb]. fold call.
  destruct call as [t [e|r]]; [|reflexivity].
  destruct e; cbn; now rewrite app_nil_r.
Qed.

Lemma score_resume_unread {env : Env}
    (student_id goal resume_text : string) (config : Config)
    (goals_map : list (string * list Requirement))
    (suggestion_map : list (string * string))
    (skill_groups : list (string * list (string * list string)))
    (model vectorizer : artifact) (prob : float) (e : exn) :
  whitespace_only resume_text = false ->
  joblib_load (replace_blank goal ++ "_model.pkl")%string = inr model ->
  joblib_load (replace_blank goal ++ "_vectorizer.pkl")%string
    = inr vectorizer ->
  predict_proba model vectorizer resume_text = inr prob ->
  alternate_skills_file = Failed e ->
  score_resume student_id goal resume_text config goals_map suggestion_map
    skill_groups
  = ([EvJoblibLoad (replace_blank goal ++ "_model.pkl")%string;
      EvJoblibLoad (replace_blank goal ++ "_vectorizer.pkl")%string;
      EvPredict resume_text; EvLoadAlternates],
     inl e).
Proof.
  intros Hne Hm Hv Hp He. unfold score_resume.
  rewrite (strip_nonempty _ Hne). unfold load_model, load_vectorizer.
  rewrite (load_artifact_present _ _ Hm), (load_artifact_present _ _ Hv).
  unfold load_alternate_skills.
  cbn [bind emit]. rewrite Hp, He. reflexivity.
Qed.

Lemma score_resume_trace {env : Env}
    (student_id goal resume_text : string) (config : Config)
    (goals_map : list (string * list Requirement))
    (suggestion_map : list (string * string))
    (skill_groups : list (string * list (string * list string)))
    (model vectorizer : artifact) (prob : float) :
  whitespace_only resume_text = false ->
  joblib_load (replace_blank goal ++ "_model.pkl")%string = inr model ->
  joblib_load (replace_blank goal ++ "_vectorizer.pkl")%string
    = inr vectorizer ->
  predict_proba model vectorizer resume_text = inr prob ->
  (forall e, alternate_skills_file <> Failed e) ->
  trace (score_resume student_id goal resume_text config goals_map
           suggestion_map skill_groups)
  = [EvJoblibLoad (replace_blank goal ++ "_model.pkl")%string;
     EvJoblibLoad (replace_blank goal ++ "_vectorizer.pkl")%string;
     EvPredict resume_text; EvLoadAlternates; EvLemmatize resume_text]
    ++ matcher_events alternates_table
         (lemmatize_text_for_matching resume_text)
         (goal_names goals_map goal).
Proof.
  intros Hne Hm Hv Hp Halt. unfold score_resume.
  rewrite (strip_nonempty _ Hne). unfold load_model, load_vectorizer.
  rewrite (load_artifact_present _ _ Hm), (load_artifact_present _ _ Hv).
  unfold load_alternate_skills, alternates_table.
  rewrite trace_bind. cbn [trace outcome fst snd].
  rewrite trace_bind. cbn [trace outcome fst snd].
  rewrite trace_bind, trace_bind, outcome_bind, Hp.
  cbn [trace outcome fst snd emit ret].
  destruct alternate_skills_file as [d| | |e]; [| | |now destruct (Halt e)];
    (rewrite trace_bind, trace_bind, outcome_bind;
     cbn [trace outcome fst snd emit ret];
     rewrite trace_bind, trace_bind, outcome_bind;
     cbn [trace outcome fst snd emit ret];
     rewrite trace_bind, for_each_resolve_trace, for_each_resolve_outcome;
     cbn [fst snd app];
     destruct (minimum_score_to_pass config);
     cbn [trace fst ret raise]; rewrite !app_nil_r; reflexivity).
Qed.

(** A call on a text that is not blank, that passes the loads and the
    classifier, does in this order: the load of the model, the load of the
    vectorizer, one prediction and the read of the alternates. When that
    read fails with an exception that the loader does not catch, the call
    ends there with this exception. Otherwise come one lemmatization of the
    resume and then, for each skill in iteration order, the attempts of the
    resolver, whether or not the call then returns. *)
Theorem score_resume_work {env : Env}
    (student_id goal resume_text : string) (config : Config)
    (goals_map : list (string * list Requirement))
    (suggestion_map : list (string * string))
    (skill_groups : list (string * list (string * list string)))
    (model vectorizer : artifact) (prob : float) :
  whitespace_only resume_text = false ->
  joblib_load (replace_blank goal ++ "_model.pkl")%string = inr model ->
  joblib_load (replace_blank goal ++ "_vectorizer.pkl")%string
    = inr vectorizer ->
  predict_proba model vectorizer resume_text = inr prob ->
  let call :=
    score_resume student_id goal resume_text config goals_map suggestion_map
      skill_groups in
  let loads :=
    [EvJoblibLoad (replace_blank goal ++ "_model.pkl")%string;
     EvJoblibLoad (replace_blank goal ++ "_vectorizer.pkl")%string;
     EvPredict resume_text; EvLoadAlternates] in
  (forall e, alternate_skills_file = Failed e -> call = (loads, inl e)) /\
  ((forall e, alternate_skills_file <> Failed e) ->
   trace call
   = loads ++ [EvLemmatize resume_text]
     ++ matcher_events alternates_table
          (lemmatize_text_for_matching resume_text)
          (goal_names goals_map goal)).
Proof.
  intros Hne Hm Hv Hp call loads. subst call loads. split.
  - intros e He. now apply (score_resume_unread _ _ _ _ _ _ _ model vectorizer prob).
  - intros Halt.
    now rewrite (score_resume_trace _ _ _ _ _ _ _ _ _ _ Hne Hm Hv Hp Halt).
Qed.

Lemma score_resume_work_witness :
  (Cases.run_unreadable
   = ([EvJoblibLoad ("Amazon_SDE" ++ "_model.pkl")%string;
       EvJoblibLoad ("Amazon_SDE" ++ "_vectorizer.pkl")%string;
       EvPredict Demo.resume; EvLoadAlternates],
      inl (OtherException "PermissionError"))) /\
  trace (Demo.run "Amazon SDE" Demo.resume)
  = [EvJoblibLoad ("Amazon_SDE" ++ "_model.pkl")%string;
     EvJoblibLoad ("Amazon_SDE" ++ "_vectorizer.pkl")%string;
     EvPredict Demo.resume; EvLoadAlternates]
    ++ [EvLemmatize Demo.resume]
    ++ matcher_events (env := Demo.env) (alternates_table (env := Demo.env))
         (lemmatize_text_for_matching (env := Demo.env) Demo.resume)
         (goal_names (env := Demo.env) Demo.goals_map "Amazon SDE").
Proof.
  split.
  - apply (proj1 (score_resume_work (env := Cases.env_unreadable) "123"
                    "Amazon SDE" Demo.resume Demo.config Demo.goals_map
                    Demo.suggestion_map Demo.skill_groups
                    0.8%float 0%float 0.8%float
                    eq_refl eq_refl eq_refl eq_refl)).
    reflexivity.
  - apply (proj2 (score_resume_work (env := Demo.env) "123" "Amazon SDE"
                    Demo.resume Demo.config Demo.goals_map
                    Demo.suggestion_map Demo.skill_groups
                    0.8%float 0%float 0.8%float
                    eq_refl eq_refl eq_refl eq_refl)).
    intros e. discriminate.
Defined.

(** A direct call of the scorer, on a resume that is not blank, for a goal
    whose model does not load raises the exception of that load, which is
    [FileNotFoundError] for an absent file, after this single load: the
    vectorizer is not loaded. With the model loaded and a vectorizer that
    does not load, it raises the exception of the second load after the two
    loads. In both cases nothing is predicted, lemmatized or matched. *)
Theorem score_resume_missing_file {env : Env}
    (student_id goal resume_text : string) (config : Config)
    (goals_map : list (string * list Requirement))
    (suggestion_map : list (string * string))
    (skill_groups : list (string * list (string * list string))) :
  whitespace_only resume_text = false ->
  let model_file := (replace_blank goal ++ "_model.pkl")%string in
  let vectorizer_file := (replace_blank goal ++ "_vectorizer.pkl")%string in
  let call :=
    score_resume student_id goal resume_text config goals_map suggestion_map
      skill_groups in
  (forall e : exn,
      joblib_load model_file = inl e ->
      call = ([EvJoblibLoad model_file], inl e)) /\
  (forall (model : artifact) (e : exn),
      joblib_load model_file = inr model ->
      joblib_load vectorizer_file = inl e ->
      call = ([EvJoblibLoad model_file; EvJoblibLoad vectorizer_file],
              inl e)).
Proof.
  intros Hne model_file vectorizer_file call. subst call.
  unfold score_resume. rewrite (strip_nonempty _ Hne).
  unfold load_model, load_vectorizer. fold model_file vectorizer_file.
  split.
  - intros e Hm. now rewrite (load_artifact_missing _ _ Hm).
  - intros model e Hm Hv.
    now rewrite (load_artifact_present _ _ Hm), (load_artifact_missing _ _ Hv).
Qed.

Lemma score_resume_missing_file_witness :
  Demo.run "Invalid Goal" Demo.resume
  = ([EvJoblibLoad "Invalid_Goal_model.pkl"],
     inl (FileNotFoundError "Invalid_Goal_model.pkl")) /\
  Demo.run "GATE ECE" Demo.resume
  = ([EvJoblibLoad "GATE_ECE_model.pkl";
      EvJoblibLoad "GATE_ECE_vectorizer.pkl"],
     inl (FileNotFoundError "GATE_ECE_vectorizer.pkl")).
Proof.
  split.
  - apply (proj1 (score_resume_missing_file (env := Demo.env) "123"
                    "Invalid Goal" Demo.resume Demo.config Demo.goals_map
                    Demo.suggestion_map Demo.skill_groups eq_refl)).
    reflexivity.
  - apply (proj2 (score_resume_missing_file (env := Demo.env) "123"
                    "GATE ECE" Demo.resume Demo.config Demo.goals_map
                    Demo.suggestion_map Demo.skill_groups eq_refl)
             0.3%float);
      reflexivity.
Defined.

(** An exception of the vectorizer or the classifier leaves the scorer
    unchanged, after the two loads and the prediction and before any
    matching. At the endpoint a [ValueError] among them is answered with
    status 400 and its own message, like a blank resume; any other exception
    with status 500. *)
Theorem classifier_exception {env : Env} (config : Config)
    (goals_map : list (string * list Requirement))
    (suggestion_map : list (string * string))
    (skill_groups : list (string * list (string * list string)))
    (request : ScoreRequest) (model vectorizer : artifact) (e : exn) :
  let goal := req_goal request in
  let text := req_resume_text request in
  let work :=
    [EvJoblibLoad (replace_blank goal ++ "_model.pkl")%string;
     EvJoblibLoad (replace_blank goal ++ "_vectorizer.pkl")%string;
     EvPredict text] in
  whitespace_only text = false ->
  mem goal (model_goals_supported config) = true ->
  joblib_load (replace_blank goal ++ "_model.pkl")%string = inr model ->
  joblib_load (replace_blank goal ++ "_vectorizer.pkl")%string
    = inr vectorizer ->
  predict_proba model vectorizer text = inl e ->
  score_resume (req_student_id request) goal text config goals_map
    suggestion_map skill_groups
  = (work, inl e) /\
  post_score config goals_map suggestion_map skill_groups request
  = (work,
     inl match e with
         | ValueError msg => HTTPException 400 (Detail msg)
         | _ => HTTPException 500 (DetailProcessing e)
         end).
Proof.
  intros goal text work Hne Hgoal Hm Hv Hp.
  assert (Hrun :
    score_resume (req_student_id request) goal text config goals_map
      suggestion_map skill_groups = (work, inl e)).
  { unfold score_resume. rewrite (strip_nonempty _ Hne).
    unfold load_model, load_vectorizer.
    rewrite (load_artifact_present _ _ Hm), (load_artifact_present _ _ Hv).
    cbn [bind app emit]. rewrite Hp. reflexivity. }
  split; [exact Hrun|].
  rewrite (post_score_run _ _ _ _ _ Hne Hgoal). cbv zeta.
  fold goal text. rewrite Hrun. cbn [trace outcome fst snd].
  destruct e; reflexivity.
Qed.

Lemma classifier_exception_witness :
  let work :=
    [EvJoblibLoad ("Broken" ++ "_model.pkl")%string;
     EvJoblibLoad ("Broken" ++ "_vectorizer.pkl")%string;
     EvPredict Cases.resume] in
  score_resume (env := Cases.env) "7" "Broken" Cases.resume Cases.config
    Cases.goals_map [] Cases.skill_groups
  = (work, inl (ValueError "X has 3 features, but expected 5")) /\
  post_score (env := Cases.env) Cases.config Cases.goals_map []
    Cases.skill_groups
    {| req_student_id := "7"; req_goal := "Broken";
       req_resume_text := Cases.resume |}
  = (work,
     inl (HTTPException 400 (Detail "X has 3 features, but expected 5"))).
Proof.
  apply (classifier_exception (env := Cases.env) Cases.config Cases.goals_map
           [] Cases.skill_groups
           {| req_student_id := "7"; req_goal := "Broken";
              req_resume_text := Cases.resume |}
           0.1%float 0%float (ValueError "X has 3 features, but expected 5"));
    reflexivity.
Defined.

(** A configuration without [minimum_score_to_pass] is not noticed at the
    start of a call: the loads, the prediction and the whole matching are
    done first (the file of alternates being read), then [KeyError] is
    raised, which the endpoint answers with status 500. *)
Theorem missing_pass_mark {env : Env} (config : Config)
    (goals_map : list (string * list Requirement))
    (suggestion_map : list (string * string))
    (skill_groups : list (string * list (string * list string)))
    (request : ScoreRequest) (model vectorizer : artifact) (prob : float) :
  let goal := req_goal request in
  let text := req_resume_text request in
  let work :=
    [EvJoblibLoad (replace_blank goal ++ "_model.pkl")%string;
     EvJoblibLoad (replace_blank goal ++ "_vectorizer.pkl")%string;
     EvPredict text; EvLoadAlternates; EvLemmatize text]
    ++ matcher_events alternates_table (lemmatize_text_for_matching text)
         (goal_names goals_map goal) in
  minimum_score_to_pass config = None ->
  whitespace_only text = false ->
  mem goal (model_goals_supported config) = true ->
  joblib_load (replace_blank goal ++ "_model.pkl")%string = inr model ->
  joblib_load (replace_blank goal ++ "_vectorizer.pkl")%string
    = inr vectorizer ->
  predict_proba model vectorizer text = inr prob ->
  (forall e, alternate_skills_file <> Failed e) ->
  score_resume (req_student_id request) goal text config goals_map
    suggestion_map skill_groups
  = (work, inl (KeyError "minimum_score_to_pass")) /\
  post_score config goals_map suggestion_map skill_groups request
  = (work,
     inl (HTTPException 500
            (DetailProcessing (KeyError "minimum_score_to_pass")))).
Proof.
  intros goal text work Hmin Hne Hgoal Hm Hv Hp Halt.
  assert (Hrun :
    score_resume (req_student_id request) goal text config goals_map
      suggestion_map skill_groups
    = (work, inl (KeyError "minimum_score_to_pass"))).
  { rewrite (surjective_pairing (score_resume _ _ _ _ _ _ _)).
    change (fst ?m) with (trace m). change (snd ?m) with (outcome m).
    rewrite (score_resume_trace _ _ _ _ _ _ _ _ _ _ Hne Hm Hv Hp Halt).
    rewrite score_resume_outcome, (strip_nonempty _ Hne), Hm, Hv, Hp, Hmin.
    destruct alternate_skills_file as [d| | |e]; try reflexivity.
    now destruct (Halt e). }
  split; [exact Hrun|].
  rewrite (post_score_run _ _ _ _ _ Hne Hgoal). cbv zeta.
  fold goal text. rewrite Hrun. reflexivity.
Qed.

Lemma missing_pass_mark_witness :
  let work :=
    [EvJoblibLoad ("Amazon_SDE" ++ "_model.pkl")%string;
     EvJoblibLoad ("Amazon_SDE" ++ "_vectorizer.pkl")%string;
     EvPredict Cases.resume; EvLoadAlternates; EvLemmatize Cases.resume]
    ++ matcher_events (env := Cases.env) (alternates_table (env := Cases.env))
         (lemmatize_text_for_matching (env := Cases.env) Cases.resume)
         (goal_names (env := Cases.env) Cases.goals_map "Amazon SDE") in
  score_resume (env := Cases.env) "7" "Amazon SDE" Cases.resume
    Cases.config_without_minimum Cases.goals_map [] Cases.skill_groups
  = (work, inl (KeyError "minimum_score_to_pass")) /\
  post_score (env := Cases.env) Cases.config_without_minimum Cases.goals_map []
    Cases.skill_groups
    {| req_student_id := "7"; req_goal := "Amazon SDE";
       req_resume_text := Cases.resume |}
  = (work,
     inl (HTTPException 500
            (DetailProcessing (KeyError "minimum_score_to_pass")))).
Proof.
  apply (missing_pass_mark (env := Cases.env) Cases.config_without_minimum
           Cases.goals_map [] Cases.skill_groups
           {| req_student_id := "7"; req_goal := "Amazon SDE";
              req_resume_text := Cases.resume |}
           0.8%float 0%float 0.8%float);
    try reflexivity.
  intros e. discriminate.
Defined.

(** The answers of the endpoint. It returns a result only for a non-blank
    resume and a supported goal, and then the result of the scorer. Its
    errors carry status 400 or 500 and no other: 400 for a blank resume, an
    unsupported goal or a [ValueError] of the scorer, 500 for any other
    exception of the scorer, wrapped in the detail. *)
Theorem post_score_answers {env : Env} (config : Config)
    (goals_map : list (string * list Requirement))
    (suggestion_map : list (string * string))
    (skill_groups : list (string * list (string * list string)))
    (request : ScoreRequest) :
  let text := req_resume_text request in
  let goal := req_goal request in
  let scored :=
    outcome (score_resume (req_student_id request) goal text config goals_map
               suggestion_map skill_groups) in
  match outcome (post_score config goals_map suggestion_map skill_groups
                   request) with
  | inr r =>
      whitespace_only text = false /\
      mem goal (model_goals_supported config) = true /\
      scored = inr r
  | inl (HTTPException code d) =>
      (code = 400 /\
       (whitespace_only text = true \/
        mem goal (model_goals_supported config) = false \/
        exists msg, scored = inl (ValueError msg) /\ d = Detail msg)) \/
      (code = 500 /\
       whitespace_only text = false /\
       mem goal (model_goals_supported config) = true /\
       exists e, scored = inl e /\ d = DetailProcessing e /\
                 forall msg, e <> ValueError msg)
  end.
Proof.
  intros text goal scored. subst text goal.
  destruct (whitespace_only (req_resume_text request)) eqn:Hblank.
  { unfold post_score. rewrite (strip_whitespace _ Hblank).
    cbn. left. auto. }
  destruct (mem (req_goal request) (model_goals_supported config)) eqn:Hgoal.
  2:{ unfold post_score. rewrite (strip_nonempty _ Hblank), Hgoal.
      cbn. left. auto. }
  rewrite (post_score_run _ _ _ _ _ Hblank Hgoal). cbv zeta.
  cbn [outcome snd]. fold (outcome (score_resume (req_student_id request)
    (req_goal request) (req_resume_text request) config goals_map
    suggestion_map skill_groups)). fold scored.
  destruct scored as [e|r]; [|auto].
  destruct e as [msg|path|key|msg].
  - left. split; [reflexivity|]. right. right. eauto.
  - right. repeat split; auto. eexists. repeat split; discriminate.
  - right. repeat split; auto. eexists. repeat split; discriminate.
  - right. repeat split; auto. eexists. repeat split; discriminate.
Qed.

(* ------------------------------------------------------------------ *)
(** ** What a result contains *)

Lemma hit_partial {env : Env} (text s : string) :
  hit text s 70 = true -> hit text s 55 = true.
Proof.
  unfold hit, phrase_in_lemmatized_text.
  destruct (window_loop _ _ _ 70 _) eqn:Ew.
  - intros _.
    assert (Hle : 55 <= 70) by lia.
    now rewrite (window_loop_weaken _ _ _ _ _ _ Hle Ew).
  - intros H. destruct (window_loop _ _ _ 55 _); [reflexivity|exact H].
Qed.

(** A skill is resolved as matched when the matcher accepts it at 55 or
    accepts one of its alternates at 70: the direct attempt at 70 adds
    nothing to the partial one. *)
Lemma resolved_iff {env : Env}
    (alternate_skills_map : list (string * list string)) (text s : string) :
  resolved alternate_skills_map text s = true <->
  hit text s 55 = true \/
  exists alt, In alt (dict_get_or alternate_skills_map s []) /\
              hit text alt 70 = true.
Proof.
  unfold resolved, Spec.classify, dict_get_or.
  destruct (hit text s 70) eqn:E70.
  { split; [|reflexivity]. intros _. left. now apply hit_partial. }
  destruct (dict_get alternate_skills_map s) as [alts|].
  - destruct (find (fun alt => hit text alt 70) alts) as [alt|] eqn:Ef.
    + split; [|reflexivity]. intros _. right.
      apply find_some in Ef. exists alt. exact Ef.
    + pose proof (find_none _ _ Ef) as Hall. cbv beta in Hall.
      destruct (hit text s 55); [split; auto|].
      split; [discriminate|]. intros [H|[alt [Hin Hhit]]]; [discriminate|].
      rewrite (Hall alt Hin) in Hhit. discriminate.
  - destruct (hit text s 55); [split; auto|].
    split; [discriminate|]. intros [H|[alt [[] _]]]. discriminate.
Qed.

(** The matched skills of a result are the required skills that the matcher
    accepts at threshold 55, or one of whose declared alternates it accepts
    at threshold 70. *)
Theorem matched_skills_iff {env : Env}
    (student_id goal resume_text : string) (config : Config)
    (goals_map : list (string * list Requirement))
    (suggestion_map : list (string * string))
    (skill_groups : list (string * list (string * list string)))
    (r : ScoreResult) :
  (forall l, Permutation (set_iter l) l) ->
  result_of (score_resume student_id goal resume_text config goals_map
               suggestion_map skill_groups) = Some r ->
  let text := lemmatize_text_for_matching resume_text in
  forall s,
    In s (matched_skills r) <->
    In s (required_names goals_map goal) /\
    (phrase_in_lemmatized_text s text 55 = true \/
     exists alt, In alt (dict_get_or alternates_table s []) /\
                 phrase_in_lemmatized_text alt text 70 = true).
Proof.
  intros Hperm Hrun text s.
  apply score_resume_inv in Hrun as [prob [minimum ->]].
  unfold report. cbn [matched_skills].
  rewrite sorted_In, (matched_of_In Hperm), resolved_iff. reflexivity.
Qed.

Lemma matched_skills_iff_witness :
  In "SQL" (matched_skills Demo.result) <->
  In "SQL" (required_names Demo.goals_map "Amazon SDE") /\
  (phrase_in_lemmatized_text (env := Demo.env) "SQL"
     (lemmatize_text_for_matching (env := Demo.env) Demo.resume) 55 = true \/
   exists alt,
     In alt (dict_get_or (alternates_table (env := Demo.env)) "SQL" []) /\
     phrase_in_lemmatized_text (env := Demo.env) alt
       (lemmatize_text_for_matching (env := Demo.env) Demo.resume) 70 = true).
Proof.
  apply (matched_skills_iff (env := Demo.env) "123" "Amazon SDE" Demo.resume
           Demo.config Demo.goals_map Demo.suggestion_map Demo.skill_groups
           Demo.result demo_set_iter_perm).
  vm_compute. reflexivity.
Defined.

(** The work of a call whose read of the alternates fails has neither
    lemmatization nor match. *)
Lemma score_resume_read_failure {env : Env}
    (student_id goal resume_text : string) (config : Config)
    (goals_map : list (string * list Requirement))
    (suggestion_map : list (string * string))
    (skill_groups : list (string * list (string * list string)))
    (e : exn) :
  alternate_skills_file = Failed e ->
  Forall before_matching
    (trace (score_resume student_id goal resume_text config goals_map
              suggestion_map skill_groups)).
Proof.
  intros He. unfold score_resume.
  destruct (is_empty (strip resume_text)); [constructor|].
  unfold load_model, load_vectorizer.
  destruct (joblib_load (replace_blank goal ++ "_model.pkl")%string)
    as [e0|model] eqn:Em;
    [rewrite (load_artifact_missing _ _ Em); repeat constructor
    |rewrite (load_artifact_present _ _ Em)].
  destruct (joblib_load (replace_blank goal ++ "_vectorizer.pkl")%string)
    as [e0|vectorizer] eqn:Ev;
    [rewrite (load_artifact_missing _ _ Ev); repeat constructor
    |rewrite (load_artifact_present _ _ Ev)].
  unfold load_alternate_skills. cbn [bind emit].
  destruct (predict_proba model vectorizer resume_text) as [e'|prob];
    [repeat constructor|].
  rewrite He. repeat constructor.
Qed.

(** The file of alternates. When it is absent or is not JSON, the loader
    returns the empty table without raising, and the matched skills of a
    result are the required skills that the matcher accepts at threshold
    55. When reading it fails in any other way, the exception leaves the
    loader: no scoring call returns a result, and none lemmatizes the
    resume or matches a skill. *)
Theorem without_alternates {env : Env}
    (student_id goal resume_text : string) (config : Config)
    (goals_map : list (string * list Requirement))
    (suggestion_map : list (string * string))
    (skill_groups : list (string * list (string * list string))) :
  (forall l, Permutation (set_iter l) l) ->
  let call :=
    score_resume student_id goal resume_text config goals_map suggestion_map
      skill_groups in
  (alternate_skills_file = Absent \/ alternate_skills_file = Malformed ->
   load_alternate_skills = ([EvLoadAlternates], inr []) /\
   forall r : ScoreResult,
     result_of call = Some r ->
     forall s,
       In s (matched_skills r) <->
       In s (required_names goals_map goal) /\
       phrase_in_lemmatized_text s (lemmatize_text_for_matching resume_text)
         55 = true) /\
  (forall e : exn,
     alternate_skills_file = Failed e ->
     load_alternate_skills = ([EvLoadAlternates], inl e) /\
     result_of call = None /\
     Forall before_matching (trace call)).
Proof.
  intros Hperm call. subst call. split.
  - intros Hnone. split.
    + unfold load_alternate_skills. destruct Hnone as [-> | ->]; reflexivity.
    + intros r Hrun s.
      apply score_resume_inv in Hrun as [prob [minimum ->]].
      unfold report. cbn [matched_skills].
      rewrite sorted_In, (matched_of_In Hperm), resolved_iff.
      unfold alternates_table. unfold hit.
      destruct Hnone as [-> | ->]; cbn;
        (split; [|tauto]; intros [Hreq [H|[alt [[] _]]]]; tauto).
  - intros e He. split; [|split].
    + unfold load_alternate_skills. rewrite He. reflexivity.
    + unfold result_of. rewrite score_resume_outcome.
      destruct (is_empty (strip resume_text)); [reflexivity|].
      destruct (joblib_load _) as [e0|model]; [reflexivity|].
      destruct (joblib_load _) as [e0|vectorizer]; [reflexivity|].
      destruct (predict_proba _ _ _) as [e'|prob]; [reflexivity|].
      rewrite He. reflexivity.
    + now apply (score_resume_read_failure _ _ _ _ _ _ _ e).
Qed.

Lemma without_alternates_witness :
  (load_alternate_skills (env := Cases.env_malformed)
   = ([EvLoadAlternates], inr []) /\
   forall r : ScoreResult,
     result_of Cases.run_malformed = Some r ->
     forall s,
       In s (matched_skills r) <->
       In s (required_names Demo.goals_map "Amazon SDE") /\
       phrase_in_lemmatized_text (env := Cases.env_malformed) s
         (lemmatize_text_for_matching (env := Cases.env_malformed) Demo.resume)
         55 = true) /\
  (load_alternate_skills (env := Cases.env_unreadable)
   = ([EvLoadAlternates], inl (OtherException "PermissionError")) /\
   result_of Cases.run_unreadable = None /\
   Forall before_matching (trace Cases.run_unreadable)).
Proof.
  split.
  - apply (proj1 (without_alternates (env := Cases.env_malformed) "123"
                    "Amazon SDE" Demo.resume Demo.config Demo.goals_map
                    Demo.suggestion_map Demo.skill_groups demo_set_iter_perm)).
    right. reflexivity.
  - apply (proj2 (without_alternates (env := Cases.env_unreadable) "123"
                    "Amazon SDE" Demo.resume Demo.config Demo.goals_map
                    Demo.suggestion_map Demo.skill_groups demo_set_iter_perm)).
    reflexivity.
Defined.

Lemma firstn_NoDup {A} (n : nat) (l : list A) : NoDup l -> NoDup (firstn n l).
Proof.
  revert n. induction l as [|x l IH]; intros [|n] H; simpl; try constructor.
  - inversion H as [|? ? Hx Hl]; subst. intros Hin. apply Hx.
    rewrite <- (firstn_skipn n l). apply in_or_app. now left.
  - inversion H. now apply IH.
Qed.

Lemma slice_to_NoDup {A} (l : list A) (k : Z) : NoDup l -> NoDup (slice_to l k).
Proof. intros H. unfold slice_to. destruct (k <? 0); now apply firstn_NoDup. Qed.

Lemma slice_to_In {A} (l : list A) (k : Z) (x : A) :
  In x (slice_to l k) -> In x l.
Proof.
  unfold slice_to.
  destruct (k <? 0); intros H;
    match type of H with In _ (firstn ?n _) =>
      rewrite <- (firstn_skipn n l); apply in_or_app; now left
    end.
Qed.

Lemma slice_to_all {A} (l : list A) (k : Z) :
  Z.of_nat (List.length l) <= k -> slice_to l k = l.
Proof.
  intros H. unfold slice_to.
  destruct (k <? 0) eqn:E; [apply Z.ltb_lt in E; lia|].
  apply firstn_all2. lia.
Qed.

(** The two lists of skills of a result. Both are alphabetical and without
    repetition; every returned missing skill is required and not matched;
    and when the cap is at least the number of requirements, every required
    skill is in exactly one of the two lists. *)
Theorem matched_and_missing_partition {env : Env}
    (student_id goal resume_text : string) (config : Config)
    (goals_map : list (string * list Requirement))
    (suggestion_map : list (string * string))
    (skill_groups : list (string * list (string * list string)))
    (r : ScoreResult) :
  (forall l, Permutation (set_iter l) l) ->
  result_of (score_resume student_id goal resume_text config goals_map
               suggestion_map skill_groups) = Some r ->
  let required := required_names goals_map goal in
  (Spec.alphabetical (matched_skills r) /\ NoDup (matched_skills r)) /\
  (Spec.alphabetical (missing_skills r) /\ NoDup (missing_skills r)) /\
  (forall s, In s (matched_skills r) -> In s required) /\
  (forall s, In s (missing_skills r) ->
             In s required /\ ~ In s (matched_skills r)) /\
  (Z.of_nat (List.length required) <= configured_cap config ->
   forall s, In s required ->
             In s (matched_skills r) \/ In s (missing_skills r)).
Proof.
  intros Hperm Hrun required.
  apply score_resume_inv in Hrun as [prob [minimum ->]].
  unfold report. cbn [matched_skills missing_skills]. unfold capped_of.
  set (prio := sorted _ (missing_of goals_map goal resume_text)).
  assert (Hprio : forall s, In s (map fst prio) <->
                            In s required /\
                            ~ In s (matched_of goals_map goal resume_text)).
  { intros s. subst prio.
    rewrite (Permutation_map fst (sorted_perm _ _)) at 1.
    apply (missing_of_names Hperm). }
  assert (Hnd : NoDup (map fst prio)).
  { subst prio.
    apply (Permutation_NoDup
             (Permutation_sym (Permutation_map fst (sorted_perm _ _)))).
    unfold missing_of. rewrite map_map. cbn [fst]. rewrite map_id.
    apply NoDup_filter. now apply goal_names_NoDup. }
  repeat split.
  - apply sorted_Sorted, String.leb_total.
  - apply (Permutation_NoDup (Permutation_sym (sorted_perm _ _))).
    apply NoDup_filter. now apply goal_names_NoDup.
  - apply sorted_Sorted, String.leb_total.
  - apply (Permutation_NoDup (Permutation_sym (sorted_perm _ _))).
    now apply slice_to_NoDup.
  - intros s Hs. apply sorted_In, (matched_of_In Hperm) in Hs. tauto.
  - apply sorted_In, slice_to_In, Hprio in H. tauto.
  - rewrite sorted_In. apply sorted_In, slice_to_In, Hprio in H. tauto.
  - intros Hcap s Hs. rewrite !sorted_In.
    destruct (in_dec string_dec s (matched_of goals_map goal resume_text))
      as [Hm|Hm]; [now left|right].
    rewrite slice_to_all; [apply Hprio; tauto|].
    rewrite length_map. subst prio. rewrite sorted_length.
    unfold missing_of. rewrite length_map.
    assert (Hle : (List.length (goal_names goals_map goal)
                   <= List.length required)%nat).
    { apply NoDup_incl_length; [now apply goal_names_NoDup|].
      intros x Hx. now apply (goal_names_In Hperm). }
    pose proof (filter_length_le
                  (fun s0 => negb (resolved alternates_table
                                     (lemmatize_text_for_matching resume_text)
                                     s0))
                  (goal_names goals_map goal)).
    lia.
Qed.

Lemma matched_and_missing_partition_witness :
  let required := required_names Cases.goals_map "Amazon SDE" in
  let r := report (env := Cases.env) 0.8 0.5 "Amazon SDE" Cases.resume
             Cases.config Cases.goals_map [] Cases.skill_groups in
  (Spec.alphabetical (matched_skills r) /\ NoDup (matched_skills r)) /\
  (Spec.alphabetical (missing_skills r) /\ NoDup (missing_skills r)) /\
  (forall s, In s (matched_skills r) -> In s required) /\
  (forall s, In s (missing_skills r) ->
             In s required /\ ~ In s (matched_skills r)) /\
  (Z.of_nat (List.length required) <= configured_cap Cases.config ->
   forall s, In s required ->
             In s (matched_skills r) \/ In s (missing_skills r)).
Proof.
  apply (matched_and_missing_partition (env := Cases.env) "7" "Amazon SDE"
           Cases.resume Cases.config Cases.goals_map [] Cases.skill_groups).
  - intros l. reflexivity.
  - vm_compute. reflexivity.
Defined.

Lemma skill_points_range (d : list (string * string)) (s : string) :
  0 <= skill_points d s <= 3.
Proof.
  unfold skill_points. rewrite weights_table.
  destruct (Spec.tier_of _) as [[]|]; cbn; lia.
Qed.

Lemma sum_filter_le {A} (f : A -> Z) (p : A -> bool) (l : list A) :
  (forall x, 0 <= f x) ->
  0 <= sum (map f (filter p l)) <= sum (map f l).
Proof.
  intros Hf. induction l as [|x l IH]; [cbn; lia|].
  cbn [filter map]. pose proof (Hf x).
  destruct (p x); cbn [map]; rewrite ?sum_cons; lia.
Qed.

Lemma sum_points_le (d : list (string * string)) (l : list string) :
  sum (map (skill_points d) l) <= 3 * Z.of_nat (List.length l).
Proof.
  induction l as [|s l IH]; [cbn; lia|].
  cbn [map List.length]. rewrite sum_cons.
  pose proof (skill_points_range d s). lia.
Qed.

(** The score of a returned result is [0.6 * prob + 0.4 * q], where [prob]
    is the probability that the loaded classifier gives for the resume and
    [q] is the binary64 quotient of two integers, the points of the matched
    skills and the points of all the skills of the goal, each skill having
    0, 1, 2 or 3 points: the first lies between 0 and the second, which is at
    most three times the number of requirements; [q] is 0 when the second
    is 0. *)
Theorem matched_points_bounded {env : Env}
    (student_id goal resume_text : string) (config : Config)
    (goals_map : list (string * list Requirement))
    (suggestion_map : list (string * string))
    (skill_groups : list (string * list (string * list string)))
    (r : ScoreResult) :
  (forall l, Permutation (set_iter l) l) ->
  result_of (score_resume student_id goal resume_text config goals_map
               suggestion_map skill_groups) = Some r ->
  let d := goal_dict goals_map goal in
  let total := sum (map (skill_points d) (goal_names goals_map goal)) in
  let points := sum (map (skill_points d) (matched_skills r)) in
  0 <= points <= total /\
  total <= 3 * Z.of_nat (List.length (required_names goals_map goal)) /\
  exists (model vectorizer : artifact) (prob : float),
    joblib_load (replace_blank goal ++ "_model.pkl")%string = inr model /\
    joblib_load (replace_blank goal ++ "_vectorizer.pkl")%string
      = inr vectorizer /\
    predict_proba model vectorizer resume_text = inr prob /\
    score r
    = (0.6 * prob +
       0.4 * (if (0 <? total)%Z then truediv points total else 0))%float.
Proof.
  intros Hperm Hrun d total points.
  apply score_resume_inv_loads in Hrun
    as (model & vectorizer & prob & minimum & Hm & Hv & Hp & ->).
  assert (Hpoints :
    points = sum (map (skill_points d) (matched_of goals_map goal resume_text))).
  { subst points. unfold report. cbn [matched_skills].
    apply sum_perm, Permutation_map, sorted_perm. }
  split; [|split].
  - rewrite Hpoints. apply sum_filter_le. intros s. apply skill_points_range.
  - subst total.
    pose proof (sum_points_le d (goal_names goals_map goal)) as Hle.
    assert (Hlen : (List.length (goal_names goals_map goal)
                    <= List.length (required_names goals_map goal))%nat).
    { apply NoDup_incl_length; [now apply goal_names_NoDup|].
      intros x Hx. now apply (goal_names_In Hperm). }
    lia.
  - exists model, vectorizer, prob. repeat (split; [assumption|]).
    rewrite Hpoints. reflexivity.
Qed.

Lemma matched_points_bounded_witness :
  let d := goal_dict Demo.goals_map "Amazon SDE" in
  let total :=
    sum (map (skill_points d)
           (goal_names (env := Demo.env) Demo.goals_map "Amazon SDE")) in
  let points := sum (map (skill_points d) (matched_skills Demo.result)) in
  0 <= points <= total /\
  total
  <= 3 * Z.of_nat (List.length (required_names Demo.goals_map "Amazon SDE")) /\
  exists (model vectorizer : artifact (Env := Demo.env)) (prob : float),
    joblib_load (Env := Demo.env) ("Amazon_SDE" ++ "_model.pkl")%string
      = inr model /\
    joblib_load (Env := Demo.env) ("Amazon_SDE" ++ "_vectorizer.pkl")%string
      = inr vectorizer /\
    predict_proba (Env := Demo.env) model vectorizer Demo.resume = inr prob /\
    score Demo.result
    = (0.6 * prob +
       0.4 * (if (0 <? total)%Z then truediv points total else 0))%float.
Proof.
  apply (matched_points_bounded (env := Demo.env) "123" "Amazon SDE"
           Demo.resume Demo.config Demo.goals_map Demo.suggestion_map
           Demo.skill_groups Demo.result demo_set_iter_perm).
  vm_compute. reflexivity.
Defined.

Lemma group_step_no_requirement {env : Env} missing_grouped entry :
  group_step [] [] [] missing_grouped entry = missing_grouped.
Proof. destruct entry as [group skills]. reflexivity. Qed.

(** A goal that has artifacts but no requirement, because it has no entry
    in the goal table or an empty one, is scored on the classifier alone
    (for a resume that is not blank and a file of alternates that is read):
    the skill score is 0 without any division, and the four lists of the
    result are empty, whatever the groups and the suggestions. *)
Theorem goal_without_requirements {env : Env}
    (student_id goal resume_text : string) (config : Config)
    (goals_map : list (string * list Requirement))
    (suggestion_map : list (string * string))
    (skill_groups : list (string * list (string * list string)))
    (model vectorizer : artifact) (prob minimum : float) :
  (forall l, Permutation (set_iter l) l) ->
  dict_get_or goals_map goal [] = [] ->
  whitespace_only resume_text = false ->
  joblib_load (replace_blank goal ++ "_model.pkl")%string = inr model ->
  joblib_load (replace_blank goal ++ "_vectorizer.pkl")%string
    = inr vectorizer ->
  predict_proba model vectorizer resume_text = inr prob ->
  (forall e, alternate_skills_file <> Failed e) ->
  minimum_score_to_pass config = Some minimum ->
  result_of (score_resume student_id goal resume_text config goals_map
               suggestion_map skill_groups)
  = Some {| score := (0.6 * prob + 0.4 * 0)%float;
            is_pass := PrimFloat.leb minimum (0.6 * prob + 0.4 * 0)%float;
            matched_skills := [];
            missing_skills := [];
            missing_skills_grouped := [];
            suggested_learning_path := [] |}.
Proof.
  intros Hperm Hreqs Hne Hm Hv Hp Halt Hmin.
  rewrite (score_resume_returns student_id goal resume_text config goals_map
             suggestion_map skill_groups model vectorizer prob minimum
             Hne Hm Hv Hp Halt Hmin).
  f_equal. unfold report, capped_of, matched_of, missing_of, goal_names,
    goal_dict.
  rewrite Hreqs. cbn [map dict_of_items fold_left keys]. unfold set_of.
  cbn [nodup]. rewrite (Permutation_nil (Permutation_sym (Hperm []))).
  cbn [filter map sorted fold_right sum].
  replace (slice_to [] (configured_cap config)) with (@nil string)
    by (unfold slice_to; destruct (_ <? 0); now rewrite firstn_nil).
  cbn [map sorted fold_right].
  replace (fold_left (group_step [] [] []) (dict_get_or skill_groups goal []) [])
    with (@nil (string * list string)).
  - reflexivity.
  - generalize (@nil (string * list string)) at 1 3.
    induction (dict_get_or skill_groups goal []) as [|e l IH]; intros acc;
      [reflexivity|].
    cbn [fold_left]. rewrite group_step_no_requirement. apply IH.
Qed.

Lemma goal_without_requirements_witness :
  result_of (score_resume (env := Cases.env) "7" "GATE ECE" Cases.resume
               Cases.config Cases.goals_map [] Cases.skill_groups)
  = Some {| score := (0.6 * 0.3 + 0.4 * 0)%float;
            is_pass := PrimFloat.leb 0.5 (0.6 * 0.3 + 0.4 * 0)%float;
            matched_skills := [];
            missing_skills := [];
            missing_skills_grouped := [];
            suggested_learning_path := [] |}.
Proof.
  apply (goal_without_requirements (env := Cases.env) "7" "GATE ECE"
           Cases.resume Cases.config Cases.goals_map [] Cases.skill_groups
           0.3%float 0%float 0.3%float 0.5%float);
    try reflexivity.
  intros e. discriminate.
Defined.

(* ------------------------------------------------------------------ *)
(** ** The shape of the grouped report *)


Section GroupShape.
Context {env : Env}.
Hypothesis set_iter_perm : forall l, Permutation (set_iter l) l.
Variable requirements : list Requirement.
Variable matched : list string.
Variable missing : list (string * string).
Hypothesis missing_names :
  forall s, In s (map fst missing) <->
            In s (map name requirements) /\ ~ In s matched.
Hypothesis missing_unique : NoDup (map fst missing).

Lemma filter_map_fst_NoDup (p : string -> bool) :
  NoDup (map fst (filter (fun x => p (fst x)) missing)).
Proof.
  rewrite <- (filter_map_swap p fst). now apply NoDup_filter.
Qed.

(** One turn of the loop over the groups either leaves the report as it is
    or sets the entry of the group to a non-empty, alphabetical list without
    repetition of the skills that the group reports. *)
Lemma group_step_shape missing_grouped (group : string)
    (skills_in_group : list string) :
  group_step requirements matched missing missing_grouped
    (group, skills_in_group) = missing_grouped \/
  exists l : list string,
    l <> [] /\ Spec.alphabetical l /\ NoDup l /\
    (forall s, In s l <-> reported requirements matched skills_in_group s) /\
    group_step requirements matched missing missing_grouped
      (group, skills_in_group)
    = dict_set missing_grouped group l.
Proof.
  destruct (group_step_run set_iter_perm requirements matched missing
              missing_names missing_grouped group skills_in_group)
    as [l0 [Hl0 _]].
  unfold group_step.
  set (names := set_of _).
  assert (Hnames : NoDup names) by now apply set_of_NoDup.
  assert (Hin : forall s, In s names <->
                          In s (map name requirements) /\
                          In s skills_in_group)
    by now apply group_skill_names_In.
  destruct (filter (fun s => mem s names) matched) as [|m ms].
  - destruct (map fst (filter _ missing)) as [|x xs] eqn:E; [now left|].
    right. exists (sorted String.leb (x :: xs)).
    split; [intros H; apply sorted_nil_iff in H; discriminate|].
    split; [apply sorted_Sorted, String.leb_total|].
    split.
    { apply (Permutation_NoDup (Permutation_sym (sorted_perm _ _))).
      rewrite <- E. apply (filter_map_fst_NoDup (fun s => mem s names)). }
    split; [|reflexivity].
    intros s. rewrite sorted_In, <- E, in_map_iff. unfold reported. split.
    + intros [[s' imp] [Heq Hs]]. simpl in Heq. subst s'.
      apply filter_In in Hs as [Hs Hmem]. simpl in Hmem.
      apply mem_In, Hin in Hmem.
      assert (Hm : In s (map fst missing))
        by (change s with (fst (s, imp)); now apply in_map).
      apply missing_names in Hm. tauto.
    + intros [Hreq [Hgrp Hnot]].
      assert (Hm : In s (map fst missing)) by (apply missing_names; tauto).
      apply in_map_iff in Hm as [[s' imp] [Heq Hs]]. simpl in Heq. subst s'.
      exists (s, imp). split; [reflexivity|].
      apply filter_In. split; [assumption|]. simpl. apply mem_In, Hin. tauto.
  - destruct (sorted String.leb (filter _ names)) as [|x xs] eqn:E;
      [now left|].
    right. exists (x :: xs).
    split; [discriminate|].
    split; [rewrite <- E; apply sorted_Sorted, String.leb_total|].
    split.
    { rewrite <- E.
      apply (Permutation_NoDup (Permutation_sym (sorted_perm _ _))).
      now apply NoDup_filter. }
    split; [|reflexivity].
    intros s. rewrite <- E, sorted_In, filter_In, Hin, negb_true_iff, mem_false.
    unfold reported. tauto.
Qed.

Lemma fold_group_step_shape (all groups acc : list (string * list string)) :
  incl groups all ->
  NoDup (keys acc) -> Forall (entry_ok requirements matched all) acc ->
  let report :=
    fold_left (group_step requirements matched missing) groups acc in
  NoDup (keys report) /\ Forall (entry_ok requirements matched all) report.
Proof.
  revert acc. induction groups as [|[g skills] groups IH];
    intros acc Hincl Hnd Hok; [now split|].
  cbn [fold_left].
  assert (Hg : In (g, skills) all) by (apply Hincl; now left).
  assert (Hincl' : incl groups all)
    by (intros e He; apply Hincl; now right).
  destruct (group_step_shape acc g skills)
    as [->|[l [Hne [Hs [Hu [Hl ->]]]]]]; [now apply IH|].
  apply IH; [assumption|now apply dict_set_NoDup|].
  apply Forall_forall. intros [g' l'] Hin.
  apply dict_set_In in Hin as [Hin|[-> ->]].
  - rewrite Forall_forall in Hok. now apply Hok.
  - unfold entry_ok. cbn [fst snd]. eauto 8.
Qed.
End GroupShape.

Lemma missing_of_names_NoDup {env : Env}
    (Hperm : forall l, Permutation (set_iter l) l)
    (goals_map : list (string * list Requirement)) (goal resume_text : string) :
  NoDup (map fst (missing_of goals_map goal resume_text)).
Proof.
  unfold missing_of. rewrite map_map. cbn [fst]. rewrite map_id.
  apply NoDup_filter. now apply goal_names_NoDup.
Qed.

(** The grouped report of a result has one entry per group name at most,
    and every entry is a group of the goal with a list that is not empty,
    alphabetical and without repetition, made of the required skills that
    the group lists and the resume does not match. A group with nothing to
    report has no entry. *)
Theorem grouped_report_shape {env : Env}
    (student_id goal resume_text : string) (config : Config)
    (goals_map : list (string * list Requirement))
    (suggestion_map : list (string * string))
    (skill_groups : list (string * list (string * list string)))
    (r : ScoreResult) :
  (forall l, Permutation (set_iter l) l) ->
  result_of (score_resume student_id goal resume_text config goals_map
               suggestion_map skill_groups) = Some r ->
  NoDup (keys (missing_skills_grouped r)) /\
  forall group l,
    In (group, l) (missing_skills_grouped r) ->
    l <> [] /\ Spec.alphabetical l /\ NoDup l /\
    exists skills_in_group,
      In (group, skills_in_group) (dict_get_or skill_groups goal []) /\
      forall s, In s l <->
                In s (required_names goals_map goal) /\
                In s skills_in_group /\
                ~ In s (matched_skills r).
Proof.
  intros Hperm Hrun.
  apply score_resume_inv in Hrun as [prob [minimum ->]].
  unfold report. cbn [missing_skills_grouped matched_skills].
  destruct (fold_group_step_shape Hperm (dict_get_or goals_map goal [])
              (matched_of goals_map goal resume_text)
              (missing_of goals_map goal resume_text)
              (missing_of_names Hperm goals_map goal resume_text)
              (missing_of_names_NoDup Hperm goals_map goal resume_text)
              (dict_get_or skill_groups goal [])
              (dict_get_or skill_groups goal []) []
              (incl_refl _) (NoDup_nil _) (Forall_nil _))
    as [Hkeys Hall].
  split; [exact Hkeys|].
  intros group l Hin. rewrite Forall_forall in Hall.
  destruct (Hall _ Hin) as [Hne [Hs [Hu [skills [Hg Hl]]]]].
  cbn [fst snd] in *. repeat split; try assumption.
  exists skills. split; [assumption|].
  intros s. rewrite Hl, sorted_In. unfold reported, required_names.
  reflexivity.
Qed.

Lemma grouped_report_shape_witness :
  NoDup (keys (missing_skills_grouped Demo.result)) /\
  forall group l,
    In (group, l) (missing_skills_grouped Demo.result) ->
    l <> [] /\ Spec.alphabetical l /\ NoDup l /\
    exists skills_in_group,
      In (group, skills_in_group)
        (dict_get_or Demo.skill_groups "Amazon SDE" []) /\
      forall s, In s l <->
                In s (required_names Demo.goals_map "Amazon SDE") /\
                In s skills_in_group /\
                ~ In s (matched_skills Demo.result).
Proof.
  apply (grouped_report_shape (env := Demo.env) "123" "Amazon SDE" Demo.resume
           Demo.config Demo.goals_map Demo.suggestion_map Demo.skill_groups).
  - exact demo_set_iter_perm.
  - vm_compute. reflexivity.
Defined.

(* ------------------------------------------------------------------ *)
(** ** The artifacts that training saves and the scorer loads *)

Lemma chars_append (a b : string) :
  list_ascii_of_string (a ++ b)
  = list_ascii_of_string a ++ list_ascii_of_string b.
Proof. induction a as [|c a IH]; simpl; [reflexivity|now rewrite IH]. Qed.

Lemma append_cancel_r (a b t : string) :
  (a ++ t)%string = (b ++ t)%string -> a = b.
Proof.
  intros H. apply (f_equal list_ascii_of_string) in H.
  rewrite !chars_append in H. apply app_inv_tail in H.
  rewrite <- (string_of_list_ascii_of_string a),
          <- (string_of_list_ascii_of_string b).
  now rewrite H.
Qed.

Lemma lower_replace_blank (goal : string) :
  lower_ascii (replace_blank goal) = replace_blank goal <->
  lower_ascii goal = goal.
Proof.
  induction goal as [|c goal IH]; [simpl; tauto|].
  cbn [replace_blank lower_ascii].
  destruct (Ascii.eqb_spec c " ") as [->|Hc].
  - change (lower_char "_") with "_"%char. change (lower_char " ") with " "%char.
    split; intros H; injection H as H'; f_equal; apply IH; exact H'.
  - split; intros H; injection H as Hc' H'; rewrite Hc'; f_equal;
      apply IH; exact H'.
Qed.

Lemma lower_char_fixed (c : ascii) :
  lower_char c = c <->
  negb ((65 <=? N_of_ascii c) && (N_of_ascii c <=? 90))%N = true.
Proof.
  destruct c as [[] [] [] [] [] [] [] []]; vm_compute;
    split; intros H; try reflexivity; discriminate.
Qed.

Lemma lower_ascii_fixed (s : string) :
  lower_ascii s = s <-> no_capital s = true.
Proof.
  unfold no_capital. induction s as [|c s IH]; [simpl; tauto|].
  cbn [lower_ascii list_ascii_of_string forallb].
  rewrite andb_true_iff, <- IH, <- lower_char_fixed.
  split.
  - intros H. injection H as Hc Hs. now split.
  - intros [Hc Hs]. now rewrite Hc, Hs.
Qed.

Lemma ascii_only_replace_blank (s : string) :
  ascii_only (replace_blank s) = ascii_only s.
Proof.
  unfold ascii_only. induction s as [|c s IH]; [reflexivity|].
  cbn [replace_blank list_ascii_of_string forallb]. rewrite IH. f_equal.
  destruct (Ascii.eqb_spec c " ") as [->|Hc]; reflexivity.
Qed.

Lemma load_artifact_trace {env : Env} (filename : string) :
  trace (load_artifact filename) = [EvJoblibLoad filename].
Proof.
  unfold load_artifact. rewrite trace_bind. cbn [trace outcome fst snd emit].
  destruct (joblib_load filename); reflexivity.
Qed.

(** The file that the scorer loads for a goal is the file that training
    saves for it exactly when lowering leaves the name of the file as it
    is: training lowers the name and the scorer does not. For a goal in
    ASCII this is exactly when the goal has no capital letter. None of the
    three goals that training has data for keeps its name. *)
Theorem saved_and_loaded_artifacts {env : Env} (goal : string) :
  (trace (load_model goal) = [EvJoblibLoad (Training.saved_model goal)]
   <-> lower (replace_blank goal) = replace_blank goal) /\
  (trace (load_vectorizer goal)
   = [EvJoblibLoad (Training.saved_vectorizer goal)]
   <-> lower (replace_blank goal) = replace_blank goal) /\
  (ascii_only goal = true ->
   (trace (load_model goal) = [EvJoblibLoad (Training.saved_model goal)]
    <-> no_capital goal = true) /\
   (trace (load_vectorizer goal)
    = [EvJoblibLoad (Training.saved_vectorizer goal)]
    <-> no_capital goal = true)) /\
  Forall (fun g => trace (load_model g)
                   <> [EvJoblibLoad (Training.saved_model g)])
    (keys Training.goal_to_file).
Proof.
  assert (Hiff : forall sfx g,
    [EvJoblibLoad (replace_blank g ++ sfx)%string]
    = [EvJoblibLoad (Training.goal_key g ++ sfx)%string]
    <-> lower (replace_blank g) = replace_blank g).
  { intros sfx g. unfold Training.goal_key. split.
    - intros H. inversion H as [H']. apply append_cancel_r in H'. now symmetry.
    - intros H. now rewrite H. }
  assert (Hascii : forall g,
    ascii_only g = true ->
    (lower (replace_blank g) = replace_blank g <-> no_capital g = true)).
  { intros g Hg. unfold lower. rewrite ascii_only_replace_blank, Hg.
    rewrite lower_replace_blank. apply lower_ascii_fixed. }
  unfold load_model, load_vectorizer. rewrite !load_artifact_trace.
  split; [apply Hiff|]. split; [apply Hiff|]. split.
  - intros Hg. unfold Training.saved_model, Training.saved_vectorizer.
    rewrite !Hiff. split; now apply Hascii.
  - repeat constructor; unfold load_model; rewrite load_artifact_trace;
      intros H; apply (Hiff "_model.pkl"), Hascii in H;
      solve [discriminate | reflexivity].
Qed.

Lemma saved_and_loaded_artifacts_witness :
  (trace (load_model (env := Demo.env) "amazon sde")
   = [EvJoblibLoad (Training.saved_model (env := Demo.env) "amazon sde")]
   <-> no_capital "amazon sde" = true) /\
  (trace (load_vectorizer (env := Demo.env) "amazon sde")
   = [EvJoblibLoad (Training.saved_vectorizer (env := Demo.env) "amazon sde")]
   <-> no_capital "amazon sde" = true).
Proof.
  apply (proj1 (proj2 (proj2
           (saved_and_loaded_artifacts (env := Demo.env) "amazon sde")))).
  reflexivity.
Defined.

(* ------------------------------------------------------------------ *)
(** ** The cleaning of training texts *)

Lemma keep_char_lower (c : ascii) :
  Training.keep_char c = true -> lower_char c = c.
Proof.
  destruct c as [[] [] [] [] [] [] [] []]; vm_compute; intros H;
    try reflexivity; discriminate.
Qed.

Lemma keep_char_blank (c : ascii) :
  Training.keep_char c = true -> is_space c = true -> c = " "%char.
Proof.
  destruct c as [[] [] [] [] [] [] [] []]; vm_compute; intros H1 H2;
    try reflexivity; discriminate.
Qed.

Section CleanText.
Import Training.
Context {env : Env}.

Lemma blank2_ascii (c1 c2 : ascii) :
  (N_of_ascii c1 <? 128)%N = true -> blank2 c1 c2 = false.
Proof.
  intros H. apply N.ltb_lt in H. unfold blank2. cbv zeta.
  destruct (N.eqb_spec (N_of_ascii c1) 194); [lia|reflexivity].
Qed.

Lemma blank3_ascii (c1 c2 c3 : ascii) :
  (N_of_ascii c1 <? 128)%N = true -> blank3 c1 c2 c3 = false.
Proof.
  intros H. apply N.ltb_lt in H. unfold blank3. cbv zeta.
  destruct (N.eqb_spec (N_of_ascii c1) 225); [lia|].
  destruct (N.eqb_spec (N_of_ascii c1) 226); [lia|].
  destruct (N.eqb_spec (N_of_ascii c1) 227); [lia|reflexivity].
Qed.

(** On ASCII text every blank is one byte. *)
Lemma lstrip_ascii_eq (s : string) :
  ascii_only s = true -> lstrip s = lstrip_ascii s.
Proof.
  unfold ascii_only. induction s as [|c s IH]; intros H; [reflexivity|].
  cbn [list_ascii_of_string forallb] in H. apply andb_prop in H as [Hc Hs].
  cbn [lstrip lstrip_ascii]. destruct (is_space c); [now apply IH|].
  destruct s as [|c2 s2]; [reflexivity|]. rewrite (blank2_ascii _ _ Hc).
  destruct s2 as [|c3 s3]; [reflexivity|]. now rewrite (blank3_ascii _ _ _ Hc).
Qed.

Lemma all_blank_ascii (c : ascii) (s : string) :
  (N_of_ascii c <? 128)%N = true ->
  all_blank (String c s) = is_space c && all_blank s.
Proof.
  intros Hc. cbn [all_blank]. destruct (is_space c); [reflexivity|].
  destruct s as [|c2 s2]; [reflexivity|]. rewrite (blank2_ascii _ _ Hc).
  destruct s2 as [|c3 s3]; [reflexivity|]. now rewrite (blank3_ascii _ _ _ Hc).
Qed.

Lemma rstrip_ascii_eq (s : string) :
  ascii_only s = true -> rstrip s = rstrip_ascii s.
Proof.
  unfold ascii_only. induction s as [|c s IH]; intros H; [reflexivity|].
  cbn [list_ascii_of_string forallb] in H. apply andb_prop in H as [Hc Hs].
  cbn [rstrip rstrip_ascii].
  rewrite (all_blank_ascii _ _ Hc), <- (rstrip_empty s), (IH Hs).
  reflexivity.
Qed.

Lemma lstrip_ascii_only (s : string) :
  ascii_only s = true -> ascii_only (lstrip_ascii s) = true.
Proof.
  unfold ascii_only. induction s as [|c s IH]; intros H; [reflexivity|].
  cbn [lstrip_ascii]. destruct (is_space c); [|exact H].
  cbn [list_ascii_of_string forallb] in H. apply andb_prop in H as [_ Hs].
  now apply IH.
Qed.

Lemma strip_ascii_eq (s : string) :
  ascii_only s = true -> strip s = strip_ascii s.
Proof.
  intros H. unfold strip, strip_ascii.
  rewrite (lstrip_ascii_eq _ H). apply rstrip_ascii_eq.
  now apply lstrip_ascii_only.
Qed.

Lemma keep_char_ascii (c : ascii) :
  keep_char c = true -> (N_of_ascii c <? 128)%N = true.
Proof.
  destruct c as [[] [] [] [] [] [] [] []]; vm_compute; intros H;
    try reflexivity; discriminate.
Qed.

Lemma kept_ascii_only (s : string) : kept s -> ascii_only s = true.
Proof.
  unfold kept, ascii_only. induction s as [|c s IH]; intros H; [reflexivity|].
  cbn [list_ascii_of_string forallb] in *. apply andb_prop in H as [Hc Hs].
  now rewrite (keep_char_ascii _ Hc), (IH Hs).
Qed.

Lemma lstrip_ascii_head (s : string) :
  match lstrip_ascii s with
  | EmptyString => True
  | String c _ => is_space c = false
  end.
Proof.
  induction s as [|c s IH]; simpl; [exact I|].
  destruct (is_space c) eqn:E; simpl; assumption.
Qed.

Lemma sub_other_kept (s : string) : kept (sub_other s).
Proof.
  unfold kept. induction s as [|c s IH]; [reflexivity|].
  cbn [sub_other list_ascii_of_string forallb]. rewrite IH, andb_true_r.
  destruct (keep_char c) eqn:E; [exact E|reflexivity].
Qed.

Lemma sub_blanks_kept (b : bool) (s : string) :
  kept s -> kept (sub_blanks b s).
Proof.
  unfold kept. revert b. induction s as [|c s IH]; intros b H; [reflexivity|].
  cbn [list_ascii_of_string forallb] in H. apply andb_prop in H as [Hc Hs].
  cbn [sub_blanks].
  destruct (is_space c); [destruct b|]; cbn [list_ascii_of_string forallb];
    rewrite ?Hc, ?(IH _ Hs); auto.
Qed.

Lemma lstrip_kept (s : string) : kept s -> kept (lstrip_ascii s).
Proof.
  unfold kept. induction s as [|c s IH]; intros H; [reflexivity|].
  cbn [lstrip_ascii]. destruct (is_space c); [|exact H].
  cbn [list_ascii_of_string forallb] in H. apply andb_prop in H as [_ Hs].
  now apply IH.
Qed.

Lemma rstrip_kept (s : string) : kept s -> kept (rstrip_ascii s).
Proof.
  unfold kept. induction s as [|c s IH]; intros H; [reflexivity|].
  cbn [list_ascii_of_string forallb] in H. apply andb_prop in H as [Hc Hs].
  cbn [rstrip_ascii].
  destruct (is_space c && is_empty (rstrip_ascii s)); [reflexivity|].
  cbn [list_ascii_of_string forallb]. now rewrite Hc, (IH Hs).
Qed.

Lemma sub_blanks_single_spaced (b : bool) (s : string) :
  single_spaced b (sub_blanks b s) = true.
Proof.
  revert b. induction s as [|c s IH]; intros b; [reflexivity|].
  cbn [sub_blanks]. destruct (is_space c) eqn:Ec.
  - destruct b; [apply IH|].
    cbn [single_spaced]. change (is_space " ") with true. cbv iota.
    now rewrite IH.
  - cbn [single_spaced]. rewrite Ec. apply IH.
Qed.

Lemma single_spaced_weaken (s : string) :
  single_spaced true s = true -> single_spaced false s = true.
Proof.
  destruct s as [|c s]; [reflexivity|]. cbn [single_spaced].
  destruct (is_space c); [discriminate|auto].
Qed.

Lemma lstrip_single_spaced (b : bool) (s : string) :
  single_spaced b s = true -> single_spaced false (lstrip_ascii s) = true.
Proof.
  revert b. induction s as [|c s IH]; intros b H; [reflexivity|].
  cbn [lstrip_ascii]. cbn [single_spaced] in H. destruct (is_space c) eqn:Ec.
  - apply andb_prop in H as [_ H]. now apply (IH true).
  - cbn [single_spaced]. now rewrite Ec.
Qed.

Lemma rstrip_single_spaced (b : bool) (s : string) :
  single_spaced b s = true -> single_spaced b (rstrip_ascii s) = true.
Proof.
  revert b. induction s as [|c s IH]; intros b H; [reflexivity|].
  cbn [rstrip_ascii]. cbn [single_spaced] in H.
  destruct (is_space c) eqn:Ec.
  - apply andb_prop in H as [H1 H2].
    destruct (is_empty (rstrip_ascii s)); [reflexivity|].
    cbn [andb single_spaced]. rewrite Ec, H1. now apply IH.
  - cbn [andb single_spaced]. rewrite Ec. now apply IH.
Qed.

Lemma sub_blanks_id (b : bool) (s : string) :
  single_spaced b s = true -> sub_blanks b s = s.
Proof.
  revert b. induction s as [|c s IH]; intros b H; [reflexivity|].
  cbn [single_spaced] in H. cbn [sub_blanks].
  destruct (is_space c).
  - apply andb_prop in H as [H1 H2]. apply andb_prop in H1 as [Hb Hc].
    apply negb_true_iff in Hb. subst b.
    apply Ascii.eqb_eq in Hc. subst c. now rewrite (IH _ H2).
  - now rewrite (IH _ H).
Qed.

Lemma sub_other_id (s : string) : kept s -> sub_other s = s.
Proof.
  unfold kept. induction s as [|c s IH]; intros H; [reflexivity|].
  cbn [list_ascii_of_string forallb] in H. apply andb_prop in H as [Hc Hs].
  cbn [sub_other]. now rewrite Hc, (IH Hs).
Qed.

Lemma lower_ascii_id (s : string) : kept s -> lower_ascii s = s.
Proof.
  unfold kept. induction s as [|c s IH]; intros H; [reflexivity|].
  cbn [list_ascii_of_string forallb] in H. apply andb_prop in H as [Hc Hs].
  cbn [lower_ascii]. now rewrite (keep_char_lower _ Hc), (IH Hs).
Qed.

Lemma lower_id (s : string) : kept s -> lower s = s.
Proof.
  intros H. unfold lower. rewrite (kept_ascii_only _ H).
  now apply lower_ascii_id.
Qed.

Lemma rstrip_rstrip (s : string) : rstrip_ascii (rstrip_ascii s) = rstrip_ascii s.
Proof.
  induction s as [|c s IH]; [reflexivity|]. cbn [rstrip_ascii].
  destruct (is_space c && is_empty (rstrip_ascii s)) eqn:E; [reflexivity|].
  cbn [rstrip_ascii]. now rewrite IH, E.
Qed.

Lemma lstrip_rstrip_lstrip (s : string) :
  lstrip_ascii (rstrip_ascii (lstrip_ascii s)) = rstrip_ascii (lstrip_ascii s).
Proof.
  pose proof (lstrip_ascii_head s) as H.
  destruct (lstrip_ascii s) as [|c u]; [reflexivity|].
  cbn [rstrip_ascii]. rewrite H. cbn [andb lstrip_ascii]. now rewrite H.
Qed.

Lemma strip_strip (s : string) : strip_ascii (strip_ascii s) = strip_ascii s.
Proof.
  unfold strip_ascii. now rewrite lstrip_rstrip_lstrip, rstrip_rstrip.
Qed.

Lemma single_spaced_pairs (b : bool) (s : string) pre x y post :
  single_spaced b s = true ->
  list_ascii_of_string s = pre ++ x :: y :: post ->
  ~ (is_space x = true /\ is_space y = true).
Proof.
  revert b s. induction pre as [|p pre IH]; intros b s H Hs [Hx Hy].
  - destruct s as [|c [|d s]]; try discriminate.
    cbn [list_ascii_of_string app] in Hs. injection Hs as -> -> _.
    cbn [single_spaced] in H. rewrite Hx, Hy in H.
    now rewrite !andb_false_r, ?andb_false_l in H.
  - destruct s as [|c s]; [discriminate|].
    cbn [list_ascii_of_string app] in Hs. injection Hs as -> Hs.
    cbn [single_spaced] in H.
    destruct (is_space p).
    + apply andb_prop in H as [_ H]. exact (IH _ _ H Hs (conj Hx Hy)).
    + exact (IH _ _ H Hs (conj Hx Hy)).
Qed.

(** The cleaned text, through the one-byte blanks of ASCII text. *)
Lemma clean_text_ascii (text : string) :
  clean_text text
  = strip_ascii (sub_blanks false (sub_other (lower text))).
Proof.
  unfold clean_text. apply strip_ascii_eq, kept_ascii_only.
  apply sub_blanks_kept, sub_other_kept.
Qed.

Lemma clean_text_kept (text : string) : kept (clean_text text).
Proof.
  rewrite clean_text_ascii. unfold strip_ascii.
  apply rstrip_kept, lstrip_kept, sub_blanks_kept, sub_other_kept.
Qed.

Lemma clean_text_single_spaced (text : string) :
  single_spaced false (clean_text text) = true.
Proof.
  rewrite clean_text_ascii. unfold strip_ascii.
  apply rstrip_single_spaced.
  apply (lstrip_single_spaced false). apply sub_blanks_single_spaced.
Qed.

Lemma clean_text_stripped (text : string) :
  strip (clean_text text) = clean_text text.
Proof.
  rewrite (strip_ascii_eq _ (kept_ascii_only _ (clean_text_kept text))).
  rewrite clean_text_ascii. apply strip_strip.
Qed.

(** A cleaned text is in a normal form: it is made of lowercase letters,
    digits, the signs + # . / and spaces only; it neither starts nor ends
    with a blank; and it has no blank after a blank. *)
Theorem clean_text_normal_form (text : string) :
  let cleaned := clean_text text in
  (forall c, In c (list_ascii_of_string cleaned) -> keep_char c = true) /\
  strip cleaned = cleaned /\
  (forall pre x y post,
      list_ascii_of_string cleaned = pre ++ x :: y :: post ->
      ~ (is_space x = true /\ is_space y = true)) /\
  single_spaced false cleaned = true.
Proof.
  intros cleaned. subst cleaned.
  pose proof (clean_text_kept text) as Hk.
  pose proof (clean_text_single_spaced text) as Hs.
  split; [|split; [|split]].
  - intros c Hc. unfold kept in Hk. rewrite forallb_forall in Hk. now apply Hk.
  - apply clean_text_stripped.
  - intros pre x y post. now apply single_spaced_pairs with (b := false).
  - exact Hs.
Qed.

(** Cleaning is idempotent: a cleaned text is left as it is. *)
Theorem clean_text_idempotent (text : string) :
  clean_text (clean_text text) = clean_text text.
Proof.
  unfold clean_text at 1.
  set (cleaned := clean_text text).
  pose proof (clean_text_kept text) as Hk.
  pose proof (clean_text_single_spaced text) as Hs.
  fold cleaned in Hk, Hs.
  rewrite (lower_id _ Hk), (sub_other_id _ Hk), (sub_blanks_id _ _ Hs).
  apply clean_text_stripped.
Qed.
End CleanText.

Example clean_text_sample :
  Training.clean_text (env := Demo.env)
    (String (ascii_of_nat 9) "  Senior C++ Dev, (RESTful APIs)!  React.js/Node ")
  = "senior c++ dev restful apis react.js/node".
Proof. vm_compute. reflexivity. Qed.

(* ------------------------------------------------------------------ *)
(** ** The order of iteration of sets does not show in a result *)

Lemma string_leb_trans (s1 s2 s3 : string) :
  String.leb s1 s2 = true -> String.leb s2 s3 = true ->
  String.leb s1 s3 = true.
Proof.
  unfold String.leb. revert s2 s3.
  induction s1 as [|c1 s1 IH]; intros [|c2 s2] [|c3 s3]; simpl;
    try congruence.
  unfold Ascii.compare.
  destruct (N.compare_spec (N_of_ascii c1) (N_of_ascii c2)) as [H12|H12|H12];
    destruct (N.compare_spec (N_of_ascii c2) (N_of_ascii c3)) as [H23|H23|H23];
    destruct (N.compare_spec (N_of_ascii c1) (N_of_ascii c3)) as [H13|H13|H13];
    try congruence; try lia.
  apply IH.
Qed.

Lemma key_le_trans (a b c : Z * string) :
  key_le a b = true -> key_le b c = true -> key_le a c = true.
Proof.
  unfold key_le. destruct a as [ra na], b as [rb nb], c as [rc nc].
  cbn [fst snd]. intros H1 H2.
  apply orb_prop in H1 as [H1|H1]; apply orb_prop in H2 as [H2|H2];
    try apply Z.ltb_lt in H1; try apply Z.ltb_lt in H2;
    try (apply andb_prop in H1 as [E1 L1]; apply Z.eqb_eq in E1);
    try (apply andb_prop in H2 as [E2 L2]; apply Z.eqb_eq in E2);
    apply orb_true_iff.
  - left. apply Z.ltb_lt. lia.
  - left. apply Z.ltb_lt. lia.
  - left. apply Z.ltb_lt. lia.
  - right. apply andb_true_iff. split; [apply Z.eqb_eq; lia|].
    now apply (string_leb_trans na nb nc).
Qed.

Lemma key_le_antisym (a b : Z * string) :
  key_le a b = true -> key_le b a = true -> a = b.
Proof.
  unfold key_le. destruct a as [ra na], b as [rb nb]. cbn [fst snd].
  intros H1 H2.
  apply orb_prop in H1 as [H1|H1]; apply orb_prop in H2 as [H2|H2];
    try apply Z.ltb_lt in H1; try apply Z.ltb_lt in H2;
    try (apply andb_prop in H1 as [E1 L1]; apply Z.eqb_eq in E1);
    try (apply andb_prop in H2 as [E2 L2]; apply Z.eqb_eq in E2);
    try lia.
  f_equal; [assumption|now apply String.leb_antisym].
Qed.

Section SortedUnique.
Context {A : Type} (le : A -> A -> bool).
Hypothesis le_total : forall a b, le a b = true \/ le b a = true.
Hypothesis le_trans :
  forall a b c, le a b = true -> le b c = true -> le a c = true.

Lemma strongly_sorted_unique (l1 l2 : list A) :
  (forall x y, In x l1 -> In y l1 ->
               le x y = true -> le y x = true -> x = y) ->
  StronglySorted (fun a b => le a b = true) l1 ->
  StronglySorted (fun a b => le a b = true) l2 ->
  Permutation l1 l2 -> l1 = l2.
Proof.
  revert l2. induction l1 as [|x t1 IH]; intros l2 Hanti H1 H2 Hp.
  - apply Permutation_nil in Hp. now subst.
  - destruct l2 as [|y t2];
      [apply Permutation_sym, Permutation_nil in Hp; discriminate|].
    apply StronglySorted_inv in H1 as [Ht1 Hx].
    apply StronglySorted_inv in H2 as [Ht2 Hy].
    rewrite Forall_forall in Hx, Hy.
    assert (Hxy : x = y).
    { assert (Hin_y : In y (x :: t1))
        by (apply (Permutation_in _ (Permutation_sym Hp)); now left).
      assert (Hin_x : In x (y :: t2))
        by (apply (Permutation_in _ Hp); now left).
      destruct Hin_y as [Heq|Hin_y]; [assumption|].
      destruct Hin_x as [Heq|Hin_x]; [now symmetry|].
      apply Hanti; [now left|now right|now apply Hx|now apply Hy]. }
    subst y. f_equal. apply IH; try assumption.
    + intros a b Ha Hb. apply Hanti; now right.
    + now apply Permutation_cons_inv in Hp.
Qed.

(** Two lists with the same elements are sorted to the same list. *)
Lemma sorted_unique (l1 l2 : list A) :
  (forall x y, In x l1 -> In y l1 ->
               le x y = true -> le y x = true -> x = y) ->
  Permutation l1 l2 -> sorted le l1 = sorted le l2.
Proof.
  intros Hanti Hp.
  assert (Htrans : Relations_1.Transitive (fun a b => le a b = true))
    by (intros a b c; apply le_trans).
  apply strongly_sorted_unique.
  - intros x y Hx Hy. apply sorted_In in Hx, Hy. now apply Hanti.
  - apply Sorted_StronglySorted; [exact Htrans|now apply sorted_Sorted].
  - apply Sorted_StronglySorted; [exact Htrans|now apply sorted_Sorted].
  - rewrite !sorted_perm. exact Hp.
Qed.
End SortedUnique.

Lemma sorted_names_unique (l1 l2 : list string) :
  Permutation l1 l2 -> sorted String.leb l1 = sorted String.leb l2.
Proof.
  apply sorted_unique.
  - apply String.leb_total.
  - apply string_leb_trans.
  - intros x y _ _. apply String.leb_antisym.
Qed.

Lemma perm_match {A B} (l1 l2 : list A) (a : B) (b : B) :
  Permutation l1 l2 ->
  match l1 with [] => a | _ :: _ => b end
  = match l2 with [] => a | _ :: _ => b end.
Proof.
  intros Hp. destruct l1, l2; try reflexivity.
  - apply Permutation_nil in Hp. discriminate.
  - apply Permutation_sym, Permutation_nil in Hp. discriminate.
Qed.

Lemma fold_left_ext {A B} (f g : A -> B -> A) (l : list B) (a : A) :
  (forall acc e, f acc e = g acc e) -> fold_left f l a = fold_left g l a.
Proof.
  intros H. revert a. induction l as [|e l IH]; intros a; [reflexivity|].
  cbn [fold_left]. now rewrite H, IH.
Qed.

Lemma filter_mem_perm (names1 names2 l1 l2 : list string) :
  Permutation names1 names2 -> Permutation l1 l2 ->
  Permutation (filter (fun s => mem s names1) l1)
    (filter (fun s => mem s names2) l2).
Proof.
  intros Hn Hl.
  rewrite (filter_ext (fun s => mem s names1) (fun s => mem s names2))
    by (intros s; now apply mem_perm).
  now apply Permutation_filter.
Qed.

(** One turn of the loop over the groups gives the same report whatever
    the orders in which its sets and the lists it reads are enumerated. *)
Lemma group_step_perm (env1 env2 : Env) requirements
    (matched1 matched2 : list string)
    (missing1 missing2 : list (string * string)) missing_grouped entry :
  (forall l, Permutation (set_iter (Env := env1) l) l) ->
  (forall l, Permutation (set_iter (Env := env2) l) l) ->
  Permutation matched1 matched2 -> Permutation missing1 missing2 ->
  group_step (env := env1) requirements matched1 missing1 missing_grouped entry
  = group_step (env := env2) requirements matched2 missing2 missing_grouped
      entry.
Proof.
  intros Hp1 Hp2 Hmatched Hmissing. destruct entry as [group skills].
  unfold group_step.
  set (L := map name (filter (fun item => mem (name item) skills) requirements)).
  set (names1 := set_of (env := env1) L).
  set (names2 := set_of (env := env2) L).
  assert (Hn : Permutation names1 names2)
    by (unfold names1, names2, set_of; now rewrite Hp1, Hp2).
  assert (Hgm : Permutation (filter (fun s => mem s names1) matched1)
                  (filter (fun s => mem s names2) matched2))
    by now apply filter_mem_perm.
  assert (Hrec : sorted String.leb
                   (filter (fun s => negb (mem s matched1)) names1)
                 = sorted String.leb
                     (filter (fun s => negb (mem s matched2)) names2)).
  { apply sorted_names_unique.
    rewrite (filter_ext (fun s => negb (mem s matched1))
               (fun s => negb (mem s matched2)))
      by (intros s; f_equal; now apply mem_perm).
    now apply Permutation_filter. }
  assert (Hmis : Permutation
                   (map fst (filter (fun x => mem (fst x) names1) missing1))
                   (map fst (filter (fun x => mem (fst x) names2) missing2))).
  { apply Permutation_map.
    rewrite (filter_ext (fun x => mem (fst x) names1)
               (fun x => mem (fst x) names2))
      by (intros x; now apply mem_perm).
    now apply Permutation_filter. }
  rewrite Hrec, (sorted_names_unique _ _ Hmis).
  rewrite (perm_match _ _ missing_grouped
             (dict_set missing_grouped group
                (sorted String.leb
                   (map fst (filter (fun x => mem (fst x) names2) missing2))))
             Hmis).
  apply (perm_match _ _ _ _ Hgm).
Qed.

Lemma missing_key_injective {env : Env}
    (goals_map : list (string * list Requirement)) (goal resume_text : string)
    (x y : string * string) :
  In x (missing_of goals_map goal resume_text) ->
  In y (missing_of goals_map goal resume_text) ->
  key_le (missing_key x) (missing_key y) = true ->
  key_le (missing_key y) (missing_key x) = true -> x = y.
Proof.
  unfold missing_of. rewrite !in_map_iff.
  intros [s [<- _]] [s' [<- _]] H1 H2.
  pose proof (key_le_antisym _ _ H1 H2) as H. unfold missing_key in H.
  cbn [fst snd] in H. injection H as _ Hs. now subst s'.
Qed.

(** The result of a call does not depend on the order in which Python
    enumerates its sets: with the same collaborators and two enumeration
    orders, the scorer returns the same result or raises the same exception.
    (Only the order of the matcher calls differs.) *)
Theorem set_order_irrelevant {env : Env} (iter : list string -> list string)
    (student_id goal resume_text : string) (config : Config)
    (goals_map : list (string * list Requirement))
    (suggestion_map : list (string * string))
    (skill_groups : list (string * list (string * list string))) :
  (forall l, Permutation (set_iter l) l) ->
  (forall l, Permutation (iter l) l) ->
  outcome (score_resume (env := with_set_iter env iter) student_id goal
             resume_text config goals_map suggestion_map skill_groups)
  = outcome (score_resume (env := env) student_id goal resume_text config
               goals_map suggestion_map skill_groups).
Proof.
  intros Hp2 Hp1. set (env1 := with_set_iter env iter).
  assert (Hp1' : forall l, Permutation (set_iter (Env := env1) l) l)
    by exact Hp1.
  rewrite !score_resume_outcome.
  change (@joblib_load env1) with (@joblib_load env).
  change (@predict_proba env1) with (@predict_proba env).
  destruct (is_empty (strip resume_text)); [reflexivity|].
  destruct (joblib_load _) as [e0|model]; [reflexivity|].
  destruct (joblib_load _) as [e0|vectorizer]; [reflexivity|].
  destruct (predict_proba model vectorizer resume_text) as [e|prob];
    [reflexivity|].
  destruct (minimum_score_to_pass config) as [minimum|]; [|reflexivity].
  f_equal.
  assert (Hnames : Permutation (goal_names (env := env1) goals_map goal)
                     (goal_names (env := env) goals_map goal))
    by (unfold goal_names, set_of; now rewrite Hp1', Hp2).
  assert (Hmatched : Permutation
                       (matched_of (env := env1) goals_map goal resume_text)
                       (matched_of (env := env) goals_map goal resume_text))
    by (apply (Permutation_filter _ _ _ Hnames)).
  assert (Hmissing : Permutation
                       (missing_of (env := env1) goals_map goal resume_text)
                       (missing_of (env := env) goals_map goal resume_text))
    by (apply Permutation_map, (Permutation_filter _ _ _ Hnames)).
  assert (Hcapped : capped_of (env := env1) config goals_map goal resume_text
                    = capped_of (env := env) config goals_map goal resume_text).
  { unfold capped_of. f_equal. f_equal.
    apply sorted_unique; [intros a b; apply key_le_total| |
                          apply missing_key_injective|exact Hmissing].
    intros a b c. apply key_le_trans. }
  unfold report. rewrite Hcapped.
  rewrite (sum_perm _ _ (Permutation_map _ Hnames)).
  rewrite (sum_perm _ _ (Permutation_map _ Hmatched)).
  rewrite (sorted_names_unique _ _ Hmatched).
  rewrite (fold_left_ext
             (group_step (env := env1) (dict_get_or goals_map goal [])
                (matched_of (env := env1) goals_map goal resume_text)
                (missing_of (env := env1) goals_map goal resume_text))
             (group_step (env := env) (dict_get_or goals_map goal [])
                (matched_of (env := env) goals_map goal resume_text)
                (missing_of (env := env) goals_map goal resume_text)))
    by (intros acc e; now apply group_step_perm).
  reflexivity.
Qed.

Lemma set_order_irrelevant_witness :
  outcome (score_resume (env := with_set_iter Demo.env (fun l => l)) "123"
             "Amazon SDE" Demo.resume Demo.config Demo.goals_map
             Demo.suggestion_map Demo.skill_groups)
  = outcome (Demo.run "Amazon SDE" Demo.resume).
Proof.
  apply (set_order_irrelevant (env := Demo.env) (fun l => l)).
  - exact demo_set_iter_perm.
  - intros l. reflexivity.
Defined.

(* ------------------------------------------------------------------ *)
(** ** Repeated skill names *)

(** A goal table that names a skill more than once gives the skill the
    importance of its last occurrence, and the scorer iterates over it,
    and so counts it in the skill score and lists it, only once. *)
Theorem repeated_requirement {env : Env}
    (goals_map : list (string * list Requirement)) (goal : string)
    (before after : list Requirement) (r : Requirement) :
  (forall l, Permutation (set_iter l) l) ->
  dict_get_or goals_map goal [] = before ++ r :: after ->
  ~ In (name r) (map name after) ->
  importance_in goals_map goal (name r) = importance r /\
  skill_points (goal_dict goals_map goal) (name r) = Spec.weight_of r /\
  count_occ string_dec (goal_names goals_map goal) (name r) = 1%nat.
Proof.
  intros Hperm Hreqs Hlast.
  assert (Hget : dict_get (goal_dict goals_map goal) (name r)
                 = Some (importance r)).
  { unfold goal_dict. rewrite Hreqs, map_app. cbn [map].
    apply dict_of_items_last. now rewrite map_map. }
  split; [|split].
  - unfold importance_in, dict_get_or. now rewrite Hget.
  - unfold skill_points, Spec.weight_of. rewrite <- weights_table.
    unfold dict_get_or at 2. now rewrite Hget.
  - apply NoDup_count_occ'; [now apply goal_names_NoDup|].
    apply (goal_names_In Hperm). unfold required_names.
    rewrite Hreqs, map_app. apply in_or_app. right. now left.
Qed.

Lemma repeated_requirement_witness :
  let goals_map :=
    [("Amazon SDE",
      [Demo.req "Java" "nice_to_have"; Demo.req "SQL" "core";
       Demo.req "Java" "core"])] in
  importance_in goals_map "Amazon SDE" "Java" = "core" /\
  skill_points (goal_dict goals_map "Amazon SDE") "Java"
  = Spec.weight_of (Demo.req "Java" "core") /\
  count_occ string_dec (goal_names (env := Demo.env) goals_map "Amazon SDE")
    "Java" = 1%nat.
Proof.
  apply (repeated_requirement (env := Demo.env)
           [("Amazon SDE",
             [Demo.req "Java" "nice_to_have"; Demo.req "SQL" "core";
              Demo.req "Java" "core"])]
           "Amazon SDE"
           [Demo.req "Java" "nice_to_have"; Demo.req "SQL" "core"] []
           (Demo.req "Java" "core")).
  - exact demo_set_iter_perm.
  - reflexivity.
  - intros [].
Defined.
